(** * Provider data validation: confidence aggregation and decision pipeline

    A shallow embedding of the scoring core of the provider validation
    system (services/confidence_calculator.py, agents/quality_assurance_agent.py,
    agents/data_validation_agent.py, agents/directory_management_agent.py,
    agents/orchestrator.py, config.py, models/data_models.py) and the
    properties established about it.

    Modelling conventions.
    - Python [float] values are modelled twice. Where a property depends on
      how the interpreter rounds (the value of the aggregate, the penalty of a
      failed outcome, what another outcome does to the aggregate, the rows of
      the confidence breakdown), the functions are modelled in [Module
      Doubles] on IEEE 754 binary64 numbers, Rocq's primitive floats, with
      the operations and in the order of the source. Where only comparisons
      with thresholds and bounds matter (status, decision flags, counters,
      ranges), confidences are exact rationals [Q] with the boolean
      comparisons of [Q]; NaN and infinities are outside that model.
    - [datetime] values are integers counting microseconds (the resolution of
      [timedelta]); [datetime.now()] is a parameter [now] that does not advance
      during one call.
    - Raised objects are values of type [exn]: an instance of a class
      derived from [Exception], which [except Exception] and
      [isinstance(e, Exception)] recognise, or an [asyncio.CancelledError],
      which they do not; each with the text [str(e)] gives. A call that may
      raise returns [exn + A].
    - A dict whose iteration order is observed is an insertion-ordered
      association list ([PyDict]); the dicts keyed by provider id, which are
      only looked up and counted, are [gmap string _].
    - Awaited coroutines run to completion one after another; [asyncio.gather]
      with [return_exceptions=True] yields, per task, either its value or the
      object it raised, a [CancelledError] included.
    - Record fields that no modelled function reads (uuids, free-text
      summaries, wall-clock durations, raw source payloads) are omitted. *)

From Stdlib Require Import QArith Qminmax Lqa ZArith Lia List String Ascii Bool.
From Stdlib Require Import Permutation Sorted Floats.
From stdpp Require Import gmap strings.
Import ListNotations.

Local Open Scope string_scope.
Set Warnings "-inexact-float".

(** ** Python helpers *)

(** A raised object. [KeyboardInterrupt] and [SystemExit], which end the
    event loop, are not modelled. *)
Inductive exn : Type :=
  | Exception (message : string)
  | CancelledError (message : string).

(** [str(e)] *)
Definition str (e : exn) : string :=
  match e with
  | Exception message => message
  | CancelledError message => message
  end.

(** [isinstance(e, Exception)] *)
Definition isinstance_Exception (e : exn) : bool :=
  match e with
  | Exception _ => true
  | CancelledError _ => false
  end.

(** What is found where the code expects an [A]: an [A], or the
    [CancelledError] object (with its text) that [asyncio.gather] returned
    and that the code stored in its place. *)
Inductive stored (A : Type) : Type :=
  | Found (a : A)
  | Cancelled (message : string).
Arguments Found {A} a.
Arguments Cancelled {A} message.

(** The [AttributeError] raised when an attribute is read from such an
    object. *)
Definition no_attribute (name : string) : exn :=
  Exception ("'CancelledError' object has no attribute '" ++ name ++ "'").

Definition Qlt_bool (x y : Q) : bool := negb (Qle_bool y x).

(** [min(a, b)] and [max(a, b)] of Python: the first argument is kept unless
    the second is strictly smaller (resp. larger). *)
Definition py_min (a b : Q) : Q := if Qlt_bool b a then b else a.
Definition py_max (a b : Q) : Q := if Qlt_bool a b then b else a.

(** [range(start, stop, step)] for a positive step. *)
Definition py_range (start stop step : nat) : list nat :=
  List.map (fun i => (start + i * step)%nat)
           (seq 0 ((stop - start + (step - 1)) / step)).

(** [l[i:j]] for in-range non-negative bounds. *)
Definition py_slice {A} (l : list A) (i j : nat) : list A :=
  firstn (j - i) (skipn i l).

Module PyDict.
(** An insertion-ordered dict with string keys: assigning to an existing
    key replaces the value in place, a new key goes to the end. *)
Definition t (V : Type) : Type := list (string * V).

Fixpoint get {V} (d : t V) (k : string) : option V :=
  match d with
  | [] => None
  | (k', v) :: r => if String.eqb k' k then Some v else get r k
  end.

Fixpoint set {V} (d : t V) (k : string) (v : V) : t V :=
  match d with
  | [] => [(k, v)]
  | (k', v') :: r =>
      if String.eqb k' k then (k', v) :: r else (k', v') :: set r k v
  end.

Definition get_default {V} (d : t V) (k : string) (dflt : V) : V :=
  match get d k with Some v => v | None => dflt end.

Definition contains {V} (d : t V) (k : string) : bool :=
  match get d k with Some _ => true | None => false end.

Definition keys {V} (d : t V) : list string := List.map fst d.
Definition values {V} (d : t V) : list V := List.map snd d.
End PyDict.

(** ** models/data_models.py *)

Inductive ValidationStatus : Set :=
  PENDING | VALIDATED | NEEDS_REVIEW | URGENT | ERROR.

Inductive DiscrepancyType : Set :=
  | PHONE_MISMATCH | ADDRESS_MISMATCH | NAME_MISMATCH | SPECIALTY_MISMATCH
  | LICENSE_ISSUE | NPI_INVALID | STATUS_CHANGE | EMAIL_INVALID
  | FAX_MISMATCH | WEBSITE_ISSUE | HOURS_MISMATCH.

Definition DiscrepancyType_value (t : DiscrepancyType) : string :=
  match t with
  | PHONE_MISMATCH => "phone_mismatch"
  | ADDRESS_MISMATCH => "address_mismatch"
  | NAME_MISMATCH => "name_mismatch"
  | SPECIALTY_MISMATCH => "specialty_mismatch"
  | LICENSE_ISSUE => "license_issue"
  | NPI_INVALID => "npi_invalid"
  | STATUS_CHANGE => "status_change"
  | EMAIL_INVALID => "email_invalid"
  | FAX_MISMATCH => "fax_mismatch"
  | WEBSITE_ISSUE => "website_issue"
  | HOURS_MISMATCH => "hours_mismatch"
  end.

Inductive Priority : Set := HIGH | MEDIUM | LOW.

Definition Priority_eqb (p q : Priority) : bool :=
  match p, q with
  | HIGH, HIGH | MEDIUM, MEDIUM | LOW, LOW => true
  | _, _ => false
  end.

Inductive DataSource : Set :=
  NPI_REGISTRY | GOOGLE_PLACES | PRACTICE_WEBSITE | STATE_LICENSE | PDF_DOCUMENT.

Definition DataSource_value (s : DataSource) : string :=
  match s with
  | NPI_REGISTRY => "npi_registry"
  | GOOGLE_PLACES => "google_places"
  | PRACTICE_WEBSITE => "practice_website"
  | STATE_LICENSE => "state_license"
  | PDF_DOCUMENT => "pdf_document"
  end.

Definition DataSource_eqb (a b : DataSource) : bool :=
  String.eqb (DataSource_value a) (DataSource_value b).

Record Provider : Type := {
  p_id : string;
  p_npi : string;
  p_first_name : string;
  p_last_name : string
}.

Record Discrepancy : Type := {
  d_provider_id : string;
  d_type : DiscrepancyType;
  d_field_name : string;
  d_current_value : string;
  d_validated_value : string;
  d_source : DataSource;
  d_priority : Priority;
  d_confidence : Q;
  d_resolved : bool;
  d_detected_at : Z
}.

Record SourceValidation : Type := {
  sv_source : DataSource;
  sv_success : bool;
  sv_confidence : Q;
  sv_discrepancies : list Discrepancy;
  sv_error_message : option string;
  sv_timestamp : Z
}.

Record ValidationResult : Type := {
  vr_provider_id : string;
  vr_status : ValidationStatus;
  vr_overall_confidence : Q;
  vr_source_validations : list SourceValidation;
  vr_discrepancies : list Discrepancy;
  vr_total_discrepancies : nat;
  vr_auto_updated : bool;
  vr_needs_review : bool;
  vr_urgent_review : bool
}.

Record ValidationReport : Type := {
  rep_total_providers : Z;
  rep_validated : Z;
  rep_auto_updated : Z;
  rep_needs_review : Z;
  rep_urgent : Z;
  rep_errors : Z;
  rep_average_confidence : Q
}.

(** ** config.py *)

Definition CONFIDENCE_THRESHOLDS : PyDict.t Q :=
  [("auto_update", 80%Q); ("needs_review", 60%Q); ("urgent", 0%Q)].

Definition SOURCE_WEIGHTS : PyDict.t Q :=
  [("npi_registry", 35 # 100); ("google_places", 25 # 100);
   ("practice_website", 20 # 100); ("state_license", 15 # 100);
   ("pdf_document", 5 # 100)].

Definition BATCH_SIZE : nat := 50.

(** ** services/confidence_calculator.py *)

Module ConfidenceCalculator.

Definition source_weights : PyDict.t Q := SOURCE_WEIGHTS.

(** [self.thresholds[key]]; both keys read by the class are present in
    the table, so the subscript never raises. *)
Definition thresholds (key : string) : Q :=
  PyDict.get_default CONFIDENCE_THRESHOLDS key 0%Q.

Definition hours (n : Z) : Z := n * 3600 * 1000000.
Definition days (n : Z) : Z := n * 24 * 3600 * 1000000.

Definition _calculate_freshness_factor (now timestamp : Z) : Q :=
  let age := (now - timestamp)%Z in
  if (age <? hours 24)%Z then 105 # 100
  else if (age <? days 7)%Z then 102 # 100
  else if (age <? days 30)%Z then 1
  else if (age <? days 90)%Z then 95 # 100
  else 90 # 100.

(** The weight a validation is looked up with. *)
Definition weight_of (validation : SourceValidation) : Q :=
  PyDict.get_default source_weights
    (DataSource_value (sv_source validation)) (1 # 10).

(** One iteration of the accumulation loop on the pair
    [(total_weight, weighted_confidence)], in exact arithmetic ([Doubles]
    has the loop as the interpreter rounds it). *)
Definition accumulate (now : Z) (acc : Q * Q) (validation : SourceValidation)
  : Q * Q :=
  let '(total_weight, weighted_confidence) := acc in
  let weight := weight_of validation in
  if sv_success validation then
    let freshness := _calculate_freshness_factor now (sv_timestamp validation) in
    let adjusted_confidence := (sv_confidence validation * freshness)%Q in
    ((total_weight + weight)%Q,
     (weighted_confidence + weight * adjusted_confidence)%Q)
  else
    (total_weight, (weighted_confidence - weight * 10)%Q).

Definition calculate_overall_confidence
    (now : Z) (source_validations : list SourceValidation) : Q :=
  match source_validations with
  | [] => 0%Q
  | _ =>
      let '(total_weight, weighted_confidence) :=
        fold_left (accumulate now) source_validations (0%Q, 0%Q) in
      if Qeq_bool total_weight 0 then 0%Q
      else
        let overall := (weighted_confidence / total_weight)%Q in
        py_max 0 (py_min 100 overall)
  end.

Definition determine_validation_status (confidence : Q) : ValidationStatus :=
  if Qle_bool (thresholds "auto_update") confidence then VALIDATED
  else if Qle_bool (thresholds "needs_review") confidence then NEEDS_REVIEW
  else URGENT.

Definition is_nonempty {A} (l : list A) : bool :=
  match l with [] => false | _ => true end.

Definition should_auto_update
    (confidence : Q) (discrepancies : list Discrepancy) : bool :=
  if Qlt_bool confidence (thresholds "auto_update") then false
  else
    let high_priority :=
      List.filter (fun d => Priority_eqb (d_priority d) HIGH) discrepancies in
    if is_nonempty high_priority then false
    else
      let low_confidence_discs :=
        List.filter (fun d => Qlt_bool (d_confidence d) 75) discrepancies in
      if is_nonempty low_confidence_discs then false
      else true.

Definition critical_types : list string :=
  ["license_issue"; "npi_invalid"; "status_change"].

Definition str_in (s : string) (l : list string) : bool :=
  existsb (String.eqb s) l.

Definition needs_urgent_review
    (confidence : Q) (discrepancies : list Discrepancy) : bool :=
  if Qlt_bool confidence (thresholds "needs_review") then true
  else if existsb (fun disc => str_in (DiscrepancyType_value (d_type disc))
                                        critical_types) discrepancies
  then true
  else
    let high_priority :=
      List.filter (fun d => Priority_eqb (d_priority d) HIGH) discrepancies in
    if (2 <=? length high_priority)%nat then true
    else false.

Definition calculate_validation_result
    (now : Z) (provider : Provider)
    (source_validations : list SourceValidation) : ValidationResult :=
  let all_discrepancies := flat_map sv_discrepancies source_validations in
  let overall_confidence :=
    calculate_overall_confidence now source_validations in
  let status := determine_validation_status overall_confidence in
  let auto_updated := should_auto_update overall_confidence all_discrepancies in
  let urgent_review := needs_urgent_review overall_confidence all_discrepancies in
  let needs_review := negb auto_updated && negb urgent_review in
  {| vr_provider_id := p_id provider;
     vr_status := status;
     vr_overall_confidence := overall_confidence;
     vr_source_validations := source_validations;
     vr_discrepancies := all_discrepancies;
     vr_total_discrepancies := length all_discrepancies;
     vr_auto_updated := auto_updated;
     vr_needs_review := needs_review;
     vr_urgent_review := urgent_review |}.

End ConfidenceCalculator.

(** ** services/confidence_calculator.py in binary64

    Python's [float] is the IEEE 754 binary64 format, and every operation on
    it rounds to nearest, ties to even; Rocq's primitive floats are the
    same numbers with the same operations, and a decimal literal denotes the
    nearest binary64 number in both. The functions of the class that compute
    with floats are modelled here once more, operation by operation. *)

Module Doubles.
Local Open Scope float_scope.

(** [SourceValidation] with its confidence as a float. The discrepancies
    are only counted by the functions below. *)
Record SourceValidation : Type := {
  sv_source : DataSource;
  sv_success : bool;
  sv_confidence : float;
  sv_discrepancies : list Discrepancy;
  sv_error_message : option string;
  sv_timestamp : Z
}.

Definition SOURCE_WEIGHTS : PyDict.t float :=
  [("npi_registry", 0.35); ("google_places", 0.25);
   ("practice_website", 0.20); ("state_license", 0.15);
   ("pdf_document", 0.05)].

(** [min(a, b)] and [max(a, b)]: the first argument is kept unless the
    second is strictly smaller (resp. larger); a NaN is neither. *)
Definition py_min (a b : float) : float := if b <? a then b else a.
Definition py_max (a b : float) : float := if a <? b then b else a.

Definition _calculate_freshness_factor (now timestamp : Z) : float :=
  let age := (now - timestamp)%Z in
  if (age <? ConfidenceCalculator.hours 24)%Z then 1.05
  else if (age <? ConfidenceCalculator.days 7)%Z then 1.02
  else if (age <? ConfidenceCalculator.days 30)%Z then 1.0
  else if (age <? ConfidenceCalculator.days 90)%Z then 0.95
  else 0.90.

(** [self.source_weights.get(validation.source.value, 0.1)] *)
Definition weight_of (validation : SourceValidation) : float :=
  PyDict.get_default SOURCE_WEIGHTS
    (DataSource_value (sv_source validation)) 0.1.

(** One iteration of the accumulation loop on the pair
    [(total_weight, weighted_confidence)]. *)
Definition accumulate (now : Z) (acc : float * float)
    (validation : SourceValidation) : float * float :=
  let '(total_weight, weighted_confidence) := acc in
  let weight := weight_of validation in
  if sv_success validation then
    let freshness := _calculate_freshness_factor now (sv_timestamp validation) in
    let adjusted_confidence := sv_confidence validation * freshness in
    (total_weight + weight, weighted_confidence + weight * adjusted_confidence)
  else
    (total_weight, weighted_confidence - weight * 10).

Definition calculate_overall_confidence
    (now : Z) (source_validations : list SourceValidation) : float :=
  match source_validations with
  | [] => 0.0
  | _ =>
      let '(total_weight, weighted_confidence) :=
        fold_left (accumulate now) source_validations (0.0, 0.0) in
      if total_weight =? 0 then 0.0
      else
        let overall := weighted_confidence / total_weight in
        py_max 0.0 (py_min 100.0 overall)
  end.






End Doubles.

(** ** The built-in [sorted]

    [sorted(xs, key=...)] is a stable sort that only uses [<] on the keys.
    The result of a stable sort is determined by the input and the order, so
    it is modelled by the stable insertion sort below: an element is placed
    before the first later element whose key is not strictly smaller. *)

Section Sorted.
Context {A K : Type} (key : A -> K) (lt : K -> K -> bool).

Fixpoint insert_sorted (x : A) (l : list A) : list A :=
  match l with
  | [] => [x]
  | y :: r =>
      if lt (key y) (key x) then y :: insert_sorted x r else x :: y :: r
  end.

Fixpoint sorted (l : list A) : list A :=
  match l with
  | [] => []
  | x :: r => insert_sorted x (sorted r)
  end.

(** [a] may stand before [b]: [b]'s key is not strictly smaller. *)
Definition not_after (a b : A) : Prop := lt (key b) (key a) = false.

End Sorted.

(** ** agents/quality_assurance_agent.py *)

Module QualityAssuranceAgent.
Import ConfidenceCalculator.

(** [f"{disc.field_name}_{disc.type.value}"] *)
Definition dedup_key (disc : Discrepancy) : string :=
  d_field_name disc ++ "_" ++ DiscrepancyType_value (d_type disc).

(** The body of the deduplication loop. *)
Definition dedup_step (deduped : PyDict.t Discrepancy) (disc : Discrepancy)
  : PyDict.t Discrepancy :=
  let key := dedup_key disc in
  match PyDict.get deduped key with
  | None => PyDict.set deduped key disc
  | Some kept =>
      if Qlt_bool (d_confidence kept) (d_confidence disc)
      then PyDict.set deduped key disc
      else deduped
  end.

Definition priority_order (p : Priority) : nat :=
  match p with HIGH => 0 | MEDIUM => 1 | LOW => 2 end.

(** The sort key [(priority_order[d.priority], -d.confidence)]. *)
Definition sort_key (d : Discrepancy) : nat * Q :=
  (priority_order (d_priority d), (- d_confidence d)%Q).

(** [<] on tuples: the first components that differ decide. *)
Definition tuple_lt (a b : nat * Q) : bool :=
  if Nat.eqb (fst a) (fst b) then Qlt_bool (snd a) (snd b)
  else Nat.ltb (fst a) (fst b).

Definition _prioritize_discrepancies (discrepancies : list Discrepancy)
  : list Discrepancy :=
  let deduped := fold_left dedup_step discrepancies [] in
  sorted sort_key tuple_lt (PyDict.values deduped).

Definition assess_provider
    (now : Z) (provider : Provider)
    (source_validations : PyDict.t SourceValidation) : ValidationResult :=
  let validations := PyDict.values source_validations in
  let overall_confidence := calculate_overall_confidence now validations in
  let all_discrepancies := flat_map sv_discrepancies validations in
  let prioritized_discrepancies := _prioritize_discrepancies all_discrepancies in
  let status := determine_validation_status overall_confidence in
  let should_auto_update_ :=
    should_auto_update overall_confidence prioritized_discrepancies in
  let needs_urgent :=
    needs_urgent_review overall_confidence prioritized_discrepancies in
  let needs_review := negb should_auto_update_ && negb needs_urgent in
  {| vr_provider_id := p_id provider;
     vr_status := status;
     vr_overall_confidence := overall_confidence;
     vr_source_validations := validations;
     vr_discrepancies := prioritized_discrepancies;
     vr_total_discrepancies := length prioritized_discrepancies;
     vr_auto_updated := should_auto_update_;
     vr_needs_review := needs_review;
     vr_urgent_review := needs_urgent |}.

Section AssessBatch.
(** What awaiting [self.assess_provider(provider, source_validations)]
    yields, and what a call of the progress callback does
    ([Some e]: it raises [e]). *)
Variable assess :
  Provider -> PyDict.t SourceValidation -> exn + ValidationResult.
Variable progress_callback : option (nat -> nat -> option exn).

Fixpoint assess_loop
    (items : list (nat * Provider)) (total : nat)
    (validation_results : gmap string (PyDict.t SourceValidation))
    (assessments : gmap string ValidationResult)
  : exn + gmap string ValidationResult :=
  match items with
  | [] => inr assessments
  | (i, provider) :: rest =>
      let source_validations :=
        default [] (validation_results !! p_id provider) in
      match assess provider source_validations with
      | inl e => inl e
      | inr result =>
          let assessments' := <[p_id provider := result]> assessments in
          match progress_callback with
          | Some cb =>
              match cb (i + 1)%nat total with
              | Some e => inl e
              | None => assess_loop rest total validation_results assessments'
              end
          | None => assess_loop rest total validation_results assessments'
          end
      end
  end.

Definition assess_batch
    (providers : list Provider)
    (validation_results : gmap string (PyDict.t SourceValidation))
  : exn + gmap string ValidationResult :=
  let total := length providers in
  assess_loop (combine (seq 0 total) providers) total validation_results ∅.
End AssessBatch.

End QualityAssuranceAgent.

(** ** agents/data_validation_agent.py *)

Module DataValidationAgent.

(** The [SourceValidation] built when a task raised. *)
Definition failed_validation (now : Z) (source : DataSource) (e : exn)
  : SourceValidation :=
  {| sv_source := source;
     sv_success := false;
     sv_confidence := 0%Q;
     sv_discrepancies := [];
     sv_error_message := Some (str e);
     sv_timestamp := now |}.

Section ValidateProvider.
(** What [asyncio.gather] with [return_exceptions=True] yields for the
    adapter of a source and a provider: its validation, or the object it
    raised. *)
Variable query : DataSource -> Provider -> exn + SourceValidation.
Variable now : Z.

Definition default_sources : list DataSource :=
  [NPI_REGISTRY; GOOGLE_PLACES; PRACTICE_WEBSITE].

(** The sources a task is created for, in order ([source_names]). *)
Definition task_sources (sources : list DataSource) : list DataSource :=
  List.filter
    (fun source =>
       DataSource_eqb source NPI_REGISTRY
       || DataSource_eqb source GOOGLE_PLACES
       || DataSource_eqb source PRACTICE_WEBSITE)
    sources.

(** The body of the loop over the gathered results: a result that is an
    [Exception] is replaced by a failed validation, any other result is
    stored as it is. *)
Definition store_source_result
    (provider : Provider) (results : PyDict.t (stored SourceValidation))
    (source : DataSource) : PyDict.t (stored SourceValidation) :=
  let source_name := DataSource_value source in
  match query source provider with
  | inl e =>
      if isinstance_Exception e
      then PyDict.set results source_name
             (Found (failed_validation now source e))
      else PyDict.set results source_name (Cancelled (str e))
  | inr result => PyDict.set results source_name (Found result)
  end.

(** [all(r.success for r in results.values())]: it stops at the first
    validation that is not successful, and raises when it reads [success]
    from an object that has none. *)
Fixpoint all_success (values : list (stored SourceValidation)) : exn + bool :=
  match values with
  | [] => inr true
  | Found r :: rest => if sv_success r then all_success rest else inr false
  | Cancelled _ :: _ => inl (no_attribute "success")
  end.

Definition validate_provider
    (provider : Provider) (sources : option (list DataSource))
  : exn + PyDict.t (stored SourceValidation) :=
  let sources := default default_sources sources in
  let results :=
    fold_left (store_source_result provider) (task_sources sources) [] in
  match all_success (PyDict.values results) with
  | inl e => inl e
  | inr _ => inr results
  end.
End ValidateProvider.

Section ValidateBatch.
(** What [asyncio.gather] with [return_exceptions=True] yields for
    [self.validate_provider(p, sources)]. *)
Variable run_task : Provider -> exn + PyDict.t (stored SourceValidation).
Variable progress_callback : option (nat -> nat -> option exn).
Variable now : Z.

Definition store_result
    (all_results : gmap string (stored (PyDict.t (stored SourceValidation))))
    (provider : Provider)
  : gmap string (stored (PyDict.t (stored SourceValidation))) :=
  match run_task provider with
  | inl e =>
      if isinstance_Exception e
      then <[p_id provider :=
               Found [("error",
                        Found (failed_validation now NPI_REGISTRY e))]]>
             all_results
      else <[p_id provider := Cancelled (str e)]> all_results
  | inr result => <[p_id provider := Found result]> all_results
  end.

Fixpoint batch_loop
    (starts : list nat) (providers : list Provider) (total : nat)
    (all_results : gmap string (stored (PyDict.t (stored SourceValidation))))
  : exn + gmap string (stored (PyDict.t (stored SourceValidation))) :=
  match starts with
  | [] => inr all_results
  | batch_start :: rest =>
      let batch_end := Nat.min (batch_start + BATCH_SIZE) total in
      let batch := py_slice providers batch_start batch_end in
      let all_results' := fold_left store_result batch all_results in
      match progress_callback with
      | Some cb =>
          match cb batch_end total with
          | Some e => inl e
          | None => batch_loop rest providers total all_results'
          end
      | None => batch_loop rest providers total all_results'
      end
  end.

Definition validate_batch (providers : list Provider)
  : exn + gmap string (stored (PyDict.t (stored SourceValidation))) :=
  let total := length providers in
  batch_loop (py_range 0 total BATCH_SIZE) providers total ∅.
End ValidateBatch.

End DataValidationAgent.

(** ** agents/directory_management_agent.py *)

Module DirectoryManagementAgent.

Definition count_where (f : ValidationResult -> bool)
    (results : list ValidationResult) : Z :=
  Z.of_nat (length (List.filter f results)).

Definition Qsum (l : list Q) : Q := fold_left Qplus l 0%Q.

Definition generate_validation_report
    (providers : list Provider)
    (validation_results : gmap string ValidationResult) : ValidationReport :=
  let values := (map_to_list validation_results).*2 in
  let total := Z.of_nat (length providers) in
  let auto_updated := count_where vr_auto_updated values in
  let needs_review := count_where vr_needs_review values in
  let urgent := count_where vr_urgent_review values in
  let errors := (total - (auto_updated + needs_review + urgent))%Z in
  let confidences := List.map vr_overall_confidence values in
  let avg_confidence :=
    match confidences with
    | [] => 0%Q
    | _ => (Qsum confidences / inject_Z (Z.of_nat (length confidences)))%Q
    end in
  {| rep_total_providers := total;
     rep_validated := (auto_updated + needs_review + urgent)%Z;
     rep_auto_updated := auto_updated;
     rep_needs_review := needs_review;
     rep_urgent := urgent;
     rep_errors := errors;
     rep_average_confidence := avg_confidence |}.

End DirectoryManagementAgent.


(** ** agents/orchestrator.py

    The four agents are collaborators of the orchestrator: what awaiting each
    of their batch operations yields (a value or a raised exception) is a
    parameter. The state threaded through [run_full_validation] holds the
    orchestrator object, the [results] dict under construction, and a ghost
    log of the agent operations that were invoked. *)

Module ValidationOrchestrator.

Record ErrorEntry : Type := {
  err_stage : option string;
  err_error : string;
  err_timestamp : Z
}.

Section Pipeline.
Context {SourceValidations Enrichments Assessments Actions Report : Type}.

Record Results : Type := {
  res_providers : PyDict.t Provider;
  res_validation_results : option Assessments;
  res_enrichments : option Enrichments;
  res_actions : option Actions;
  res_report : option Report;
  res_errors : list ErrorEntry;
  res_timing : list string;
  res_export_path : option string
}.

Record Orchestrator : Type := {
  is_running : bool;
  current_stage : option string;
  enable_enrichment : bool;
  auto_export_results : bool;
  export_format : string;
  last_run_results : option Results
}.

Record St : Type := {
  self : Orchestrator;
  results : Results;
  invoked : list string
}.

(** A small state-and-exception monad. *)
Definition M (A : Type) : Type := St -> St * (exn + A).

Definition ret {A} (a : A) : M A := fun s => (s, inr a).

Definition bind {A B} (m : M A) (k : A -> M B) : M B :=
  fun s =>
    match m s with
    | (s', inl e) => (s', inl e)
    | (s', inr a) => k a s'
    end.

Definition modify (f : St -> St) : M unit := fun s => (f s, inr tt).

Definition get_self : M Orchestrator := fun s => (s, inr (self s)).

(** [try: m  except Exception as e: h e]: a raised object that is not an
    [Exception] is not handled. *)
Definition try_except (m : M unit) (h : exn -> M unit) : M unit :=
  fun s =>
    match m s with
    | (s', inl e) => if isinstance_Exception e then h e s' else (s', inl e)
    | (s', inr a) => (s', inr a)
    end.

(** [try: m  finally: f], where [f] does not raise. *)
Definition try_finally {A} (m : M A) (f : St -> St) : M A :=
  fun s => let '(s', r) := m s in (f s', r).

Notation "x <- m ;; k" := (bind m (fun x => k))
  (at level 100, m at next level, right associativity).
Notation "m ;; k" := (bind m (fun _ => k))
  (at level 100, right associativity).

(** The collaborators of one run: what awaiting each agent operation yields,
    what calling [progress_callback] with a given stage label does ([Some e]:
    it raises [e]), and [datetime.now()] when the handler runs. Each label is
    passed at most once by [run_full_validation] itself; percentages and
    messages do not influence its control flow and are left out. *)
Record Collaborators : Type := {
  validate_batch : list Provider -> exn + SourceValidations;
  enrich_batch : list Provider -> exn + Enrichments;
  assess_batch : list Provider -> SourceValidations -> exn + Assessments;
  process_batch : list Provider -> Assessments -> exn + Actions;
  generate_validation_report : list Provider -> Assessments -> exn + Report;
  export_results : list Provider -> Assessments -> string -> exn + string;
  progress_callback : option (string -> option exn);
  now : Z
}.

Variable env : Collaborators.

Definition with_self (f : Orchestrator -> Orchestrator) : St -> St :=
  fun s => {| self := f (self s); results := results s; invoked := invoked s |}.

Definition with_results (f : Results -> Results) : St -> St :=
  fun s => {| self := self s; results := f (results s); invoked := invoked s |}.

Definition set_is_running (b : bool) (o : Orchestrator) : Orchestrator :=
  {| is_running := b; current_stage := current_stage o;
     enable_enrichment := enable_enrichment o;
     auto_export_results := auto_export_results o;
     export_format := export_format o;
     last_run_results := last_run_results o |}.

Definition set_current_stage (st : option string) (o : Orchestrator)
  : Orchestrator :=
  {| is_running := is_running o; current_stage := st;
     enable_enrichment := enable_enrichment o;
     auto_export_results := auto_export_results o;
     export_format := export_format o;
     last_run_results := last_run_results o |}.

Definition set_last_run_results (r : Results) (o : Orchestrator)
  : Orchestrator :=
  {| is_running := is_running o; current_stage := current_stage o;
     enable_enrichment := enable_enrichment o;
     auto_export_results := auto_export_results o;
     export_format := export_format o;
     last_run_results := Some r |}.

Definition empty_results : Results :=
  {| res_providers := []; res_validation_results := None;
     res_enrichments := None; res_actions := None; res_report := None;
     res_errors := []; res_timing := []; res_export_path := None |}.

Definition set_enrichments (v : Enrichments) (r : Results) : Results :=
  {| res_providers := res_providers r;
     res_validation_results := res_validation_results r;
     res_enrichments := Some v; res_actions := res_actions r;
     res_report := res_report r; res_errors := res_errors r;
     res_timing := res_timing r; res_export_path := res_export_path r |}.

Definition set_validation_results (v : Assessments) (r : Results) : Results :=
  {| res_providers := res_providers r;
     res_validation_results := Some v;
     res_enrichments := res_enrichments r; res_actions := res_actions r;
     res_report := res_report r; res_errors := res_errors r;
     res_timing := res_timing r; res_export_path := res_export_path r |}.

Definition set_actions (v : Actions) (r : Results) : Results :=
  {| res_providers := res_providers r;
     res_validation_results := res_validation_results r;
     res_enrichments := res_enrichments r; res_actions := Some v;
     res_report := res_report r; res_errors := res_errors r;
     res_timing := res_timing r; res_export_path := res_export_path r |}.

Definition set_report (v : Report) (r : Results) : Results :=
  {| res_providers := res_providers r;
     res_validation_results := res_validation_results r;
     res_enrichments := res_enrichments r; res_actions := res_actions r;
     res_report := Some v; res_errors := res_errors r;
     res_timing := res_timing r; res_export_path := res_export_path r |}.

Definition set_export_path (v : string) (r : Results) : Results :=
  {| res_providers := res_providers r;
     res_validation_results := res_validation_results r;
     res_enrichments := res_enrichments r; res_actions := res_actions r;
     res_report := res_report r; res_errors := res_errors r;
     res_timing := res_timing r; res_export_path := Some v |}.

Definition set_providers (v : PyDict.t Provider) (r : Results) : Results :=
  {| res_providers := v;
     res_validation_results := res_validation_results r;
     res_enrichments := res_enrichments r; res_actions := res_actions r;
     res_report := res_report r; res_errors := res_errors r;
     res_timing := res_timing r; res_export_path := res_export_path r |}.

Definition add_timing (k : string) (r : Results) : Results :=
  {| res_providers := res_providers r;
     res_validation_results := res_validation_results r;
     res_enrichments := res_enrichments r; res_actions := res_actions r;
     res_report := res_report r; res_errors := res_errors r;
     res_timing := res_timing r ++ [k]; res_export_path := res_export_path r |}.

Definition append_error (e : ErrorEntry) (r : Results) : Results :=
  {| res_providers := res_providers r;
     res_validation_results := res_validation_results r;
     res_enrichments := res_enrichments r; res_actions := res_actions r;
     res_report := res_report r; res_errors := res_errors r ++ [e];
     res_timing := res_timing r; res_export_path := res_export_path r |}.

(** [self.current_stage = name] *)
Definition enter_stage (name : string) : M unit :=
  modify (with_self (set_current_stage (Some name))).

(** [self._report_progress(progress_callback, stage, ...)] *)
Definition _report_progress (stage : string) : M unit :=
  fun s =>
    match progress_callback env with
    | Some callback =>
        match callback stage with
        | Some e => (s, inl e)
        | None => (s, inr tt)
        end
    | None => (s, inr tt)
    end.

(** Awaiting an agent operation: the invocation is logged (ghost), then its
    value is returned or its exception raised. *)
Definition await {A} (name : string) (outcome : exn + A) : M A :=
  fun s =>
    ({| self := self s; results := results s;
        invoked := invoked s ++ [name] |}, outcome).

(** [{p.id: p for p in providers}] *)
Definition providers_by_id (providers : list Provider) : PyDict.t Provider :=
  fold_left (fun d p => PyDict.set d (p_id p) p) providers [].

(** The body of the [try] block. *)
Definition stages (providers : list Provider) : M unit :=
  enter_stage "data_validation" ;;
  _report_progress "Validating Data" ;;
  source_validations <- await "validate_batch" (validate_batch env providers) ;;
  modify (with_results (add_timing "data_validation")) ;;
  o <- get_self ;;
  (if enable_enrichment o then
     enter_stage "enrichment" ;;
     _report_progress "Enriching Data" ;;
     enrichments <- await "enrich_batch" (enrich_batch env providers) ;;
     modify (with_results (set_enrichments enrichments)) ;;
     modify (with_results (add_timing "enrichment"))
   else ret tt) ;;
  enter_stage "quality_assessment" ;;
  _report_progress "Quality Assessment" ;;
  validation_results <-
    await "assess_batch" (assess_batch env providers source_validations) ;;
  modify (with_results (set_validation_results validation_results)) ;;
  modify (with_results (add_timing "quality_assessment")) ;;
  enter_stage "directory_management" ;;
  _report_progress "Processing Results" ;;
  actions <- await "process_batch" (process_batch env providers validation_results) ;;
  modify (with_results (set_actions actions)) ;;
  modify (with_results (add_timing "directory_management")) ;;
  enter_stage "reporting" ;;
  _report_progress "Generating Report" ;;
  report <-
    await "generate_validation_report"
      (generate_validation_report env providers validation_results) ;;
  modify (with_results (set_report report)) ;;
  modify (with_results (add_timing "reporting")) ;;
  o <- get_self ;;
  (if auto_export_results o then
     export_path <-
       await "export_results"
         (export_results env providers validation_results (export_format o)) ;;
     modify (with_results (set_export_path export_path))
   else ret tt) ;;
  modify (with_results (set_providers (providers_by_id providers))) ;;
  _report_progress "Complete" ;;
  modify (with_results (add_timing "total")) ;;
  modify (fun s => with_self (set_last_run_results (results s)) s).

(** The [except Exception as e] handler. *)
Definition on_exception (e : exn) : M unit :=
  o <- get_self ;;
  modify (with_results
            (append_error {| err_stage := current_stage o;
                             err_error := str e;
                             err_timestamp := now env |})) ;;
  _report_progress "Error".

(** The [finally] block. *)
Definition cleanup : St -> St :=
  with_self (fun o => set_current_stage None (set_is_running false o)).

Definition run_full_validation_st (providers : list Provider) : M Results :=
  modify (with_self (set_is_running true)) ;;
  modify (with_results (fun _ => empty_results)) ;;
  try_finally (try_except (stages providers) on_exception) cleanup ;;
  fun s => (s, inr (results s)).

(** [run_full_validation]: the orchestrator afterwards, the agent
    operations invoked, and the returned dict or the propagated exception. *)
Definition run_full_validation (o : Orchestrator) (providers : list Provider)
  : Orchestrator * list string * (exn + Results) :=
  let '(s, r) :=
    run_full_validation_st providers
      {| self := o; results := empty_results; invoked := [] |} in
  (self s, invoked s, r).

(** *** Notions used to state the properties of a run *)

Definition stage_names : list string :=
  ["data_validation"; "enrichment"; "quality_assessment";
   "directory_management"; "reporting"].

(** The position of a stage in the pipeline. *)
Definition stage_index (stage : string) : nat :=
  if String.eqb stage "data_validation" then 0
  else if String.eqb stage "enrichment" then 1
  else if String.eqb stage "quality_assessment" then 2
  else if String.eqb stage "directory_management" then 3
  else 4.

(** The position of the stage an agent operation belongs to. *)
Definition operation_stage (operation : string) : nat :=
  if String.eqb operation "validate_batch" then 0
  else if String.eqb operation "enrich_batch" then 1
  else if String.eqb operation "assess_batch" then 2
  else if String.eqb operation "process_batch" then 3
  else 4.

(** The labels [run_full_validation] reports while in a stage. *)
Definition stage_labels : list (string * string) :=
  [("data_validation", "Validating Data");
   ("enrichment", "Enriching Data");
   ("quality_assessment", "Quality Assessment");
   ("directory_management", "Processing Results");
   ("reporting", "Generating Report");
   ("reporting", "Complete")].

Definition callback_outcome (label : string) : option exn :=
  match progress_callback env with
  | Some callback => callback label
  | None => None
  end.

(** The state in which the [try] block is entered. *)
Definition initial_state (o : Orchestrator) : St :=
  {| self := set_is_running true o; results := empty_results; invoked := [] |}.

(** [raises_in providers stage e]: a progress report made in [stage], or an
    agent operation of [stage], raises [e]. *)
Inductive raises_in (providers : list Provider) : string -> exn -> Prop :=
  | raises_report stage label e :
      In (stage, label) stage_labels ->
      callback_outcome label = Some e ->
      raises_in providers stage e
  | raises_validate e :
      validate_batch env providers = inl e ->
      raises_in providers "data_validation" e
  | raises_enrich e :
      enrich_batch env providers = inl e ->
      raises_in providers "enrichment" e
  | raises_assess source_validations e :
      validate_batch env providers = inr source_validations ->
      assess_batch env providers source_validations = inl e ->
      raises_in providers "quality_assessment" e
  | raises_process source_validations validation_results e :
      validate_batch env providers = inr source_validations ->
      assess_batch env providers source_validations = inr validation_results ->
      process_batch env providers validation_results = inl e ->
      raises_in providers "directory_management" e
  | raises_generate source_validations validation_results e :
      validate_batch env providers = inr source_validations ->
      assess_batch env providers source_validations = inr validation_results ->
      generate_validation_report env providers validation_results = inl e ->
      raises_in providers "reporting" e
  | raises_export source_validations validation_results format e :
      validate_batch env providers = inr source_validations ->
      assess_batch env providers source_validations = inr validation_results ->
      export_results env providers validation_results format = inl e ->
      raises_in providers "reporting" e.

(** The outputs of the operations that completed are in the dict. *)
Definition keeps_completed_outputs
    (providers : list Provider) (log : list string) (res : Results) : Prop :=
  (forall v, In "enrich_batch" log ->
             enrich_batch env providers = inr v ->
             res_enrichments res = Some v)
  /\ (forall svs v, validate_batch env providers = inr svs ->
         In "assess_batch" log ->
         assess_batch env providers svs = inr v ->
         res_validation_results res = Some v)
  /\ (forall svs vr v, validate_batch env providers = inr svs ->
         assess_batch env providers svs = inr vr ->
         In "process_batch" log ->
         process_batch env providers vr = inr v ->
         res_actions res = Some v)
  /\ (forall svs vr v, validate_batch env providers = inr svs ->
         assess_batch env providers svs = inr vr ->
         In "generate_validation_report" log ->
         generate_validation_report env providers vr = inr v ->
         res_report res = Some v).

End Pipeline.
End ValidationOrchestrator.


(** * Notions used in the statements *)

(** The clamp [max(0.0, min(100.0, x))]. *)
Definition clamp_0_100 (x : Q) : Q := py_max 0 (py_min 100 x).

(** ** The aggregate as the specification words it

    The weighted sum adds [weight * raw_confidence * freshness_factor] for
    every successful outcome and subtracts [weight * 10] for every failed
    one; the normalising weight adds the weights of the successful outcomes
    only. *)

Definition contribution (now : Z) (v : SourceValidation) : Q :=
  ConfidenceCalculator.weight_of v * sv_confidence v
  * ConfidenceCalculator._calculate_freshness_factor now (sv_timestamp v).

Definition failure_penalty (v : SourceValidation) : Q :=
  ConfidenceCalculator.weight_of v * 10.

Fixpoint weighted_sum (now : Z) (outcomes : list SourceValidation) : Q :=
  match outcomes with
  | [] => 0
  | v :: rest =>
      (if sv_success v then contribution now v else - failure_penalty v)
      + weighted_sum now rest
  end.

Fixpoint total_weight_of_successes (outcomes : list SourceValidation) : Q :=
  match outcomes with
  | [] => 0
  | v :: rest =>
      (if sv_success v then ConfidenceCalculator.weight_of v else 0)
      + total_weight_of_successes rest
  end.

(** ** The aggregate in binary64, as the specification words it *)

Module Binary64.
Import Doubles.
Local Open Scope float_scope.

(** [clamp(x, 0, 100)] *)
Definition clamp (x : float) : float := py_max 0 (py_min 100 x).

(** What a successful outcome adds to the weighted sum, and what a failed
    one takes off it. *)
Definition contribution (now : Z) (v : SourceValidation) : float :=
  weight_of v
  * (sv_confidence v * _calculate_freshness_factor now (sv_timestamp v)).

Definition failure_penalty (v : SourceValidation) : float := weight_of v * 10.

(** The two sums, accumulated in the order of the list. *)
Definition weighted_sum_from (start : float) (now : Z)
    (outcomes : list SourceValidation) : float :=
  fold_left
    (fun sum v =>
       if sv_success v then sum + contribution now v
       else sum - failure_penalty v)
    outcomes start.

Definition total_weight_from (start : float)
    (outcomes : list SourceValidation) : float :=
  fold_left
    (fun total v => if sv_success v then total + weight_of v else total)
    outcomes start.

Definition weighted_sum (now : Z) (outcomes : list SourceValidation) : float :=
  weighted_sum_from 0 now outcomes.

Definition total_weight_of_successes (outcomes : list SourceValidation)
  : float :=
  total_weight_from 0 outcomes.

(** The final score from the two sums. *)
Definition final_score (total_weight weighted_sum : float) : float :=
  if total_weight =? 0 then 0 else clamp (weighted_sum / total_weight).




(** Sample outcomes. *)
Definition failed_npi : SourceValidation :=
  {| sv_source := NPI_REGISTRY; sv_success := false; sv_confidence := 0;
     sv_discrepancies := []; sv_error_message := Some "timeout";
     sv_timestamp := 0 |}.

Definition failed_npi_other : SourceValidation :=
  {| sv_source := NPI_REGISTRY; sv_success := false; sv_confidence := 50;
     sv_discrepancies := []; sv_error_message := Some "not found";
     sv_timestamp := 90 * 24 * 3600 * 1000000 |}.

Definition fresh_google_90 : SourceValidation :=
  {| sv_source := GOOGLE_PLACES; sv_success := true; sv_confidence := 90;
     sv_discrepancies := []; sv_error_message := None;
     sv_timestamp := 0 |}.

Definition fresh_website_70 : SourceValidation :=
  {| sv_source := PRACTICE_WEBSITE; sv_success := true; sv_confidence := 70;
     sv_discrepancies := []; sv_error_message := None;
     sv_timestamp := 0 |}.




End Binary64.


(** ** Sample data *)

Definition failed_npi : SourceValidation :=
  {| sv_source := NPI_REGISTRY; sv_success := false; sv_confidence := 0;
     sv_discrepancies := []; sv_error_message := Some "timeout";
     sv_timestamp := 0 |}.

Definition fresh_google_90 : SourceValidation :=
  {| sv_source := GOOGLE_PLACES; sv_success := true; sv_confidence := 90;
     sv_discrepancies := []; sv_error_message := None;
     sv_timestamp := 0 |}.


(** ** Notions about the discrepancy resolver *)

(** The deduplication key of the specification. *)
Definition pair_key (d : Discrepancy) : string * DiscrepancyType :=
  (d_field_name d, d_type d).

(** [d] is, among the discrepancies of [l] with its (field, type) pair, the
    first one of highest confidence. *)
Definition first_of_highest_confidence
    (l : list Discrepancy) (d : Discrepancy) : Prop :=
  exists before after : list Discrepancy,
    l = (before ++ d :: after)%list
    /\ (forall x, In x before -> pair_key x = pair_key d ->
                  (d_confidence x < d_confidence d)%Q)
    /\ (forall x, In x after -> pair_key x = pair_key d ->
                  (d_confidence x <= d_confidence d)%Q).

(** The output order: priority rank ascending, then confidence descending. *)
Definition priority_then_confidence (a b : Discrepancy) : Prop :=
  (QualityAssuranceAgent.priority_order (d_priority a)
   < QualityAssuranceAgent.priority_order (d_priority b))%nat
  \/ (QualityAssuranceAgent.priority_order (d_priority a)
      = QualityAssuranceAgent.priority_order (d_priority b)
      /\ (d_confidence b <= d_confidence a)%Q).

(** The discrepancies of a given priority rank and confidence. *)
Definition has_rank_and_confidence (rank : nat) (c : Q) (d : Discrepancy)
  : bool :=
  Nat.eqb (QualityAssuranceAgent.priority_order (d_priority d)) rank
  && Qeq_bool (d_confidence d) c.

(** The distinct elements of a list in the order of their first occurrence. *)
Definition first_seen (keys : list string) : list string :=
  rev (nodup string_dec (rev keys)).

(** The list after deduplication, before sorting. *)
Definition deduplicated (discrepancies : list Discrepancy) : list Discrepancy :=
  PyDict.values (fold_left QualityAssuranceAgent.dedup_step discrepancies []).

(** What the deduplication loop maintains: keys are distinct, every entry is
    stored under its own key, every discrepancy seen has its key in the dict,
    every entry is the first of highest confidence for its key, and the keys
    stand in first-seen order. *)
Record dedup_invariant
    (l : list Discrepancy) (deduped : PyDict.t Discrepancy) : Prop := {
  inv_nodup : List.NoDup (PyDict.keys deduped);
  inv_key : forall k d, In (k, d) deduped -> k = QualityAssuranceAgent.dedup_key d;
  inv_cover : forall x, In x l -> In (QualityAssuranceAgent.dedup_key x) (PyDict.keys deduped);
  inv_best : forall k d, In (k, d) deduped ->
    exists before after : list Discrepancy,
      l = (before ++ d :: after)%list
      /\ (forall x, In x before -> QualityAssuranceAgent.dedup_key x = k ->
                    (d_confidence x < d_confidence d)%Q)
      /\ (forall x, In x after -> QualityAssuranceAgent.dedup_key x = k ->
                    (d_confidence x <= d_confidence d)%Q);
  inv_order : PyDict.keys deduped = first_seen (List.map QualityAssuranceAgent.dedup_key l)
}.


(** ** Notions about the decision flags *)

Definition is_critical (d : Discrepancy) : bool :=
  ConfidenceCalculator.str_in (DiscrepancyType_value (d_type d))
    ConfidenceCalculator.critical_types.

(** A discrepancy of a critical type that also disqualifies auto-update:
    it has HIGH priority or a confidence below 75. *)
Definition critical_blocks_auto_update (d : Discrepancy) : Prop :=
  is_critical d = true -> d_priority d = HIGH \/ (d_confidence d < 75)%Q.

Definition exactly_one (a b c : bool) : Prop :=
  (a = true /\ b = false /\ c = false)
  \/ (a = false /\ b = true /\ c = false)
  \/ (a = false /\ b = false /\ c = true).

Definition exactly_one_flag (r : ValidationResult) : Prop :=
  exactly_one (vr_auto_updated r) (vr_needs_review r) (vr_urgent_review r).

(** A license issue reported with MEDIUM priority and confidence 80. *)
Definition license_medium_80 : Discrepancy :=
  {| d_provider_id := "p1"; d_type := LICENSE_ISSUE;
     d_field_name := "license_number"; d_current_value := "A1";
     d_validated_value := "B2"; d_source := PDF_DOCUMENT;
     d_priority := MEDIUM; d_confidence := 80; d_resolved := false;
     d_detected_at := 0 |}.

Definition phone_medium_90 : Discrepancy :=
  {| d_provider_id := "p1"; d_type := PHONE_MISMATCH;
     d_field_name := "phone"; d_current_value := "555-0100";
     d_validated_value := "555-0199"; d_source := NPI_REGISTRY;
     d_priority := MEDIUM; d_confidence := 90; d_resolved := false;
     d_detected_at := 0 |}.

Definition provider_1 : Provider :=
  {| p_id := "p1"; p_npi := "1234567890";
     p_first_name := "Ada"; p_last_name := "Moss" |}.

Definition provider_2 : Provider :=
  {| p_id := "p2"; p_npi := "1234567891";
     p_first_name := "Bo"; p_last_name := "Reed" |}.

Definition npi_90_with (discrepancies : list Discrepancy) : SourceValidation :=
  {| sv_source := NPI_REGISTRY; sv_success := true; sv_confidence := 90;
     sv_discrepancies := discrepancies; sv_error_message := None;
     sv_timestamp := 0 |}.


(** ** Notions about batches *)

(** A progress callback that never raises (or no callback at all). *)
Definition quiet_callback (cb : option (nat -> nat -> option exn)) : Prop :=
  forall callback, cb = Some callback -> forall i n, callback i n = None.

(** What a source contributes for a provider: its validation, or the failed
    validation standing for the exception it raised. *)
Definition source_outcome
    (query : DataSource -> Provider -> exn + SourceValidation) (now : Z)
    (source : DataSource) (provider : Provider) : SourceValidation :=
  match query source provider with
  | inl e => DataValidationAgent.failed_validation now source e
  | inr result => result
  end.

(** What [validate_provider] stores for a source. *)
Definition source_slot
    (query : DataSource -> Provider -> exn + SourceValidation) (now : Z)
    (source : DataSource) (provider : Provider) : stored SourceValidation :=
  match query source provider with
  | inl e =>
      if isinstance_Exception e
      then Found (DataValidationAgent.failed_validation now source e)
      else Cancelled (str e)
  | inr result => Found result
  end.

(** The outcome is a [CancelledError]. *)
Definition cancelled {A : Type} (outcome : exn + A) : bool :=
  match outcome with
  | inl e => negb (isinstance_Exception e)
  | inr _ => false
  end.

(** What [validate_batch] stores for a provider. *)
Definition stored_outcome
    (run_task : Provider -> exn + PyDict.t (stored SourceValidation))
    (now : Z) (provider : Provider)
  : stored (PyDict.t (stored SourceValidation)) :=
  match run_task provider with
  | inl e =>
      if isinstance_Exception e
      then Found [("error",
                    Found (DataValidationAgent.failed_validation now
                              NPI_REGISTRY e))]
      else Cancelled (str e)
  | inr result => Found result
  end.

(** A dict of validations as a dict of what is found in their places. *)
Definition proper_dict (d : PyDict.t SourceValidation)
  : PyDict.t (stored SourceValidation) :=
  List.map (fun entry => (fst entry, Found (snd entry))) d.

(** A task that returns validations, as [validate_batch] gathers it. *)
Definition proper_task (run_task : Provider -> exn + PyDict.t SourceValidation)
    (provider : Provider) : exn + PyDict.t (stored SourceValidation) :=
  match run_task provider with
  | inl e => inl e
  | inr result => inr (proper_dict result)
  end.

(** The validations of a provider after [validate_batch], when its task
    returned validations or raised an [Exception]. *)
Definition recorded_outcome
    (run_task : Provider -> exn + PyDict.t SourceValidation) (now : Z)
    (provider : Provider) : PyDict.t SourceValidation :=
  match run_task provider with
  | inl e => [("error", DataValidationAgent.failed_validation now NPI_REGISTRY e)]
  | inr result => result
  end.

(** Awaiting [assess_provider] when scoring does not raise. *)
Definition assess_ok (now : Z) (provider : Provider)
    (source_validations : PyDict.t SourceValidation)
  : exn + ValidationResult :=
  inr (QualityAssuranceAgent.assess_provider now provider source_validations).

(** A batch of two providers in which the task of the first one raises. *)
Definition task_failing_for_p1 (provider : Provider)
  : exn + PyDict.t SourceValidation :=
  if String.eqb (p_id provider) "p1" then inl (Exception "connection reset")
  else inr [("npi_registry", npi_90_with [])].

(** The same batch when the task of the first provider is cancelled. *)
Definition task_cancelled_for_p1 (provider : Provider)
  : exn + PyDict.t SourceValidation :=
  if String.eqb (p_id provider) "p1" then inl (CancelledError "cancelled")
  else inr [("npi_registry", npi_90_with [])].

(** Scoring that raises for the second provider. *)
Definition scoring_failing_for_p2 (now : Z) (provider : Provider)
    (source_validations : PyDict.t SourceValidation)
  : exn + ValidationResult :=
  if String.eqb (p_id provider) "p2" then inl (Exception "bad record")
  else assess_ok now provider source_validations.

(** A second record with the id of [provider_1]. *)
Definition provider_1_again : Provider :=
  {| p_id := "p1"; p_npi := "1234567899";
     p_first_name := "Cy"; p_last_name := "Vale" |}.

(** A task that raises for the record with NPI number 1234567890 and
    returns a validation for every other record. *)
Definition task_failing_for_first_npi (provider : Provider)
  : exn + PyDict.t (stored SourceValidation) :=
  if String.eqb (p_npi provider) "1234567890"
  then inl (Exception "connection reset")
  else inr [("npi_registry", Found (npi_90_with []))].

(** Sources that answer with confidence 90: all of them but a cancelled NPI
    registry; and all of them but an NPI registry that raises an
    [Exception] and a cancelled Google Places. *)
Definition answer_90 (source : DataSource) : SourceValidation :=
  {| sv_source := source; sv_success := true; sv_confidence := 90;
     sv_discrepancies := []; sv_error_message := None;
     sv_timestamp := 0 |}.

Definition npi_cancelled (source : DataSource) (provider : Provider)
  : exn + SourceValidation :=
  match source with
  | NPI_REGISTRY => inl (CancelledError "cancelled")
  | _ => inr (answer_90 source)
  end.

Definition npi_failing_google_cancelled
    (source : DataSource) (provider : Provider) : exn + SourceValidation :=
  match source with
  | NPI_REGISTRY => inl (Exception "timeout")
  | GOOGLE_PLACES => inl (CancelledError "cancelled")
  | _ => inr (answer_90 source)
  end.


(** ** Sample runs of the pipeline *)

Definition idle_orchestrator
  : @ValidationOrchestrator.Orchestrator unit unit unit unit :=
  {| ValidationOrchestrator.is_running := false;
     ValidationOrchestrator.current_stage := None;
     ValidationOrchestrator.enable_enrichment := true;
     ValidationOrchestrator.auto_export_results := false;
     ValidationOrchestrator.export_format := "csv";
     ValidationOrchestrator.last_run_results := None |}.

(** Agents that all succeed, and a progress callback that raises whenever
    it is called. *)
Definition raising_callback_env
  : @ValidationOrchestrator.Collaborators unit unit unit unit unit :=
  {| ValidationOrchestrator.validate_batch := fun _ => inr tt;
     ValidationOrchestrator.enrich_batch := fun _ => inr tt;
     ValidationOrchestrator.assess_batch := fun _ _ => inr tt;
     ValidationOrchestrator.process_batch := fun _ _ => inr tt;
     ValidationOrchestrator.generate_validation_report := fun _ _ => inr tt;
     ValidationOrchestrator.export_results := fun _ _ _ => inr "out.csv";
     ValidationOrchestrator.progress_callback :=
       Some (fun _ => Some (Exception "callback failed"));
     ValidationOrchestrator.now := 0 |}.

(** No callback, and an assessment stage that raises. *)
Definition failing_assessment_env
  : @ValidationOrchestrator.Collaborators unit unit unit unit unit :=
  {| ValidationOrchestrator.validate_batch := fun _ => inr tt;
     ValidationOrchestrator.enrich_batch := fun _ => inr tt;
     ValidationOrchestrator.assess_batch :=
       fun _ _ => inl (Exception "scoring failed");
     ValidationOrchestrator.process_batch := fun _ _ => inr tt;
     ValidationOrchestrator.generate_validation_report := fun _ _ => inr tt;
     ValidationOrchestrator.export_results := fun _ _ _ => inr "out.csv";
     ValidationOrchestrator.progress_callback := None;
     ValidationOrchestrator.now := 0 |}.

(** No callback, and an assessment stage that is cancelled. *)
Definition cancelled_assessment_env
  : @ValidationOrchestrator.Collaborators unit unit unit unit unit :=
  {| ValidationOrchestrator.validate_batch := fun _ => inr tt;
     ValidationOrchestrator.enrich_batch := fun _ => inr tt;
     ValidationOrchestrator.assess_batch :=
       fun _ _ => inl (CancelledError "cancelled");
     ValidationOrchestrator.process_batch := fun _ _ => inr tt;
     ValidationOrchestrator.generate_validation_report := fun _ _ => inr tt;
     ValidationOrchestrator.export_results := fun _ _ _ => inr "out.csv";
     ValidationOrchestrator.progress_callback := None;
     ValidationOrchestrator.now := 0 |}.

(** No callback, a data validation stage that returns [source_validations]
    and an assessment stage that raises. *)
Definition failing_after_validation (source_validations : nat)
  : @ValidationOrchestrator.Collaborators nat unit unit unit unit :=
  {| ValidationOrchestrator.validate_batch := fun _ => inr source_validations;
     ValidationOrchestrator.enrich_batch := fun _ => inr tt;
     ValidationOrchestrator.assess_batch :=
       fun _ _ => inl (Exception "scoring failed");
     ValidationOrchestrator.process_batch := fun _ _ => inr tt;
     ValidationOrchestrator.generate_validation_report := fun _ _ => inr tt;
     ValidationOrchestrator.export_results := fun _ _ _ => inr "out.csv";
     ValidationOrchestrator.progress_callback := None;
     ValidationOrchestrator.now := 0 |}.


(** * Further functions of the cited files *)

(** ** services/confidence_calculator.py: the impact report *)

Module ConfidenceReports.

Record ImpactEntry : Type := {
  ie_count : nat;
  ie_total_impact : nat
}.

(** The dict returned by [calculate_discrepancy_impact]. *)
Record Impact : Type := {
  total_impact : nat;
  high_priority_count : nat;
  medium_priority_count : nat;
  low_priority_count : nat;
  impact_breakdown : PyDict.t ImpactEntry
}.

Definition impact_values (p : Priority) : nat :=
  match p with HIGH => 20 | MEDIUM => 10 | LOW => 5 end.

(** The loop state: [impact_breakdown], [total_impact] and the three
    entries of [priority_counts]. *)
Record ImpactState : Type := {
  st_breakdown : PyDict.t ImpactEntry;
  st_total : nat;
  st_high : nat;
  st_medium : nat;
  st_low : nat
}.

Definition impact_step (st : ImpactState) (disc : Discrepancy) : ImpactState :=
  let impact := impact_values (d_priority disc) in
  let disc_type := DiscrepancyType_value (d_type disc) in
  let breakdown :=
    if PyDict.contains (st_breakdown st) disc_type then st_breakdown st
    else PyDict.set (st_breakdown st) disc_type
           {| ie_count := 0; ie_total_impact := 0 |} in
  let entry :=
    PyDict.get_default breakdown disc_type
      {| ie_count := 0; ie_total_impact := 0 |} in
  {| st_breakdown :=
       PyDict.set breakdown disc_type
         {| ie_count := ie_count entry + 1;
            ie_total_impact := ie_total_impact entry + impact |};
     st_total := st_total st + impact;
     st_high := match d_priority disc with HIGH => st_high st + 1
                                      | _ => st_high st end;
     st_medium := match d_priority disc with MEDIUM => st_medium st + 1
                                        | _ => st_medium st end;
     st_low := match d_priority disc with LOW => st_low st + 1
                                     | _ => st_low st end |}.

Definition calculate_discrepancy_impact (discrepancies : list Discrepancy)
  : Impact :=
  match discrepancies with
  | [] =>
      {| total_impact := 0; high_priority_count := 0;
         medium_priority_count := 0; low_priority_count := 0;
         impact_breakdown := [] |}
  | _ =>
      let st :=
        fold_left impact_step discrepancies
          {| st_breakdown := []; st_total := 0;
             st_high := 0; st_medium := 0; st_low := 0 |} in
      {| total_impact := st_total st;
         high_priority_count := st_high st;
         medium_priority_count := st_medium st;
         low_priority_count := st_low st;
         impact_breakdown := st_breakdown st |}
  end.

End ConfidenceReports.

(** *** Notions for these reports *)

Definition count_priority (p : Priority) (l : list Discrepancy) : nat :=
  length (List.filter (fun d => Priority_eqb (d_priority d) p) l).

Definition DiscrepancyType_eqb (a b : DiscrepancyType) : bool :=
  String.eqb (DiscrepancyType_value a) (DiscrepancyType_value b).

(** The discrepancies of a given type. *)
Definition of_type (t : DiscrepancyType) (l : list Discrepancy)
  : list Discrepancy :=
  List.filter (fun d => DiscrepancyType_eqb (d_type d) t) l.

Definition impact_sum (l : list Discrepancy) : nat :=
  list_sum (List.map (fun d => ConfidenceReports.impact_values (d_priority d)) l).


(** The status and the flags of a result fit together. *)
Definition status_flags_consistent (r : ValidationResult) : Prop :=
  (vr_auto_updated r = true -> vr_status r = VALIDATED)
  /\ (vr_status r = URGENT -> vr_urgent_review r = true)
  /\ vr_auto_updated r || vr_needs_review r || vr_urgent_review r = true
  /\ vr_status r <> PENDING /\ vr_status r <> ERROR.


(** ** agents/quality_assurance_agent.py: running statistics

    The counters of the agent. Its running average of the confidences, a
    float updated incrementally, is left out. *)

Module QualityAssuranceStats.

Record Stats : Type := {
  providers_assessed : nat;
  auto_approved : nat;
  flagged_for_review : nat;
  flagged_urgent : nat;
  total_discrepancies : nat
}.

(** The statistics of a new agent, and after [reset_stats]. *)
Definition reset_stats : Stats :=
  {| providers_assessed := 0; auto_approved := 0; flagged_for_review := 0;
     flagged_urgent := 0; total_discrepancies := 0 |}.

(** [_update_stats], without its [confidence] argument, which only feeds
    the running average. *)
Definition _update_stats
    (stats : Stats) (discrepancies : list Discrepancy)
    (auto_updated needs_review urgent_review : bool) : Stats :=
  {| providers_assessed := (providers_assessed stats + 1)%nat;
     auto_approved :=
       if auto_updated then (auto_approved stats + 1)%nat
       else auto_approved stats;
     flagged_for_review :=
       if auto_updated then flagged_for_review stats
       else if urgent_review then flagged_for_review stats
       else (flagged_for_review stats + 1)%nat;
     flagged_urgent :=
       if auto_updated then flagged_urgent stats
       else if urgent_review then (flagged_urgent stats + 1)%nat
       else flagged_urgent stats;
     total_discrepancies :=
       (total_discrepancies stats + length discrepancies)%nat |}.

(** The update [assess_provider] makes for the result it returns. *)
Definition record_result (stats : Stats) (r : ValidationResult) : Stats :=
  _update_stats stats (vr_discrepancies r)
    (vr_auto_updated r) (vr_needs_review r) (vr_urgent_review r).

(** [assess_provider] together with its effect on the statistics. *)
Definition assess_provider
    (now : Z) (provider : Provider)
    (source_validations : PyDict.t SourceValidation) (stats : Stats)
  : ValidationResult * Stats :=
  let r := QualityAssuranceAgent.assess_provider now provider source_validations in
  (r, record_result stats r).

End QualityAssuranceStats.

(** ** agents/data_validation_agent.py: summaries and statistics *)

Module DataValidationReports.

(** [get_all_discrepancies] *)
Definition get_all_discrepancies
    (validation_results : PyDict.t SourceValidation) : list Discrepancy :=
  fold_left
    (fun discrepancies '(source_name, result) =>
       if sv_success result
       then (discrepancies ++ sv_discrepancies result)%list
       else discrepancies)
    validation_results [].

Record SourceSummaryEntry : Type := {
  sse_success : bool;
  sse_confidence : Q;
  sse_discrepancies : nat;
  sse_error : option string
}.

Record SourceSummary : Type := {
  sources_checked : nat;
  sources_successful : nat;
  sources_failed : nat;
  total_discrepancies : nat;
  by_source : PyDict.t SourceSummaryEntry
}.

Definition summary_step (summary : SourceSummary)
    (item : string * SourceValidation) : SourceSummary :=
  let '(source_name, result) := item in
  {| sources_checked := sources_checked summary;
     sources_successful :=
       if sv_success result then (sources_successful summary + 1)%nat
       else sources_successful summary;
     sources_failed :=
       if sv_success result then sources_failed summary
       else (sources_failed summary + 1)%nat;
     total_discrepancies :=
       (total_discrepancies summary + length (sv_discrepancies result))%nat;
     by_source :=
       PyDict.set (by_source summary) source_name
         {| sse_success := sv_success result;
            sse_confidence := sv_confidence result;
            sse_discrepancies := length (sv_discrepancies result);
            sse_error :=
              if sv_success result then None else sv_error_message result |} |}.

Definition get_source_summary
    (validation_results : PyDict.t SourceValidation) : SourceSummary :=
  fold_left summary_step validation_results
    {| sources_checked := length validation_results;
       sources_successful := 0; sources_failed := 0;
       total_discrepancies := 0; by_source := [] |}.

(** The agent's counters. *)
Record Stats : Type := {
  total_validated : nat;
  successful : nat;
  failed : nat;
  total_time_ms : Q
}.

Definition reset_stats : Stats :=
  {| total_validated := 0; successful := 0; failed := 0; total_time_ms := 0 |}.


(** The derived entries [get_stats] adds to the counters. *)
Definition average_time_ms (stats : Stats) : Q :=
  if (0 <? total_validated stats)%nat
  then (total_time_ms stats / inject_Z (Z.of_nat (total_validated stats)))%Q
  else 0%Q.


(** [validate_with_pdf]: [process_document] is what awaiting the PDF
    processor yields. *)
Definition validate_with_pdf
    (query : DataSource -> Provider -> exn + SourceValidation)
    (process_document : string -> Provider -> exn + SourceValidation)
    (now : Z) (provider : Provider) (pdf_path : string)
  : exn + PyDict.t (stored SourceValidation) :=
  match DataValidationAgent.validate_provider query now provider None with
  | inl e => inl e
  | inr results =>
      match process_document pdf_path provider with
      | inl e => inl e
      | inr pdf_result =>
          inr (PyDict.set results (DataSource_value PDF_DOCUMENT)
                 (Found pdf_result))
      end
  end.

End DataValidationReports.

(** *** Notions for these functions *)

(** The sources [validate_provider] has an adapter for. *)
Definition supported_source (s : DataSource) : bool :=
  match s with
  | NPI_REGISTRY | GOOGLE_PLACES | PRACTICE_WEBSITE => true
  | STATE_LICENSE | PDF_DOCUMENT => false
  end.

(** The exception of the first call of the callback that raises, the
    callback being called with each batch end in turn. *)
Fixpoint first_raise (cb : nat -> nat -> option exn)
    (batch_ends : list nat) (total : nat) : option exn :=
  match batch_ends with
  | [] => None
  | batch_end :: rest =>
      match cb batch_end total with
      | Some e => Some e
      | None => first_raise cb rest total
      end
  end.

Definition batch_ends (total : nat) : list nat :=
  List.map (fun batch_start => Nat.min (batch_start + BATCH_SIZE) total)
    (py_range 0 total BATCH_SIZE).

(** The last provider of the list that has a given id. *)
Definition last_with_id (k : string) (providers : list Provider)
  : option Provider :=
  List.last
    (List.map Some (List.filter (fun p => String.eqb (p_id p) k) providers))
    None.



(** ** agents/directory_management_agent.py: acting on results

    Ids drawn by [uuid4()] for new tickets are parameters; the fields of the
    provider object that an auto-update assigns (status, confidence score,
    time of validation) are kept with the entry of the provider store. *)

Module DirectoryManagement.

Definition ValidationStatus_value (s : ValidationStatus) : string :=
  match s with
  | PENDING => "pending"
  | VALIDATED => "validated"
  | NEEDS_REVIEW => "needs_review"
  | URGENT => "urgent"
  | ERROR => "error"
  end.

(** [sub in s] on strings. *)
Fixpoint py_str_contains (sub s : string) : bool :=
  String.prefix sub s
  || match s with
     | EmptyString => false
     | String _ rest => py_str_contains sub rest
     end.

(** [l[start:]] for any integer [start]: a negative start counts from the
    end and is cut at the beginning of the list. *)
Definition py_slice_from {A} (l : list A) (start : Z) : list A :=
  if (start <? 0)%Z
  then skipn (Z.to_nat (Z.max 0 (Z.of_nat (length l) + start))) l
  else skipn (Z.to_nat start) l.

Record ReviewTicket : Type := {
  rt_id : string;
  rt_provider_id : string;
  rt_priority : Priority;
  rt_status : string;
  rt_discrepancies : list Discrepancy;
  rt_notes : list string;
  rt_created_at : Z;
  rt_resolved_at : option Z
}.

Record FieldUpdate : Type := {
  fu_field : string;
  fu_old_value : string;
  fu_new_value : string;
  fu_confidence : Q;
  fu_source : string
}.

Record UpdateLogEntry : Type := {
  ule_provider_id : string;
  ule_timestamp : Z;
  ule_updates : list FieldUpdate;
  ule_confidence : Q
}.

Record StoredProvider : Type := {
  sp_provider : Provider;
  sp_status : ValidationStatus;
  sp_confidence_score : Q;
  sp_last_validated : option Z
}.

Record Stats : Type := {
  providers_updated : nat;
  tickets_created : nat;
  notifications_sent : nat;
  reports_generated : nat
}.

(** The agent object. *)
Record Agent : Type := {
  review_tickets : PyDict.t ReviewTicket;
  update_log : list UpdateLogEntry;
  provider_store : PyDict.t StoredProvider;
  stats : Stats
}.

Definition new_agent : Agent :=
  {| review_tickets := []; update_log := []; provider_store := [];
     stats := {| providers_updated := 0; tickets_created := 0;
                 notifications_sent := 0; reports_generated := 0 |} |}.

(** What [_auto_update_provider] returns. *)
Record UpdateResult : Type := {
  ur_fields_updated : nat;
  ur_updates : list FieldUpdate;
  ur_timestamp : Z
}.

Inductive ActionTaken : Type :=
  | AutoUpdate (details : UpdateResult)
  | UrgentTicketCreated (ticket_id : string)
  | NotificationSent (success : bool)
  | ReviewTicketCreated (ticket_id : string).

(** [action["type"]] *)
Definition action_type (a : ActionTaken) : string :=
  match a with
  | AutoUpdate _ => "auto_update"
  | UrgentTicketCreated _ => "urgent_ticket_created"
  | NotificationSent _ => "notification_sent"
  | ReviewTicketCreated _ => "review_ticket_created"
  end.

(** The dict returned by [process_validation_result]. *)
Record Actions : Type := {
  act_provider_id : string;
  act_status : string;
  act_confidence : Q;
  act_actions_taken : list ActionTaken
}.

Record BatchSummary : Type := {
  bs_total_processed : nat;
  bs_auto_updated : nat;
  bs_tickets_created : nat;
  bs_urgent_notifications : nat;
  bs_provider_actions : list Actions
}.

Section Acting.
(** [datetime.now()], and what awaiting the notification service yields:
    the ["success"] entry of its answer, or the exception it raised. *)
Variable now : Z.
Variable send_urgent_review_alert :
  Provider -> ValidationResult -> exn + bool.

Definition field_update (disc : Discrepancy) : FieldUpdate :=
  {| fu_field := d_field_name disc;
     fu_old_value := d_current_value disc;
     fu_new_value := d_validated_value disc;
     fu_confidence := d_confidence disc;
     fu_source := DataSource_value (d_source disc) |}.

Definition _auto_update_provider
    (agent : Agent) (provider : Provider) (result : ValidationResult)
  : Agent * UpdateResult :=
  let updates :=
    flat_map
      (fun disc =>
         if Qle_bool 85 (d_confidence disc) then [field_update disc] else [])
      (vr_discrepancies result) in
  let stored :=
    {| sp_provider := provider; sp_status := VALIDATED;
       sp_confidence_score := vr_overall_confidence result;
       sp_last_validated := Some now |} in
  ({| review_tickets := review_tickets agent;
      update_log :=
        (update_log agent
         ++ [{| ule_provider_id := p_id provider; ule_timestamp := now;
                ule_updates := updates;
                ule_confidence := vr_overall_confidence result |}])%list;
      provider_store := PyDict.set (provider_store agent) (p_id provider) stored;
      stats :=
        {| providers_updated := providers_updated (stats agent) + 1;
           tickets_created := tickets_created (stats agent);
           notifications_sent := notifications_sent (stats agent);
           reports_generated := reports_generated (stats agent) |} |},
   {| ur_fields_updated := length updates; ur_updates := updates;
      ur_timestamp := now |}).

(** [uuid] is the id the new ticket draws. *)
Definition _create_review_ticket
    (uuid : string) (agent : Agent) (provider : Provider)
    (result : ValidationResult) (priority : Priority)
  : Agent * ReviewTicket :=
  let ticket :=
    {| rt_id := uuid; rt_provider_id := p_id provider;
       rt_priority := priority; rt_status := "open";
       rt_discrepancies := vr_discrepancies result;
       rt_notes :=
         ["Auto-generated ticket for "
          ++ ValidationStatus_value (vr_status result) ++ " validation"];
       rt_created_at := now; rt_resolved_at := None |} in
  ({| review_tickets := PyDict.set (review_tickets agent) (rt_id ticket) ticket;
      update_log := update_log agent;
      provider_store := provider_store agent;
      stats :=
        {| providers_updated := providers_updated (stats agent);
           tickets_created := tickets_created (stats agent) + 1;
           notifications_sent := notifications_sent (stats agent);
           reports_generated := reports_generated (stats agent) |} |},
   ticket).

Definition _send_urgent_notification
    (agent : Agent) (provider : Provider) (result : ValidationResult)
  : Agent * (exn + bool) :=
  match send_urgent_review_alert provider result with
  | inl e => (agent, inl e)
  | inr success =>
      (if success then
         {| review_tickets := review_tickets agent;
            update_log := update_log agent;
            provider_store := provider_store agent;
            stats :=
              {| providers_updated := providers_updated (stats agent);
                 tickets_created := tickets_created (stats agent);
                 notifications_sent := notifications_sent (stats agent) + 1;
                 reports_generated := reports_generated (stats agent) |} |}
       else agent,
       inr success)
  end.

Definition actions_for (provider : Provider) (result : ValidationResult)
    (taken : list ActionTaken) : Actions :=
  {| act_provider_id := p_id provider;
     act_status := ValidationStatus_value (vr_status result);
     act_confidence := vr_overall_confidence result;
     act_actions_taken := taken |}.

Definition process_validation_result
    (uuid : string) (agent : Agent) (provider : Provider)
    (result : ValidationResult) : Agent * (exn + Actions) :=
  if vr_auto_updated result then
    let '(agent1, update_result) := _auto_update_provider agent provider result in
    (agent1, inr (actions_for provider result [AutoUpdate update_result]))
  else if vr_urgent_review result then
    let '(agent1, ticket) :=
      _create_review_ticket uuid agent provider result HIGH in
    match _send_urgent_notification agent1 provider result with
    | (agent2, inl e) => (agent2, inl e)
    | (agent2, inr notif_result) =>
        (agent2,
         inr (actions_for provider result
                [UrgentTicketCreated (rt_id ticket);
                 NotificationSent notif_result]))
    end
  else
    let '(agent1, ticket) :=
      _create_review_ticket uuid agent provider result MEDIUM in
    (agent1,
     inr (actions_for provider result [ReviewTicketCreated (rt_id ticket)])).

(** The counting loop over [actions["actions_taken"]]. *)
Definition count_action (summary : BatchSummary) (action : ActionTaken)
  : BatchSummary :=
  let type := action_type action in
  {| bs_total_processed := bs_total_processed summary;
     bs_auto_updated :=
       if String.eqb type "auto_update" then bs_auto_updated summary + 1
       else bs_auto_updated summary;
     bs_tickets_created :=
       if String.eqb type "auto_update" then bs_tickets_created summary
       else if py_str_contains "ticket" type
            then bs_tickets_created summary + 1
            else bs_tickets_created summary;
     bs_urgent_notifications :=
       if String.eqb type "auto_update" then bs_urgent_notifications summary
       else if py_str_contains "ticket" type
            then bs_urgent_notifications summary
            else if String.eqb type "notification_sent"
                 then bs_urgent_notifications summary + 1
                 else bs_urgent_notifications summary;
     bs_provider_actions := bs_provider_actions summary |}.

Definition add_actions (summary : BatchSummary) (actions : Actions)
  : BatchSummary :=
  fold_left count_action (act_actions_taken actions)
    {| bs_total_processed := bs_total_processed summary + 1;
       bs_auto_updated := bs_auto_updated summary;
       bs_tickets_created := bs_tickets_created summary;
       bs_urgent_notifications := bs_urgent_notifications summary;
       bs_provider_actions := (bs_provider_actions summary ++ [actions])%list |}.

Definition empty_summary : BatchSummary :=
  {| bs_total_processed := 0; bs_auto_updated := 0; bs_tickets_created := 0;
     bs_urgent_notifications := 0; bs_provider_actions := [] |}.

(** [uuids i] is the id drawn while the provider at position [i] is
    processed. *)
Fixpoint process_loop
    (uuids : nat -> string)
    (progress_callback : option (nat -> nat -> option exn))
    (items : list (nat * Provider)) (total : nat)
    (validation_results : gmap string ValidationResult)
    (agent : Agent) (summary : BatchSummary)
  : Agent * (exn + BatchSummary) :=
  match items with
  | [] => (agent, inr summary)
  | (i, provider) :: rest =>
      let continue agent' summary' :=
        match progress_callback with
        | Some cb =>
            match cb (i + 1)%nat total with
            | Some e => (agent', inl e)
            | None =>
                process_loop uuids progress_callback rest total
                  validation_results agent' summary'
            end
        | None =>
            process_loop uuids progress_callback rest total
              validation_results agent' summary'
        end in
      match validation_results !! p_id provider with
      | Some result =>
          match process_validation_result (uuids i) agent provider result with
          | (agent', inl e) => (agent', inl e)
          | (agent', inr actions) => continue agent' (add_actions summary actions)
          end
      | None => continue agent summary
      end
  end.

Definition process_batch
    (uuids : nat -> string)
    (progress_callback : option (nat -> nat -> option exn))
    (agent : Agent) (providers : list Provider)
    (validation_results : gmap string ValidationResult)
  : Agent * (exn + BatchSummary) :=
  let total := length providers in
  process_loop uuids progress_callback (combine (seq 0 total) providers) total
    validation_results agent empty_summary.

End Acting.

(** The sort key [(priority_order[t.priority], t.created_at)] and [<] on
    it. *)
Definition ticket_key (t : ReviewTicket) : nat * Z :=
  (QualityAssuranceAgent.priority_order (rt_priority t), rt_created_at t).

Definition ticket_key_lt (a b : nat * Z) : bool :=
  if Nat.eqb (fst a) (fst b) then (snd a <? snd b)%Z
  else Nat.ltb (fst a) (fst b).

(** [status] is [None] or a string, the empty string counting as no
    filter. *)
Definition get_review_tickets
    (agent : Agent) (status : option string) (priority : option Priority)
  : list ReviewTicket :=
  let tickets := PyDict.values (review_tickets agent) in
  let tickets :=
    match status with
    | Some (String c s) =>
        List.filter (fun t => String.eqb (rt_status t) (String c s)) tickets
    | _ => tickets
    end in
  let tickets :=
    match priority with
    | Some p => List.filter (fun t => Priority_eqb (rt_priority t) p) tickets
    | None => tickets
    end in
  sorted ticket_key ticket_key_lt tickets.

Definition resolve_discrepancy (disc : Discrepancy) : Discrepancy :=
  {| d_provider_id := d_provider_id disc; d_type := d_type disc;
     d_field_name := d_field_name disc;
     d_current_value := d_current_value disc;
     d_validated_value := d_validated_value disc;
     d_source := d_source disc; d_priority := d_priority disc;
     d_confidence := d_confidence disc; d_resolved := true;
     d_detected_at := d_detected_at disc |}.

(** [resolve_ticket]: the ticket as it stands in the store afterwards. The
    discrepancy objects of a ticket may also be held by the validation result
    the ticket was made from; only the ticket's view of them is followed. *)
Definition resolve_ticket
    (now : Z) (agent : Agent) (ticket_id resolution_notes resolved_by : string)
  : Agent * option ReviewTicket :=
  match PyDict.get (review_tickets agent) ticket_id with
  | Some ticket =>
      let resolved :=
        {| rt_id := rt_id ticket; rt_provider_id := rt_provider_id ticket;
           rt_priority := rt_priority ticket; rt_status := "resolved";
           rt_discrepancies :=
             List.map resolve_discrepancy (rt_discrepancies ticket);
           rt_notes :=
             (rt_notes ticket
              ++ [("Resolved: " ++ resolution_notes)%string])%list;
           rt_created_at := rt_created_at ticket;
           rt_resolved_at := Some now |} in
      ({| review_tickets := PyDict.set (review_tickets agent) ticket_id resolved;
          update_log := update_log agent;
          provider_store := provider_store agent;
          stats := stats agent |},
       Some resolved)
  | None => (agent, None)
  end.

(** [provider_id] is [None] or a string, the empty string counting as no
    filter; [limit] is any integer. *)
Definition get_update_history
    (agent : Agent) (provider_id : option string) (limit : Z)
  : list UpdateLogEntry :=
  let history := update_log agent in
  let history :=
    match provider_id with
    | Some (String c s) =>
        List.filter (fun h => String.eqb (ule_provider_id h) (String c s))
          history
    | _ => history
    end in
  py_slice_from history (- limit).

End DirectoryManagement.


(** *** Notions for the directory management agent *)

(** Providers of a batch that have a validation result. *)
Definition with_result
    (validation_results : gmap string ValidationResult)
    (providers : list Provider) : list Provider :=
  List.filter
    (fun p => match validation_results !! p_id p with
              | Some _ => true
              | None => false
              end)
    providers.

(** The order of [get_review_tickets]: priority rank, then creation time. *)
Definition ticket_order (a b : DirectoryManagement.ReviewTicket) : Prop :=
  (QualityAssuranceAgent.priority_order (DirectoryManagement.rt_priority a)
   < QualityAssuranceAgent.priority_order (DirectoryManagement.rt_priority b))%nat
  \/ (QualityAssuranceAgent.priority_order (DirectoryManagement.rt_priority a)
      = QualityAssuranceAgent.priority_order (DirectoryManagement.rt_priority b)
      /\ (DirectoryManagement.rt_created_at a
          <= DirectoryManagement.rt_created_at b)%Z).

(** A notification service that always reports success. *)
Definition alert_ok (p : Provider) (r : ValidationResult) : exn + bool :=
  inr true.

Definition uuid_of_position (i : nat) : string :=
  match i with
  | O => "ticket-0"
  | S O => "ticket-1"
  | _ => "ticket-n"
  end.


(** The results [process_batch] acts on, in the order of the providers. *)
Definition results_in_order
    (validation_results : gmap string ValidationResult)
    (providers : list Provider) : list ValidationResult :=
  flat_map
    (fun p => match validation_results !! p_id p with
              | Some r => [r]
              | None => []
              end)
    providers.

(** The flags as [assess_provider] sets them: [needs_review] is set exactly
    when neither of the other two is. *)
Definition flags_as_assessed (r : ValidationResult) : Prop :=
  vr_needs_review r = negb (vr_auto_updated r) && negb (vr_urgent_review r).

(** Results flagged both for auto-update and for urgent review. *)
Definition both_auto_and_urgent (r : ValidationResult) : bool :=
  vr_auto_updated r && vr_urgent_review r.


(** ** agents/orchestrator.py: [run_quick_validation] *)

Module QuickValidation.

(** The validations of a dict, when every value is one. *)
Fixpoint proper_entries (d : PyDict.t (stored SourceValidation))
  : option (PyDict.t SourceValidation) :=
  match d with
  | [] => Some []
  | (k, Found v) :: rest =>
      match proper_entries rest with
      | Some validations => Some ((k, v) :: validations)
      | None => None
      end
  | (_, Cancelled _) :: _ => None
  end.

(** [assess_provider] on the dict [validate_provider] returned: the
    aggregate reads [source] from each value first, and raises on an object
    that has none. *)
Definition assess_stored
    (now : Z) (provider : Provider)
    (source_validations : PyDict.t (stored SourceValidation))
  : exn + ValidationResult :=
  match proper_entries source_validations with
  | Some validations =>
      inr (QualityAssuranceAgent.assess_provider now provider validations)
  | None => inl (no_attribute "source")
  end.

Definition run_quick_validation
    (query : DataSource -> Provider -> exn + SourceValidation) (now : Z)
    (provider : Provider) : exn + ValidationResult :=
  match DataValidationAgent.validate_provider query now provider None with
  | inl e => inl e
  | inr source_validations => assess_stored now provider source_validations
  end.

End QuickValidation.


(** *** Notions for whole pipeline runs *)

(** The agent operations of a run that meets no failure, in order. *)
Definition planned_operations {E A C R : Type}
    (o : @ValidationOrchestrator.Orchestrator E A C R) : list string :=
  (["validate_batch"]
   ++ (if ValidationOrchestrator.enable_enrichment o
       then ["enrich_batch"] else [])
   ++ ["assess_batch"; "process_batch"; "generate_validation_report"]
   ++ (if ValidationOrchestrator.auto_export_results o
       then ["export_results"] else []))%list.

(** The timing entries of such a run. *)
Definition planned_timing {E A C R : Type}
    (o : @ValidationOrchestrator.Orchestrator E A C R) : list string :=
  (["data_validation"]
   ++ (if ValidationOrchestrator.enable_enrichment o
       then ["enrichment"] else [])
   ++ ["quality_assessment"; "directory_management"; "reporting"; "total"])%list.

(** Agents that all succeed, and no progress callback. *)
Definition succeeding_env
  : @ValidationOrchestrator.Collaborators unit unit unit unit unit :=
  {| ValidationOrchestrator.validate_batch := fun _ => inr tt;
     ValidationOrchestrator.enrich_batch := fun _ => inr tt;
     ValidationOrchestrator.assess_batch := fun _ _ => inr tt;
     ValidationOrchestrator.process_batch := fun _ _ => inr tt;
     ValidationOrchestrator.generate_validation_report := fun _ _ => inr tt;
     ValidationOrchestrator.export_results := fun _ _ _ => inr "out.csv";
     ValidationOrchestrator.progress_callback := None;
     ValidationOrchestrator.now := 0 |}.


(** ** services: the confidence the source adapters report

    Each adapter starts from a base score, takes points off for every
    discrepancy it found according to its priority, adds its bonuses and cuts
    the result to the range 0..100. Of the data an adapter collected only the
    entries these functions read are modelled; an entry is [None] when the
    key is absent. *)

Module NPIRegistryService.

Definition _calculate_confidence (discrepancies : list Discrepancy) : Q :=
  let base_confidence :=
    fold_left
      (fun base_confidence disc =>
         match d_priority disc with
         | HIGH => base_confidence - 20
         | MEDIUM => base_confidence - 10
         | LOW => base_confidence - 5
         end)%Q
      discrepancies 100%Q in
  py_max 0 (py_min 100 base_confidence).

End NPIRegistryService.

Module GooglePlacesService.

Record PlaceData : Type := {
  business_status : option string;
  user_ratings_total : option Z
}.

Definition _calculate_confidence
    (place_data : PlaceData) (discrepancies : list Discrepancy) : Q :=
  let base_confidence :=
    fold_left
      (fun base_confidence disc =>
         match d_priority disc with
         | HIGH => base_confidence - 25
         | MEDIUM => base_confidence - 12
         | LOW => base_confidence - 5
         end)%Q
      discrepancies 90%Q in
  let base_confidence :=
    match business_status place_data with
    | Some status =>
        if String.eqb status "OPERATIONAL" then (base_confidence + 5)%Q
        else base_confidence
    | None => base_confidence
    end in
  let base_confidence :=
    if (50 <? default 0%Z (user_ratings_total place_data))%Z
    then (base_confidence + 3)%Q
    else base_confidence in
  py_max 0 (py_min 100 base_confidence).

End GooglePlacesService.

Module WebScraperService.

Record ScrapedData : Type := {
  providers_mentioned : option (list string);
  last_updated : option string
}.

(** Truth value of [scraped_data.get(key)]. *)
Definition truthy_list {A} (v : option (list A)) : bool :=
  match v with
  | Some (_ :: _) => true
  | _ => false
  end.

Definition truthy_string (v : option string) : bool :=
  match v with
  | Some (String _ _) => true
  | _ => false
  end.

Definition _calculate_confidence
    (scraped_data : ScrapedData) (discrepancies : list Discrepancy) : Q :=
  let base_confidence :=
    fold_left
      (fun base_confidence disc =>
         match d_priority disc with
         | HIGH => base_confidence - 20
         | MEDIUM => base_confidence - 10
         | LOW => base_confidence - 5
         end)%Q
      discrepancies 80%Q in
  let base_confidence :=
    if truthy_list (providers_mentioned scraped_data)
    then (base_confidence + 5)%Q
    else base_confidence in
  let base_confidence :=
    if truthy_string (last_updated scraped_data)
    then (base_confidence + 3)%Q
    else base_confidence in
  py_max 0 (py_min 100 base_confidence).

End WebScraperService.

Module PDFProcessorService.

Definition _calculate_confidence
    (extraction_quality : option Q) (discrepancies : list Discrepancy) : Q :=
  let extraction_quality := default (1 # 2)%Q extraction_quality in
  let base_confidence := (extraction_quality * 80)%Q in
  let base_confidence :=
    fold_left
      (fun base_confidence disc =>
         match d_priority disc with
         | HIGH => base_confidence - 15
         | MEDIUM => base_confidence - 8
         | LOW => base_confidence - 3
         end)%Q
      discrepancies base_confidence in
  py_max 0 (py_min 100 base_confidence).

End PDFProcessorService.

(** *** Notions for the adapters *)

(** The points an adapter takes off for a list of discrepancies, given what
    one discrepancy of each priority costs. *)
Definition deduction (high medium low : Q) (discrepancies : list Discrepancy)
  : Q :=
  (high * inject_Z (Z.of_nat (count_priority HIGH discrepancies))
   + medium * inject_Z (Z.of_nat (count_priority MEDIUM discrepancies))
   + low * inject_Z (Z.of_nat (count_priority LOW discrepancies)))%Q.


(** * Properties *)

(** ** Comparisons and clamping *)

Lemma Qlt_bool_iff (x y : Q) : Qlt_bool x y = true <-> (x < y)%Q.
Proof.
  unfold Qlt_bool. rewrite negb_true_iff.
  split.
  - intros H. apply Qnot_le_lt. intros Hle.
    apply Qle_bool_iff in Hle. congruence.
  - intros H. destruct (Qle_bool y x) eqn:E; [|reflexivity].
    apply Qle_bool_iff in E. exfalso. exact (Qlt_not_le _ _ H E).
Qed.

Lemma Qlt_bool_false_iff (x y : Q) : Qlt_bool x y = false <-> (y <= x)%Q.
Proof.
  unfold Qlt_bool. rewrite negb_false_iff. apply Qle_bool_iff.
Qed.

Lemma Qlt_bool_cases (x y : Q) :
  (Qlt_bool x y = true /\ (x < y)%Q) \/ (Qlt_bool x y = false /\ (y <= x)%Q).
Proof.
  destruct (Qlt_bool x y) eqn:E.
  - left. split; [reflexivity|]. now apply Qlt_bool_iff.
  - right. split; [reflexivity|]. now apply Qlt_bool_false_iff.
Qed.

Lemma Qle_bool_cases (x y : Q) :
  (Qle_bool x y = true /\ (x <= y)%Q) \/ (Qle_bool x y = false /\ (y < x)%Q).
Proof.
  destruct (Qle_bool x y) eqn:E.
  - left. split; [reflexivity|]. now apply Qle_bool_iff.
  - right. split; [reflexivity|]. apply Qnot_le_lt. intros H.
    apply Qle_bool_iff in H. congruence.
Qed.

Lemma clamp_0_100_bounds (x : Q) : (0 <= clamp_0_100 x <= 100)%Q.
Proof.
  unfold clamp_0_100, py_max, py_min.
  destruct (Qlt_bool_cases x 100) as [[-> H1]|[-> H1]];
    [destruct (Qlt_bool_cases 0 x) as [[-> H2]|[-> H2]]
    |destruct (Qlt_bool_cases 0 100) as [[-> H2]|[-> H2]]]; lra.
Qed.

Lemma clamp_0_100_mono (x y : Q) :
  (x <= y)%Q -> (clamp_0_100 x <= clamp_0_100 y)%Q.
Proof.
  intros Hxy. unfold clamp_0_100, py_max, py_min.
  destruct (Qlt_bool_cases x 100) as [[-> H1]|[-> H1]];
  destruct (Qlt_bool_cases y 100) as [[-> H2]|[-> H2]];
  repeat match goal with
         | |- context [Qlt_bool ?a ?b] =>
             destruct (Qlt_bool_cases a b) as [[-> ?]|[-> ?]]
         end; lra.
Qed.

Lemma clamp_0_100_id (x : Q) :
  (0 <= x <= 100)%Q -> (clamp_0_100 x == x)%Q.
Proof.
  intros [H0 H1]. unfold clamp_0_100, py_max, py_min.
  destruct (Qlt_bool_cases x 100) as [[-> H2]|[-> H2]];
  repeat match goal with
         | |- context [Qlt_bool ?a ?b] =>
             destruct (Qlt_bool_cases a b) as [[-> ?]|[-> ?]]
         end; lra.
Qed.

(** ** The configured tables *)

Import ConfidenceCalculator.

Lemma thresholds_auto_update : thresholds "auto_update" = 80%Q.
Proof. reflexivity. Qed.

Lemma thresholds_needs_review : thresholds "needs_review" = 60%Q.
Proof. reflexivity. Qed.

(** Every source has an entry in the weight table, so the default 0.1 is
    never used, and every weight is positive. *)
Lemma weight_of_table (v : SourceValidation) :
  weight_of v =
  match sv_source v with
  | NPI_REGISTRY => 35 # 100
  | GOOGLE_PLACES => 25 # 100
  | PRACTICE_WEBSITE => 20 # 100
  | STATE_LICENSE => 15 # 100
  | PDF_DOCUMENT => 5 # 100
  end.
Proof. unfold weight_of. destruct (sv_source v); reflexivity. Qed.

Lemma weight_of_pos (v : SourceValidation) : (0 < weight_of v)%Q.
Proof. rewrite weight_of_table. destruct (sv_source v); reflexivity. Qed.

Lemma freshness_pos (now ts : Z) : (0 < _calculate_freshness_factor now ts)%Q.
Proof.
  unfold _calculate_freshness_factor.
  repeat match goal with
         | |- context [Z.ltb ?a ?b] => destruct (Z.ltb a b)
         end; reflexivity.
Qed.

(** ** Decision engine: status thresholds *)

(** C4: [determine_validation_status] returns VALIDATED exactly for
    confidence >= 80, NEEDS_REVIEW exactly for 60 <= confidence < 80 and
    URGENT exactly for confidence < 60; in particular 80 is VALIDATED and 60
    is NEEDS_REVIEW. *)
Theorem determine_validation_status_thresholds (confidence : Q) :
  (determine_validation_status confidence = VALIDATED <-> (80 <= confidence)%Q)
  /\ (determine_validation_status confidence = NEEDS_REVIEW
      <-> (60 <= confidence)%Q /\ (confidence < 80)%Q)
  /\ (determine_validation_status confidence = URGENT <-> (confidence < 60)%Q)
  /\ determine_validation_status 80 = VALIDATED
  /\ determine_validation_status 60 = NEEDS_REVIEW.
Proof.
  assert (H80 : determine_validation_status 80 = VALIDATED) by reflexivity.
  assert (H60 : determine_validation_status 60 = NEEDS_REVIEW) by reflexivity.
  unfold determine_validation_status.
  rewrite thresholds_auto_update, thresholds_needs_review.
  destruct (Qle_bool_cases 80 confidence) as [[E1 H1]|[E1 H1]];
  destruct (Qle_bool_cases 60 confidence) as [[E2 H2]|[E2 H2]];
  rewrite ?E1, ?E2;
  (split; [|split; [|split; [|split; [exact H80|exact H60]]]]);
  split; intros H; try discriminate; try reflexivity; try lra;
  destruct H; lra.
Qed.

(** ** Aggregator *)

#[global] Instance clamp_0_100_Proper : Proper (Qeq ==> Qeq) clamp_0_100.
Proof.
  intros x y Hxy. apply Qle_antisym; apply clamp_0_100_mono; rewrite Hxy; lra.
Qed.

Lemma accumulate_failed (now : Z) (acc : Q * Q) (v : SourceValidation) :
  sv_success v = false ->
  accumulate now acc v = (fst acc, (snd acc - weight_of v * 10)%Q).
Proof. intros H. destruct acc. unfold accumulate. now rewrite H. Qed.

(** The loop computes the two sums of the specification. *)
Lemma fold_accumulate (now : Z) (l : list SourceValidation) :
  forall tw wc : Q,
    (fst (fold_left (accumulate now) l (tw, wc))
     == tw + total_weight_of_successes l)%Q
    /\ (snd (fold_left (accumulate now) l (tw, wc))
        == wc + weighted_sum now l)%Q.
Proof.
  induction l as [|v l IH]; intros tw wc;
    cbn [fold_left weighted_sum total_weight_of_successes fst snd].
  - split; ring.
  - unfold contribution, failure_penalty.
    destruct (sv_success v) eqn:Hv.
    + assert (Hstep : accumulate now (tw, wc) v
                      = ((tw + weight_of v)%Q,
                         (wc + weight_of v
                               * (sv_confidence v
                                  * _calculate_freshness_factor
                                      now (sv_timestamp v)))%Q))
        by (unfold accumulate; now rewrite Hv).
      rewrite Hstep. destruct (IH (tw + weight_of v)%Q
                  (wc + weight_of v
                        * (sv_confidence v
                           * _calculate_freshness_factor now (sv_timestamp v)))%Q)
        as [-> ->].
      split; ring.
    + rewrite (accumulate_failed now (tw, wc) v Hv). cbn [fst snd].
      destruct (IH tw (wc - weight_of v * 10)%Q) as [-> ->].
      split; ring.
Qed.

Lemma total_weight_nonneg (l : list SourceValidation) :
  (0 <= total_weight_of_successes l)%Q.
Proof.
  induction l as [|v l IH]; simpl; [lra|].
  pose proof (weight_of_pos v). destruct (sv_success v); lra.
Qed.

Lemma total_weight_app (l1 l2 : list SourceValidation) :
  (total_weight_of_successes (l1 ++ l2)
   == total_weight_of_successes l1 + total_weight_of_successes l2)%Q.
Proof. induction l1 as [|v l1 IH]; simpl; [ring|rewrite IH; ring]. Qed.

Lemma weighted_sum_app (now : Z) (l1 l2 : list SourceValidation) :
  (weighted_sum now (l1 ++ l2) == weighted_sum now l1 + weighted_sum now l2)%Q.
Proof. induction l1 as [|v l1 IH]; simpl; [ring|rewrite IH; ring]. Qed.

Lemma Qeq_bool_compat (x y : Q) : (x == y)%Q -> Qeq_bool x 0 = Qeq_bool y 0.
Proof.
  intros H. destruct (Qeq_bool x 0) eqn:Ex, (Qeq_bool y 0) eqn:Ey; try reflexivity.
  - apply Qeq_bool_iff in Ex. apply Qeq_bool_neq in Ey. exfalso. apply Ey.
    rewrite <- H. exact Ex.
  - apply Qeq_bool_iff in Ey. apply Qeq_bool_neq in Ex. exfalso. apply Ex.
    rewrite H. exact Ey.
Qed.

(** The loop form of [calculate_overall_confidence] in closed form. *)
Lemma calculate_overall_confidence_closed
    (now : Z) (svs : list SourceValidation) :
  (calculate_overall_confidence now svs
   == if Qeq_bool (total_weight_of_successes svs) 0 then 0
      else clamp_0_100 (weighted_sum now svs / total_weight_of_successes svs))%Q.
Proof.
  destruct svs as [|v l]; [reflexivity|].
  unfold calculate_overall_confidence.
  destruct (fold_accumulate now (v :: l) 0 0) as [Htw Hwc].
  destruct (fold_left (accumulate now) (v :: l) (0%Q, 0%Q)) as [tw wc].
  cbn [fst snd] in Htw, Hwc.
  rewrite Qplus_0_l in Htw, Hwc.
  rewrite (Qeq_bool_compat _ _ Htw).
  destruct (Qeq_bool (total_weight_of_successes (v :: l)) 0); [reflexivity|].
  fold (clamp_0_100 (wc / tw)). now rewrite Htw, Hwc.
Qed.

Lemma calculate_overall_confidence_bounds
    (now : Z) (svs : list SourceValidation) :
  (0 <= calculate_overall_confidence now svs <= 100)%Q.
Proof.
  rewrite calculate_overall_confidence_closed.
  destruct (Qeq_bool (total_weight_of_successes svs) 0).
  - lra.
  - apply clamp_0_100_bounds.
Qed.

(** ** The aggregate in binary64 *)

Section Binary64Facts.
Import Doubles Binary64.
Local Open Scope float_scope.

(** The loop computes the two running sums side by side. *)
Lemma fold_accumulate64 (now : Z) (l : list SourceValidation)
    (total_weight weighted_confidence : float) :
  fold_left (accumulate now) l (total_weight, weighted_confidence)
  = (total_weight_from total_weight l,
     weighted_sum_from weighted_confidence now l).
Proof.
  revert total_weight weighted_confidence.
  induction l as [|v l IH]; intros tw wc; [reflexivity|].
  unfold total_weight_from, weighted_sum_from in *.
  cbn [fold_left]. unfold accumulate at 2.
  unfold contribution, failure_penalty.
  destruct (sv_success v); apply IH.
Qed.

Lemma calculate_overall_confidence_sums
    (now : Z) (l : list SourceValidation) :
  calculate_overall_confidence now l
  = final_score (total_weight_of_successes l) (weighted_sum now l).
Proof.
  destruct l as [|v l]; [reflexivity|].
  unfold calculate_overall_confidence. rewrite fold_accumulate64.
  reflexivity.
Qed.


Lemma total_weight_from_app (l1 l2 : list SourceValidation) (start : float) :
  total_weight_from start (l1 ++ l2)
  = total_weight_from (total_weight_from start l1) l2.
Proof. unfold total_weight_from. apply fold_left_app. Qed.

Lemma weighted_sum_from_app (now : Z) (l1 l2 : list SourceValidation)
    (start : float) :
  weighted_sum_from start now (l1 ++ l2)
  = weighted_sum_from (weighted_sum_from start now l1) now l2.
Proof. unfold weighted_sum_from. apply fold_left_app. Qed.



(** C6: in [calculate_overall_confidence], a failed outcome takes the fixed
    penalty weight x 10 off the running weighted sum at its place in the
    list and adds nothing to the total weight: the result for a list with a
    failed outcome in it is the final score of the sums that continue, over
    the outcomes after it, from the total weight reached before it and from
    the weighted sum reached before it less the penalty. Neither the clock
    nor the confidence or the timestamp of the failed outcome enters (no
    freshness factor is applied to the penalty). *)
Theorem failed_outcome_penalty
    (now : Z) (v : SourceValidation) (before after : list SourceValidation)
    (Hfailed : sv_success v = false) :
  calculate_overall_confidence now (before ++ v :: after)
  = final_score
      (total_weight_from (total_weight_of_successes before) after)
      (weighted_sum_from (weighted_sum now before - weight_of v * 10) now after)
  /\ calculate_overall_confidence now (before ++ [v])
     = final_score (total_weight_of_successes before)
         (weighted_sum now before - weight_of v * 10)
  /\ total_weight_of_successes (before ++ v :: after)
     = total_weight_of_successes (before ++ after)
  /\ (forall now' acc,
        accumulate now' acc v = (fst acc, snd acc - weight_of v * 10))
  /\ (forall v',
        sv_success v' = false -> sv_source v' = sv_source v ->
        calculate_overall_confidence now (before ++ v' :: after)
        = calculate_overall_confidence now (before ++ v :: after)).
Proof.
  assert (Hgen : forall u rest,
             sv_success u = false ->
             calculate_overall_confidence now (before ++ u :: rest)
             = final_score
                 (total_weight_from (total_weight_of_successes before) rest)
                 (weighted_sum_from
                    (weighted_sum now before - weight_of u * 10) now rest)).
  { intros u rest Hu. rewrite calculate_overall_confidence_sums.
    unfold weighted_sum, total_weight_of_successes.
    rewrite weighted_sum_from_app, total_weight_from_app.
    unfold weighted_sum_from at 1, total_weight_from at 1.
    cbn [fold_left]. rewrite Hu. reflexivity. }
  split; [now apply Hgen|].
  split; [now rewrite (Hgen v [] Hfailed)|].
  split.
  { unfold total_weight_of_successes.
    rewrite !total_weight_from_app.
    unfold total_weight_from at 1. cbn [fold_left]. now rewrite Hfailed. }
  split.
  { intros now' [tw wc]. unfold accumulate. now rewrite Hfailed. }
  intros v' Hv' Hsource. rewrite !Hgen by assumption.
  unfold weight_of. now rewrite Hsource.
Qed.

(** A failed NPI outcome between two successful ones. *)
Lemma failed_outcome_penalty_witness :
  sv_success failed_npi = false
  /\ calculate_overall_confidence 0
       ([fresh_google_90] ++ failed_npi :: [fresh_website_70])
     = 77.3888888888889
  /\ calculate_overall_confidence 0 ([fresh_google_90] ++ [fresh_website_70])
     = 85.166666666666671
  /\ calculate_overall_confidence 0
       ([fresh_google_90] ++ failed_npi_other :: [fresh_website_70])
     = calculate_overall_confidence 0
         ([fresh_google_90] ++ failed_npi :: [fresh_website_70]).
Proof.
  split; [reflexivity|].
  pose proof (failed_outcome_penalty 0 failed_npi [fresh_google_90]
                [fresh_website_70] eq_refl) as (H1 & _ & _ & _ & H5).
  split; [rewrite H1; vm_compute; reflexivity|].
  split; [vm_compute; reflexivity|].
  apply H5; reflexivity.
Defined.








End Binary64Facts.

(** ** The stable sort *)

Section SortedFacts.
Context {A K : Type} (key : A -> K) (lt : K -> K -> bool).

Lemma insert_sorted_Permutation (x : A) (l : list A) :
  Permutation (x :: l) (insert_sorted key lt x l).
Proof.
  induction l as [|y r IH]; simpl; [reflexivity|].
  destruct (lt (key y) (key x)); [|reflexivity].
  rewrite perm_swap. now apply perm_skip.
Qed.

Lemma sorted_Permutation (l : list A) : Permutation l (sorted key lt l).
Proof.
  induction l as [|x r IH]; simpl; [reflexivity|].
  rewrite <- insert_sorted_Permutation. now apply perm_skip.
Qed.

(** Stability: elements that the order does not separate keep their
    relative order. [P] selects a class of such elements. *)
Lemma filter_insert_sorted (P : A -> bool) (x : A) (l : list A) :
  (forall a b, P a = true -> P b = true -> lt (key b) (key a) = false) ->
  List.filter P (insert_sorted key lt x l) = List.filter P (x :: l).
Proof.
  intros HP. induction l as [|y r IH]; [reflexivity|].
  cbn [insert_sorted]. destruct (lt (key y) (key x)) eqn:E; [|reflexivity].
  cbn [List.filter] in *. rewrite IH.
  destruct (P x) eqn:Px, (P y) eqn:Py; try reflexivity.
  rewrite (HP x y Px Py) in E. discriminate.
Qed.

Lemma filter_sorted (P : A -> bool) (l : list A) :
  (forall a b, P a = true -> P b = true -> lt (key b) (key a) = false) ->
  List.filter P (sorted key lt l) = List.filter P l.
Proof.
  intros HP. induction l as [|x r IH]; [reflexivity|].
  cbn [sorted]. rewrite filter_insert_sorted by exact HP.
  cbn [List.filter]. now rewrite IH.
Qed.

Hypothesis lt_asym : forall a b, lt a b = true -> lt b a = false.
Hypothesis not_lt_trans :
  forall a b c, lt b a = false -> lt c b = false -> lt c a = false.

Lemma insert_sorted_StronglySorted (x : A) (l : list A) :
  StronglySorted (not_after key lt) l ->
  StronglySorted (not_after key lt) (insert_sorted key lt x l).
Proof.
  induction 1 as [|y r Hr IH Hy]; cbn [insert_sorted].
  - repeat constructor.
  - destruct (lt (key y) (key x)) eqn:E.
    + constructor; [exact IH|].
      rewrite <- insert_sorted_Permutation. constructor; [|exact Hy].
      unfold not_after. now apply lt_asym.
    + constructor; [now constructor|].
      constructor; [exact E|].
      rewrite List.Forall_forall in Hy |- *. intros z Hz.
      unfold not_after in *. eapply not_lt_trans; [exact E|].
      now apply Hy.
Qed.

Lemma sorted_StronglySorted (l : list A) :
  StronglySorted (not_after key lt) (sorted key lt l).
Proof.
  induction l as [|x r IH]; cbn [sorted]; [constructor|].
  now apply insert_sorted_StronglySorted.
Qed.

(** Sorting a list that is already in order returns it unchanged. *)
Lemma sorted_fixpoint (l : list A) :
  StronglySorted (not_after key lt) l -> sorted key lt l = l.
Proof.
  induction 1 as [|x r Hr IH Hx]; [reflexivity|].
  cbn [sorted]. rewrite IH.
  destruct r as [|y r']; [reflexivity|].
  cbn [insert_sorted]. inversion Hx as [|? ? Hxy _]; subst.
  unfold not_after in Hxy. now rewrite Hxy.
Qed.

End SortedFacts.

(** ** Insertion-ordered dicts *)

Section PyDictFacts.
Context {V : Type}.
Implicit Types (d : PyDict.t V) (k : string) (v : V).

Lemma get_None_keys d k : PyDict.get d k = None <-> ~ In k (PyDict.keys d).
Proof.
  induction d as [|[k' v'] r IH]; simpl.
  - tauto.
  - destruct (String.eqb_spec k' k) as [->|Hne].
    + split; [discriminate|]. intros H. exfalso. apply H. now left.
    + rewrite IH. split.
      * intros H [H1|H1]; [congruence|tauto].
      * intros H H1. apply H. now right.
Qed.

Lemma get_Some_In d k v : PyDict.get d k = Some v -> In (k, v) d.
Proof.
  induction d as [|[k' v'] r IH]; simpl; [discriminate|].
  destruct (String.eqb_spec k' k) as [->|Hne].
  - intros [= ->]. now left.
  - intros H. right. now apply IH.
Qed.

Lemma In_get_Some d k v :
  List.NoDup (PyDict.keys d) -> In (k, v) d -> PyDict.get d k = Some v.
Proof.
  induction d as [|[k' v'] r IH]; simpl; [tauto|].
  intros Hnd [H|H].
  - injection H as -> ->. now rewrite String.eqb_refl.
  - inversion Hnd as [|? ? Hnotin Hnd']; subst.
    destruct (String.eqb_spec k' k) as [->|Hne].
    + exfalso. apply Hnotin. change k with (fst (k, v)).
      now apply in_map.
    + now apply IH.
Qed.

Lemma set_absent d k v :
  PyDict.get d k = None -> PyDict.set d k v = (d ++ [(k, v)])%list.
Proof.
  induction d as [|[k' v'] r IH]; simpl; [reflexivity|].
  destruct (String.eqb k' k); [discriminate|].
  intros H. now rewrite IH.
Qed.

Lemma keys_set_present d k v :
  PyDict.get d k <> None -> PyDict.keys (PyDict.set d k v) = PyDict.keys d.
Proof.
  induction d as [|[k' v'] r IH]; simpl; [congruence|].
  destruct (String.eqb k' k); [reflexivity|].
  intros H. cbn [PyDict.keys List.map fst]. f_equal. now apply IH.
Qed.

Lemma In_set d k v k' v' :
  List.NoDup (PyDict.keys d) ->
  In (k', v') (PyDict.set d k v) ->
  (k' = k /\ v' = v) \/ (k' <> k /\ In (k', v') d).
Proof.
  induction d as [|[k0 v0] r IH]; simpl.
  - intros _ [[= <- <-]|[]]. now left.
  - intros Hnd. inversion Hnd as [|? ? Hnotin Hnd']; subst.
    destruct (String.eqb_spec k0 k) as [->|Hne]; simpl.
    + intros [[= <- <-]|H]; [now left|].
      right. split; [|now right].
      intros ->. apply Hnotin. change k with (fst (k, v')). now apply in_map.
    + intros [[= <- <-]|H].
      * right. split; [congruence|now left].
      * destruct (IH Hnd' H) as [?|[? ?]]; [now left|].
        right. split; [assumption|now right].
Qed.

Lemma In_set_new d k v : In (k, v) (PyDict.set d k v).
Proof.
  induction d as [|[k0 v0] r IH]; simpl; [now left|].
  destruct (String.eqb_spec k0 k) as [->|Hne]; [now left|now right].
Qed.

Lemma In_set_other d k v k' v' :
  k' <> k -> In (k', v') d -> In (k', v') (PyDict.set d k v).
Proof.
  intros Hne. induction d as [|[k0 v0] r IH]; simpl; [tauto|].
  destruct (String.eqb_spec k0 k) as [->|Hne0]; simpl.
  - intros [[= <- <-]|H]; [congruence|now right].
  - intros [H|H]; [now left|right; now apply IH].
Qed.

Lemma keys_set d k v :
  PyDict.keys (PyDict.set d k v)
  = if PyDict.contains d k then PyDict.keys d
    else (PyDict.keys d ++ [k])%list.
Proof.
  unfold PyDict.contains. destruct (PyDict.get d k) eqn:E.
  - apply keys_set_present. congruence.
  - rewrite set_absent by exact E. unfold PyDict.keys.
    now rewrite List.map_app.
Qed.

Lemma NoDup_keys_set d k v :
  List.NoDup (PyDict.keys d) -> List.NoDup (PyDict.keys (PyDict.set d k v)).
Proof.
  intros Hnd. rewrite keys_set. unfold PyDict.contains.
  destruct (PyDict.get d k) eqn:E; [exact Hnd|].
  apply get_None_keys in E.
  apply List.NoDup_rev in Hnd. rewrite <- (rev_involutive (_ ++ _)%list).
  apply List.NoDup_rev. rewrite rev_app_distr. simpl.
  constructor; [|exact Hnd]. now rewrite <- in_rev.
Qed.

End PyDictFacts.

(** ** Discrepancy resolver *)

Import QualityAssuranceAgent.

Lemma list_ascii_of_string_app (a b : string) :
  list_ascii_of_string (a ++ b)
  = (list_ascii_of_string a ++ list_ascii_of_string b)%list.
Proof. induction a as [|c a IH]; simpl; [reflexivity|now rewrite IH]. Qed.

Lemma rev_list_ascii_inj (a b : string) :
  rev (list_ascii_of_string a) = rev (list_ascii_of_string b) -> a = b.
Proof.
  intros H. apply (f_equal (@rev ascii)) in H. rewrite !rev_involutive in H.
  apply (f_equal string_of_list_ascii) in H.
  now rewrite !string_of_list_ascii_of_string in H.
Qed.

(** No type value ends with an underscore followed by another type value, so
    the string key determines the field name and the type. *)
Lemma dedup_key_parts (f1 f2 : string) (t1 t2 : DiscrepancyType) :
  f1 ++ "_" ++ DiscrepancyType_value t1 = f2 ++ "_" ++ DiscrepancyType_value t2 ->
  f1 = f2 /\ t1 = t2.
Proof.
  intros H. apply (f_equal list_ascii_of_string) in H.
  rewrite !list_ascii_of_string_app in H.
  apply (f_equal (@rev ascii)) in H. rewrite !rev_app_distr in H.
  destruct t1, t2; cbn in H;
    first [ exfalso; congruence
          | split; [apply rev_list_ascii_inj; congruence | reflexivity] ].
Qed.

Lemma dedup_key_inj (a b : Discrepancy) :
  dedup_key a = dedup_key b <-> pair_key a = pair_key b.
Proof.
  unfold dedup_key, pair_key. split.
  - intros H. apply dedup_key_parts in H as [-> ->]. reflexivity.
  - intros [= -> ->]. reflexivity.
Qed.

Lemma In_keys {V : Type} (d : PyDict.t V) (k : string) (v : V) :
  In (k, v) d -> In k (PyDict.keys d).
Proof. intros H. change k with (fst (k, v)). now apply in_map. Qed.

Lemma first_seen_snoc (keys : list string) (k : string) :
  first_seen (keys ++ [k])
  = if in_dec string_dec k keys then first_seen keys
    else (first_seen keys ++ [k])%list.
Proof.
  unfold first_seen. rewrite rev_app_distr. cbn [rev List.app nodup].
  destruct (in_dec string_dec k (rev keys)) as [Hin|Hout];
    destruct (in_dec string_dec k keys) as [Hin'|Hout']; try reflexivity.
  - exfalso. apply Hout'. now apply in_rev.
  - exfalso. apply Hout. now apply in_rev in Hin'.
Qed.

Lemma inv_member l deduped k d :
  dedup_invariant l deduped -> In (k, d) deduped -> In d l.
Proof.
  intros Hinv Hin. destruct (inv_best _ _ Hinv k d Hin) as (b & a & -> & _).
  apply in_or_app. right. now left.
Qed.

Lemma dedup_invariant_nil : dedup_invariant [] [].
Proof.
  constructor; simpl; try tauto; constructor.
Qed.

Lemma dedup_invariant_step l deduped x :
  dedup_invariant l deduped ->
  dedup_invariant (l ++ [x]) (dedup_step deduped x).
Proof.
  intros Hinv. pose proof Hinv as [Hnd Hkey Hcov Hbest Hord].
  unfold dedup_step.
  destruct (PyDict.get deduped (dedup_key x)) as [kept|] eqn:Hget.
  - (* the key is present *)
    pose proof (get_Some_In _ _ _ Hget) as Hkept.
    assert (Hseen : In (dedup_key x) (List.map dedup_key l)).
    { rewrite (Hkey _ _ Hkept). apply in_map.
      exact (inv_member _ _ _ _ Hinv Hkept). }
    assert (Hord' : PyDict.keys deduped
                    = first_seen (List.map dedup_key (l ++ [x]))).
    { rewrite List.map_app. cbn [List.map]. rewrite first_seen_snoc.
      destruct (in_dec string_dec (dedup_key x) (List.map dedup_key l));
        [exact Hord|contradiction]. }
    assert (Hcov' : forall y, In y (l ++ [x]) ->
                              In (dedup_key y) (PyDict.keys deduped)).
    { intros y Hy. apply in_app_or in Hy as [Hy|[<-|[]]].
      - now apply Hcov.
      - exact (In_keys _ _ _ Hkept). }
    destruct (Qlt_bool_cases (d_confidence kept) (d_confidence x))
      as [[-> Hlt]|[-> Hle]].
    + (* strictly better: the entry is replaced in place *)
      assert (Hkeys : PyDict.keys (PyDict.set deduped (dedup_key x) x)
                      = PyDict.keys deduped)
        by (apply keys_set_present; congruence).
      constructor.
      * rewrite Hkeys. exact Hnd.
      * intros k d Hin. apply In_set in Hin as [[-> ->]|[_ Hin]];
          [reflexivity|now apply Hkey|exact Hnd].
      * rewrite Hkeys. exact Hcov'.
      * intros k d Hin. apply In_set in Hin as [[-> ->]|[Hne Hin]];
          [| |exact Hnd].
        -- exists l, []. split; [reflexivity|]. split; [|intros ? []].
           intros y Hy Hk.
           destruct (Hbest _ _ Hkept) as (b & a & Hl & Hb & Ha).
           rewrite Hl in Hy. apply in_app_or in Hy as [Hy|[<-|Hy]].
           ++ specialize (Hb y Hy Hk). lra.
           ++ exact Hlt.
           ++ specialize (Ha y Hy Hk). lra.
        -- destruct (Hbest _ _ Hin) as (b & a & -> & Hb & Ha).
           exists b, (a ++ [x])%list. split; [now rewrite <- app_assoc|].
           split; [exact Hb|].
           intros y Hy Hk. apply in_app_or in Hy as [Hy|[<-|[]]];
             [now apply Ha|congruence].
      * rewrite Hkeys. exact Hord'.
    + (* not better: the dict is unchanged *)
      constructor; try assumption.
      intros k d Hin.
      destruct (Hbest _ _ Hin) as (b & a & -> & Hb & Ha).
      exists b, (a ++ [x])%list. split; [now rewrite <- app_assoc|].
      split; [exact Hb|].
      intros y Hy Hk. apply in_app_or in Hy as [Hy|[<-|[]]];
        [now apply Ha|].
      subst k. apply (In_get_Some _ _ _ Hnd) in Hin.
      rewrite Hget in Hin. injection Hin as <-. exact Hle.
  - (* a new key: the entry goes to the end *)
    pose proof (proj1 (get_None_keys _ _) Hget) as Hfresh.
    assert (Hunseen : ~ In (dedup_key x) (List.map dedup_key l)).
    { intros Hin. apply in_map_iff in Hin as (y & Hy & Hin).
      apply Hfresh. rewrite <- Hy. now apply Hcov. }
    rewrite set_absent by exact Hget.
    constructor.
    * rewrite <- (set_absent _ _ _ Hget). now apply NoDup_keys_set.
    * intros k d Hin. apply in_app_or in Hin as [Hin|[[= <- <-]|[]]];
        [now apply Hkey|reflexivity].
    * intros y Hy. unfold PyDict.keys. rewrite List.map_app.
      apply in_or_app. apply in_app_or in Hy as [Hy|[<-|[]]].
      -- left. now apply Hcov.
      -- right. now left.
    * intros k d Hin. apply in_app_or in Hin as [Hin|[[= <- <-]|[]]].
      -- destruct (Hbest _ _ Hin) as (b & a & -> & Hb & Ha).
         exists b, (a ++ [x])%list. split; [now rewrite <- app_assoc|].
         split; [exact Hb|].
         intros y Hy Hk. apply in_app_or in Hy as [Hy|[<-|[]]];
           [now apply Ha|].
         exfalso. apply Hfresh. rewrite Hk. exact (In_keys _ _ _ Hin).
      -- exists l, []. split; [reflexivity|]. split; [|intros ? []].
         intros y Hy Hk. exfalso. apply Hunseen. rewrite <- Hk.
         now apply in_map.
    * unfold PyDict.keys. rewrite !List.map_app. cbn [List.map fst].
      rewrite first_seen_snoc.
      destruct (in_dec string_dec (dedup_key x) (List.map dedup_key l));
        [contradiction|]. f_equal. exact Hord.
Qed.

Lemma dedup_invariant_fold (l : list Discrepancy) :
  dedup_invariant l (fold_left dedup_step l []).
Proof.
  induction l as [|x l IH] using rev_ind.
  - exact dedup_invariant_nil.
  - rewrite fold_left_app. cbn [fold_left]. now apply dedup_invariant_step.
Qed.

(** *** The order on sort keys *)

Lemma tuple_lt_false_iff (a b : nat * Q) :
  tuple_lt a b = false
  <-> (fst b < fst a)%nat \/ (fst a = fst b /\ (snd b <= snd a)%Q).
Proof.
  unfold tuple_lt. destruct (Nat.eqb_spec (fst a) (fst b)) as [He|Hne].
  - rewrite Qlt_bool_false_iff. split; [now right|].
    intros [H|[_ H]]; [lia|exact H].
  - rewrite Nat.ltb_ge. split; [intros H; left; lia|].
    intros [H|[H _]]; [lia|contradiction].
Qed.

Lemma tuple_lt_true_iff (a b : nat * Q) :
  tuple_lt a b = true
  <-> (fst a < fst b)%nat \/ (fst a = fst b /\ (snd a < snd b)%Q).
Proof.
  unfold tuple_lt. destruct (Nat.eqb_spec (fst a) (fst b)) as [He|Hne].
  - rewrite Qlt_bool_iff. split; [now right|].
    intros [H|[_ H]]; [lia|exact H].
  - rewrite Nat.ltb_lt. split; [now left|].
    intros [H|[H _]]; [exact H|contradiction].
Qed.

Lemma tuple_lt_asym (a b : nat * Q) : tuple_lt a b = true -> tuple_lt b a = false.
Proof.
  rewrite tuple_lt_true_iff, tuple_lt_false_iff.
  intros [H|[H1 H2]]; [now left|right; split; [congruence|lra]].
Qed.

Lemma tuple_not_lt_trans (a b c : nat * Q) :
  tuple_lt b a = false -> tuple_lt c b = false -> tuple_lt c a = false.
Proof.
  rewrite !tuple_lt_false_iff.
  intros [H1|[H1 H1']] [H2|[H2 H2']].
  - left; lia.
  - left; lia.
  - left; lia.
  - right. split; [congruence|lra].
Qed.

Lemma not_after_priority_then_confidence (a b : Discrepancy) :
  not_after sort_key tuple_lt a b <-> priority_then_confidence a b.
Proof.
  unfold not_after, priority_then_confidence.
  rewrite tuple_lt_false_iff. unfold sort_key; cbn [fst snd].
  split; (intros [H|[H1 H2]]; [left; exact H|right; split; [congruence|lra]]).
Qed.

Lemma same_class_not_separated (rank : nat) (c : Q) (a b : Discrepancy) :
  has_rank_and_confidence rank c a = true ->
  has_rank_and_confidence rank c b = true ->
  tuple_lt (sort_key b) (sort_key a) = false.
Proof.
  unfold has_rank_and_confidence. rewrite !andb_true_iff.
  intros [Ha Ha'] [Hb Hb'].
  apply Nat.eqb_eq in Ha, Hb. apply Qeq_bool_iff in Ha', Hb'.
  apply tuple_lt_false_iff. right. unfold sort_key; cbn [fst snd].
  split; [congruence|]. rewrite Ha', Hb'. lra.
Qed.

Lemma StronglySorted_weaken {A : Type} (R S : A -> A -> Prop) (l : list A) :
  (forall a b, R a b -> S a b) -> StronglySorted R l -> StronglySorted S l.
Proof.
  intros HRS. induction 1 as [|x r Hr IH Hx]; constructor; [exact IH|].
  rewrite List.Forall_forall in Hx |- *. intros y Hy. now apply HRS, Hx.
Qed.

(** *** What the resolver returns *)

Lemma prioritize_unfold (l : list Discrepancy) :
  _prioritize_discrepancies l = sorted sort_key tuple_lt (deduplicated l).
Proof. reflexivity. Qed.

Lemma keys_of_values (deduped : PyDict.t Discrepancy) :
  (forall k d, In (k, d) deduped -> k = dedup_key d) ->
  List.map dedup_key (PyDict.values deduped) = PyDict.keys deduped.
Proof.
  induction deduped as [|[k d] r IH]; intros Hkey; [reflexivity|].
  cbn. rewrite <- (Hkey k d) by now left. f_equal.
  apply IH. intros k' d' Hin. apply Hkey. now right.
Qed.

Lemma deduplicated_keys (l : list Discrepancy) :
  List.map dedup_key (deduplicated l) = first_seen (List.map dedup_key l).
Proof.
  pose proof (dedup_invariant_fold l) as Hinv.
  rewrite <- (inv_order _ _ Hinv). unfold deduplicated.
  apply keys_of_values, (inv_key _ _ Hinv).
Qed.

Lemma deduplicated_NoDup (l : list Discrepancy) :
  List.NoDup (List.map dedup_key (deduplicated l)).
Proof.
  pose proof (dedup_invariant_fold l) as Hinv.
  rewrite deduplicated_keys, <- (inv_order _ _ Hinv).
  exact (inv_nodup _ _ Hinv).
Qed.

Lemma In_deduplicated (l : list Discrepancy) (d : Discrepancy) :
  In d (deduplicated l) -> In (dedup_key d, d) (fold_left dedup_step l []).
Proof.
  pose proof (dedup_invariant_fold l) as Hinv. unfold deduplicated.
  intros Hin. apply in_map_iff in Hin as ([k d'] & Hd & Hin).
  cbn in Hd. subst d'. now rewrite <- (inv_key _ _ Hinv k d Hin).
Qed.

Lemma deduplicated_subset (l : list Discrepancy) (d : Discrepancy) :
  In d (deduplicated l) -> In d l.
Proof.
  intros Hin. apply In_deduplicated in Hin.
  exact (inv_member _ _ _ _ (dedup_invariant_fold l) Hin).
Qed.

Lemma prioritize_subset (l : list Discrepancy) (d : Discrepancy) :
  In d (_prioritize_discrepancies l) -> In d l.
Proof.
  rewrite prioritize_unfold. intros Hin. apply deduplicated_subset.
  eapply Permutation_in; [|exact Hin].
  symmetry. apply sorted_Permutation.
Qed.

Lemma prioritize_NoDup (l : list Discrepancy) :
  List.NoDup (List.map dedup_key (_prioritize_discrepancies l)).
Proof.
  rewrite prioritize_unfold.
  eapply Permutation_NoDup; [|apply (deduplicated_NoDup l)].
  apply Permutation_map, sorted_Permutation.
Qed.

Lemma prioritize_StronglySorted (l : list Discrepancy) :
  StronglySorted (not_after sort_key tuple_lt) (_prioritize_discrepancies l).
Proof.
  rewrite prioritize_unfold. apply sorted_StronglySorted.
  - intros a b. apply tuple_lt_asym.
  - intros a b c. apply tuple_not_lt_trans.
Qed.

(** C5: the resolver keeps exactly one discrepancy per (field_name, type)
    pair, every pair of the input survives, the one kept is the first of
    highest confidence for its pair, the output is ordered by priority rank
    ascending and then confidence descending, and discrepancies of equal
    priority and confidence stand in the order they have after
    deduplication, which is the order in which their keys were first seen. *)
Theorem prioritize_discrepancies_spec (discrepancies : list Discrepancy) :
  let out := _prioritize_discrepancies discrepancies in
  List.NoDup (List.map pair_key out)
  /\ (forall x, In x discrepancies ->
        exists d, In d out /\ pair_key d = pair_key x)
  /\ (forall d, In d out -> first_of_highest_confidence discrepancies d)
  /\ StronglySorted priority_then_confidence out
  /\ Permutation (deduplicated discrepancies) out
  /\ (forall rank c,
        List.filter (has_rank_and_confidence rank c) out
        = List.filter (has_rank_and_confidence rank c)
            (deduplicated discrepancies))
  /\ List.map dedup_key (deduplicated discrepancies)
     = first_seen (List.map dedup_key discrepancies)
  /\ priority_order HIGH = 0%nat
  /\ priority_order MEDIUM = 1%nat
  /\ priority_order LOW = 2%nat.
Proof.
  cbv zeta. pose proof (dedup_invariant_fold discrepancies) as Hinv.
  assert (Hperm : Permutation (deduplicated discrepancies)
                    (_prioritize_discrepancies discrepancies))
    by (rewrite prioritize_unfold; apply sorted_Permutation).
  repeat split.
  - pose proof (prioritize_NoDup discrepancies) as Hnd.
    assert (Hmap : List.map dedup_key (_prioritize_discrepancies discrepancies)
                   = List.map (fun p => fst p ++ "_" ++ DiscrepancyType_value (snd p))
                       (List.map pair_key
                          (_prioritize_discrepancies discrepancies))).
    { rewrite List.map_map. reflexivity. }
    rewrite Hmap in Hnd. exact (NoDup_map_inv _ _ Hnd).
  - intros x Hx. pose proof (inv_cover _ _ Hinv x Hx) as Hk.
    apply in_map_iff in Hk as ([k d] & Hkd & Hin). cbn in Hkd. subst k.
    exists d. split.
    + eapply Permutation_in; [exact Hperm|].
      unfold deduplicated, PyDict.values.
      change d with (snd (dedup_key x, d)). now apply in_map.
    + apply dedup_key_inj. symmetry. exact (inv_key _ _ Hinv _ _ Hin).
  - intros d Hd.
    assert (Hin : In d (deduplicated discrepancies))
      by (eapply Permutation_in; [symmetry; exact Hperm|exact Hd]).
    apply In_deduplicated in Hin.
    destruct (inv_best _ _ Hinv _ _ Hin) as (b & a & Hl & Hb & Ha).
    exists b, a. split; [exact Hl|].
    split; intros x Hx Hk; [apply Hb|apply Ha]; try assumption;
      now apply dedup_key_inj.
  - eapply StronglySorted_weaken; [|apply prioritize_StronglySorted].
    intros a b. apply not_after_priority_then_confidence.
  - exact Hperm.
  - intros rank c. rewrite prioritize_unfold. apply filter_sorted.
    intros a b. apply same_class_not_separated.
  - apply deduplicated_keys.
Qed.

(** A list whose keys are distinct passes the deduplication loop unchanged. *)
Lemma dedup_distinct (l : list Discrepancy) :
  forall deduped : PyDict.t Discrepancy,
    List.NoDup (PyDict.keys deduped ++ List.map dedup_key l) ->
    fold_left dedup_step l deduped
    = (deduped ++ List.map (fun d => (dedup_key d, d)) l)%list.
Proof.
  induction l as [|x l IH]; intros deduped Hnd; cbn [fold_left List.map].
  - now rewrite app_nil_r.
  - assert (Hget : PyDict.get deduped (dedup_key x) = None).
    { apply get_None_keys. intros Hin.
      apply NoDup_remove_2 in Hnd. apply Hnd.
      apply in_or_app. now left. }
    unfold dedup_step at 2. rewrite Hget, set_absent by exact Hget.
    rewrite IH.
    + now rewrite <- app_assoc.
    + unfold PyDict.keys. rewrite List.map_app, <- app_assoc. exact Hnd.
Qed.

Lemma deduplicated_distinct (l : list Discrepancy) :
  List.NoDup (List.map dedup_key l) -> deduplicated l = l.
Proof.
  intros Hnd. unfold deduplicated. rewrite dedup_distinct by exact Hnd.
  cbn [List.app]. unfold PyDict.values. rewrite List.map_map. cbn [snd].
  apply List.map_id.
Qed.

(** C9: the resolver is idempotent. *)
Theorem prioritize_discrepancies_idempotent (x : list Discrepancy) :
  _prioritize_discrepancies (_prioritize_discrepancies x)
  = _prioritize_discrepancies x.
Proof.
  rewrite (prioritize_unfold (_prioritize_discrepancies x)).
  rewrite (deduplicated_distinct _ (prioritize_NoDup x)).
  apply sorted_fixpoint, prioritize_StronglySorted.
Qed.

(** ** Assembled results *)

(** C10: in every [ValidationResult] built by [assess_provider] or by
    [calculate_validation_result], [total_discrepancies] is the length of the
    discrepancy list, and every discrepancy of the list is a discrepancy of
    one of the source validations passed in. *)
Theorem validation_result_discrepancies
    (now : Z) (provider : Provider)
    (source_validations : PyDict.t SourceValidation)
    (validations : list SourceValidation) :
  let assessed := assess_provider now provider source_validations in
  let calculated := calculate_validation_result now provider validations in
  vr_total_discrepancies assessed = length (vr_discrepancies assessed)
  /\ (forall d, In d (vr_discrepancies assessed) ->
        exists sv, In sv (PyDict.values source_validations)
                   /\ In d (sv_discrepancies sv))
  /\ vr_total_discrepancies calculated = length (vr_discrepancies calculated)
  /\ (forall d, In d (vr_discrepancies calculated) ->
        exists sv, In sv validations /\ In d (sv_discrepancies sv)).
Proof.
  cbv zeta. cbn [assess_provider calculate_validation_result
                 vr_total_discrepancies vr_discrepancies].
  repeat split.
  - intros d Hd. apply prioritize_subset in Hd. now apply in_flat_map in Hd.
  - intros d Hd. now apply in_flat_map in Hd.
Qed.

(** ** Decision flags *)

Lemma filter_nil_iff {A : Type} (P : A -> bool) (l : list A) :
  List.filter P l = [] <-> forall x, In x l -> P x = false.
Proof.
  induction l as [|y r IH]; cbn [List.filter].
  - split; [intros _ x []|reflexivity].
  - destruct (P y) eqn:E.
    + split; [discriminate|]. intros H. specialize (H y (or_introl eq_refl)).
      congruence.
    + rewrite IH. split.
      * intros H x [<-|Hx]; [exact E|now apply H].
      * intros H x Hx. apply H. now right.
Qed.

Lemma is_nonempty_false {A : Type} (l : list A) :
  is_nonempty l = false <-> l = [].
Proof. destruct l; split; intros H; try reflexivity; discriminate. Qed.

Lemma should_auto_update_true (confidence : Q) (ds : list Discrepancy) :
  should_auto_update confidence ds = true
  <-> (80 <= confidence)%Q
      /\ (forall d, In d ds -> d_priority d <> HIGH)
      /\ (forall d, In d ds -> (75 <= d_confidence d)%Q).
Proof.
  unfold should_auto_update. rewrite thresholds_auto_update.
  destruct (Qlt_bool_cases confidence 80) as [[-> Hc]|[-> Hc]].
  { split; [discriminate|]. intros [H _]. lra. }
  destruct (is_nonempty (List.filter _ ds)) eqn:Ehigh.
  { split; [discriminate|]. intros (_ & Hhigh & _).
    assert (Hnil : List.filter (fun d => Priority_eqb (d_priority d) HIGH) ds = []).
    { apply filter_nil_iff. intros d Hd. specialize (Hhigh d Hd).
      destruct (d_priority d); try reflexivity. contradiction. }
    rewrite Hnil in Ehigh. discriminate. }
  apply is_nonempty_false in Ehigh.
  destruct (is_nonempty (List.filter _ ds)) eqn:Elow.
  { split; [discriminate|]. intros (_ & _ & Hlow).
    assert (Hnil : List.filter (fun d => Qlt_bool (d_confidence d) 75) ds = []).
    { apply filter_nil_iff. intros d Hd. apply Qlt_bool_false_iff.
      now apply Hlow. }
    rewrite Hnil in Elow. discriminate. }
  apply is_nonempty_false in Elow.
  split; [intros _|reflexivity].
  split; [exact Hc|]. split; intros d Hd.
  - pose proof (proj1 (filter_nil_iff _ _) Ehigh d Hd) as H.
    cbn beta in H. intros Heq. rewrite Heq in H. discriminate.
  - pose proof (proj1 (filter_nil_iff _ _) Elow d Hd) as H.
    now apply Qlt_bool_false_iff.
Qed.

Lemma needs_urgent_review_true (confidence : Q) (ds : list Discrepancy) :
  needs_urgent_review confidence ds = true
  <-> (confidence < 60)%Q
      \/ (exists d, In d ds /\ is_critical d = true)
      \/ (2 <= length (List.filter
                         (fun d => Priority_eqb (d_priority d) HIGH) ds))%nat.
Proof.
  unfold needs_urgent_review. rewrite thresholds_needs_review.
  destruct (Qlt_bool_cases confidence 60) as [[-> Hc]|[-> Hc]].
  { split; [now left|reflexivity]. }
  destruct (existsb _ ds) eqn:Ecrit.
  { split; [|reflexivity]. intros _. right. left.
    apply existsb_exists in Ecrit as (d & Hd & Hcrit). now exists d. }
  destruct (Nat.leb_spec 2 (length (List.filter
              (fun d => Priority_eqb (d_priority d) HIGH) ds))) as [Hn|Hn].
  { split; [|reflexivity]. intros _. right. now right. }
  split; [discriminate|].
  intros [H|[(d & Hd & Hcrit)|H]]; [lra| |lia].
  assert (existsb (fun disc => str_in (DiscrepancyType_value (d_type disc))
                                 critical_types) ds = true)
    by (apply existsb_exists; now exists d).
  congruence.
Qed.

(** The two conditions exclude each other when every critical discrepancy
    also disqualifies auto-update. *)
Lemma auto_update_excludes_urgent (confidence : Q) (ds : list Discrepancy) :
  Forall critical_blocks_auto_update ds ->
  should_auto_update confidence ds = true ->
  needs_urgent_review confidence ds = false.
Proof.
  intros Hcrit Hauto. apply should_auto_update_true in Hauto
    as (Hc & Hhigh & Hlow).
  destruct (needs_urgent_review confidence ds) eqn:E; [|reflexivity].
  exfalso. apply needs_urgent_review_true in E as [H|[(d & Hd & Hd')|H]].
  - lra.
  - rewrite List.Forall_forall in Hcrit.
    destruct (Hcrit d Hd Hd') as [Hp|Hq].
    + exact (Hhigh d Hd Hp).
    + specialize (Hlow d Hd). lra.
  - assert (Hnil : List.filter (fun d => Priority_eqb (d_priority d) HIGH) ds = []).
    { apply filter_nil_iff. intros d Hd. specialize (Hhigh d Hd).
      destruct (d_priority d); try reflexivity. contradiction. }
    rewrite Hnil in H. cbn in H. lia.
Qed.

Lemma exactly_one_residual (a u : bool) :
  (a = true -> u = false) -> exactly_one a (negb a && negb u) u.
Proof.
  unfold exactly_one. destruct a, u; cbn; intros H; tauto.
Qed.

(** Counterexample to C1 as stated: with overall confidence 90 and a single
    LICENSE_ISSUE discrepancy of MEDIUM priority and confidence 80, both
    [should_auto_update] and [needs_urgent_review] hold, and both builders
    return a result with [auto_updated] and [urgent_review] set. *)
Lemma decision_flags_counterexample :
  should_auto_update 90 [license_medium_80] = true
  /\ needs_urgent_review 90 [license_medium_80] = true
  /\ (let r := calculate_validation_result 0 provider_1
                 [npi_90_with [license_medium_80]] in
      vr_auto_updated r = true /\ vr_urgent_review r = true
      /\ ~ exactly_one_flag r)
  /\ (let r := assess_provider 0 provider_1
                 [("npi_registry", npi_90_with [license_medium_80])] in
      vr_auto_updated r = true /\ vr_urgent_review r = true
      /\ ~ exactly_one_flag r).
Proof.
  vm_compute. repeat split; try reflexivity;
    intros [(? & ? & ?)|[(? & ? & ?)|(? & ? & ?)]]; discriminate.
Qed.

(** C1 (amended): when every discrepancy of a critical type (license_issue,
    npi_invalid, status_change) has HIGH priority or a confidence below 75,
    [should_auto_update] and [needs_urgent_review] are never both true, and
    exactly one of [auto_updated], [needs_review], [urgent_review] is set in
    the results built from them by [calculate_validation_result] and by
    [assess_provider]. *)
Theorem decision_flags_exclusive
    (confidence : Q) (discrepancies : list Discrepancy)
    (now : Z) (provider : Provider)
    (source_validations : PyDict.t SourceValidation)
    (Hds : Forall critical_blocks_auto_update discrepancies)
    (Hsvs : Forall critical_blocks_auto_update
              (flat_map sv_discrepancies (PyDict.values source_validations))) :
  should_auto_update confidence discrepancies
  && needs_urgent_review confidence discrepancies = false
  /\ exactly_one
       (should_auto_update confidence discrepancies)
       (negb (should_auto_update confidence discrepancies)
        && negb (needs_urgent_review confidence discrepancies))
       (needs_urgent_review confidence discrepancies)
  /\ exactly_one_flag
       (calculate_validation_result now provider
          (PyDict.values source_validations))
  /\ exactly_one_flag (assess_provider now provider source_validations).
Proof.
  split; [|split; [|split]].
  - destruct (should_auto_update confidence discrepancies) eqn:E;
      [|reflexivity].
    cbn. now apply auto_update_excludes_urgent.
  - apply exactly_one_residual. now apply auto_update_excludes_urgent.
  - apply exactly_one_residual. now apply auto_update_excludes_urgent.
  - apply exactly_one_residual. apply auto_update_excludes_urgent.
    rewrite List.Forall_forall in Hsvs |- *. intros d Hd.
    apply Hsvs. now apply prioritize_subset in Hd.
Qed.

Lemma decision_flags_exclusive_witness :
  Forall critical_blocks_auto_update [phone_medium_90]
  /\ should_auto_update 90 [phone_medium_90]
     && needs_urgent_review 90 [phone_medium_90] = false
  /\ exactly_one_flag
       (assess_provider 0 provider_1
          [("npi_registry", npi_90_with [phone_medium_90])]).
Proof.
  assert (H : Forall critical_blocks_auto_update [phone_medium_90]).
  { constructor; [|constructor]. intros Hc. vm_compute in Hc. discriminate. }
  split; [exact H|].
  pose proof (decision_flags_exclusive 90 [phone_medium_90] 0 provider_1
                [("npi_registry", npi_90_with [phone_medium_90])] H) as T.
  cbn [PyDict.values List.map snd flat_map sv_discrepancies npi_90_with
       List.app] in T.
  specialize (T H). destruct T as (T1 & _ & _ & T4).
  split; [exact T1|exact T4].
Defined.

(** ** Batches *)

Import DataValidationAgent DirectoryManagementAgent.

Lemma firstn_plus {A : Type} (a b : nat) (l : list A) :
  firstn (a + b) l = (firstn a l ++ firstn b (skipn a l))%list.
Proof.
  revert l. induction a as [|a IH]; intros l; [reflexivity|].
  destruct l as [|x l].
  - change (skipn (S a) (@nil A)) with (@nil A). now destruct b.
  - change (skipn (S a) (x :: l)) with (skipn a l).
    cbn [Nat.add firstn List.app]. now rewrite IH.
Qed.

Lemma firstn_beyond {A : Type} (n : nat) (l : list A) :
  (length l <= n)%nat -> firstn n l = l.
Proof.
  revert n. induction l as [|x l IH]; intros n H; [now destruct n|].
  destruct n as [|n]; cbn in *; [lia|]. rewrite IH; [reflexivity|lia].
Qed.

Lemma length_skipn_le {A : Type} (n : nat) (l : list A) :
  length (skipn n l) = (length l - n)%nat.
Proof.
  revert l. induction n as [|n IH]; intros l.
  - change (skipn 0 l) with l. lia.
  - destruct l as [|x l]; [reflexivity|].
    change (skipn (S n) (x :: l)) with (skipn n l). cbn [length].
    rewrite IH. lia.
Qed.

(** A slice cut at the end of the list is the slice of full width. *)
Lemma py_slice_batch {A : Type} (l : list A) (start width : nat) :
  py_slice l start (Nat.min (start + width) (length l))
  = firstn width (skipn start l).
Proof.
  unfold py_slice.
  destruct (Nat.le_gt_cases (start + width) (length l)) as [H|H].
  - rewrite Nat.min_l by exact H. f_equal. lia.
  - rewrite Nat.min_r by lia.
    rewrite !firstn_beyond; try reflexivity; rewrite length_skipn_le; lia.
Qed.

(** The batches cut by [range(0, total, BATCH_SIZE)] cover the list, in
    order and without overlap. *)
Lemma batches_cover {A : Type} (l : list A) :
  flat_map
    (fun batch_start =>
       py_slice l batch_start
         (Nat.min (batch_start + BATCH_SIZE) (length l)))
    (py_range 0 (length l) BATCH_SIZE)
  = l.
Proof.
  unfold py_range.
  set (m := ((length l - 0 + (BATCH_SIZE - 1)) / BATCH_SIZE)%nat).
  assert (Hm : (length l <= m * BATCH_SIZE)%nat).
  { subst m. unfold BATCH_SIZE.
    pose proof (Nat.div_mod_eq (length l - 0 + (50 - 1)) 50).
    pose proof (Nat.mod_upper_bound (length l - 0 + (50 - 1)) 50).
    lia. }
  transitivity (firstn (m * BATCH_SIZE) l); [|exact (firstn_beyond _ _ Hm)].
  clear Hm. generalize m. clear m. intros m.
  induction m as [|m IH]; [reflexivity|].
  rewrite seq_S, List.map_app, flat_map_app, IH. cbn [List.map flat_map].
  rewrite app_nil_r, py_slice_batch. cbn [Nat.add].
  replace (S m * BATCH_SIZE)%nat with (m * BATCH_SIZE + BATCH_SIZE)%nat by lia.
  now rewrite firstn_plus.
Qed.

Section BatchFacts.
Variable run_task : Provider -> exn + PyDict.t (stored SourceValidation).
Variable now : Z.

Lemma batch_loop_quiet cb (starts : list nat) (providers : list Provider)
    (total : nat)
    (all_results : gmap string (stored (PyDict.t (stored SourceValidation)))) :
  quiet_callback cb ->
  batch_loop run_task cb now starts providers total all_results
  = inr (fold_left (store_result run_task now)
           (flat_map (fun batch_start =>
                        py_slice providers batch_start
                          (Nat.min (batch_start + BATCH_SIZE) total))
                     starts)
           all_results).
Proof.
  intros Hq. revert all_results.
  induction starts as [|s starts IH]; intros all_results; [reflexivity|].
  cbn [batch_loop flat_map]. rewrite fold_left_app.
  destruct cb as [callback|]; [|apply IH].
  rewrite (Hq callback eq_refl). apply IH.
Qed.

Lemma validate_batch_quiet cb (providers : list Provider) :
  quiet_callback cb ->
  validate_batch run_task cb now providers
  = inr (fold_left (store_result run_task now) providers ∅).
Proof.
  intros Hq. unfold validate_batch.
  rewrite batch_loop_quiet by exact Hq. now rewrite batches_cover.
Qed.

Lemma store_result_insert
    (all_results : gmap string (stored (PyDict.t (stored SourceValidation))))
    (p : Provider) :
  store_result run_task now all_results p
  = <[p_id p := stored_outcome run_task now p]> all_results.
Proof.
  unfold store_result, stored_outcome.
  destruct (run_task p) as [e|d]; [destruct (isinstance_Exception e)|];
    reflexivity.
Qed.

End BatchFacts.

(** What is stored for a task that returns validations or raises an
    [Exception]. *)
Lemma stored_outcome_proper
    (run_task : Provider -> exn + PyDict.t SourceValidation) (now : Z)
    (p : Provider) :
  cancelled (run_task p) = false ->
  stored_outcome (proper_task run_task) now p
  = Found (proper_dict (recorded_outcome run_task now p)).
Proof.
  unfold stored_outcome, proper_task, recorded_outcome, cancelled.
  destruct (run_task p) as [e|d]; [|reflexivity].
  destruct (isinstance_Exception e); [reflexivity|discriminate].
Qed.

Lemma fold_left_pointwise {A B : Type} (f g : A -> B -> A)
    (l : list B) (a : A) :
  (forall a b, f a b = g a b) -> fold_left f l a = fold_left g l a.
Proof.
  intros Hfg. revert a. induction l as [|b l IH]; intros a; [reflexivity|].
  cbn [fold_left]. now rewrite Hfg, IH.
Qed.

(** Filling a dict keyed by provider id, one provider after another. *)
Lemma fold_insert_other {V : Type} (f : Provider -> V)
    (l : list Provider) (acc : gmap string V) (k : string) :
  ~ In k (List.map p_id l) ->
  fold_left (fun m p => <[p_id p := f p]> m) l acc !! k = acc !! k.
Proof.
  revert acc. induction l as [|q l IH]; intros acc Hk; [reflexivity|].
  cbn [fold_left]. rewrite IH.
  - apply lookup_insert_ne. intros Heq. apply Hk. now left.
  - intros Hin. apply Hk. now right.
Qed.

Lemma fold_insert_lookup {V : Type} (f : Provider -> V)
    (l : list Provider) (acc : gmap string V) (p : Provider) :
  List.NoDup (List.map p_id l) -> In p l ->
  fold_left (fun m p => <[p_id p := f p]> m) l acc !! p_id p = Some (f p).
Proof.
  revert acc. induction l as [|q l IH]; intros acc Hnd Hin; [destruct Hin|].
  cbn [List.map] in Hnd. inversion Hnd as [|? ? Hout Hnd']; subst.
  cbn [fold_left]. destruct Hin as [->|Hin].
  - rewrite fold_insert_other by exact Hout. apply lookup_insert_eq.
  - now apply IH.
Qed.

Lemma fold_insert_size {V : Type} (f : Provider -> V)
    (l : list Provider) (acc : gmap string V) :
  List.NoDup (List.map p_id l) ->
  (forall p, In p l -> acc !! p_id p = None) ->
  size (fold_left (fun m p => <[p_id p := f p]> m) l acc)
  = (size acc + length l)%nat.
Proof.
  revert acc. induction l as [|q l IH]; intros acc Hnd Hfresh;
    cbn [fold_left length]; [lia|].
  cbn [List.map] in Hnd. inversion Hnd as [|? ? Hout Hnd']; subst.
  rewrite IH; [| exact Hnd' |].
  - rewrite map_size_insert_None; [lia|]. apply Hfresh. now left.
  - intros p Hp. rewrite lookup_insert_ne.
    + apply Hfresh. now right.
    + intros Heq. apply Hout. rewrite Heq. now apply in_map.
Qed.

(** Such a dict under a map of its values. *)
Lemma fold_insert_fmap {V W : Type} (F : V -> W) (f : Provider -> V)
    (l : list Provider) (acc : gmap string V) :
  fold_left (fun m p => <[p_id p := F (f p)]> m) l (F <$> acc)
  = F <$> fold_left (fun m p => <[p_id p := f p]> m) l acc.
Proof.
  revert acc. induction l as [|q l IH]; intros acc; [reflexivity|].
  cbn [fold_left]. rewrite <- IH. now rewrite fmap_insert.
Qed.

(** With distinct ids, its values are those of the providers. *)
Lemma fold_insert_values {V : Type} (f : Provider -> V)
    (l : list Provider) (acc : gmap string V) :
  List.NoDup (List.map p_id l) ->
  (forall p, In p l -> acc !! p_id p = None) ->
  Permutation
    (map_to_list (fold_left (fun m p => <[p_id p := f p]> m) l acc)).*2
    (List.map f l ++ (map_to_list acc).*2).
Proof.
  revert acc. induction l as [|q l IH]; intros acc Hnd Hfresh;
    [reflexivity|].
  cbn [List.map] in Hnd. inversion Hnd as [|? ? Hout Hnd']; subst.
  cbn [fold_left List.map List.app]. rewrite IH; [|exact Hnd'|].
  - rewrite map_to_list_insert by (apply Hfresh; now left).
    cbn [fmap list_fmap snd]. symmetry. apply Permutation_middle.
  - intros p Hp. rewrite lookup_insert_ne.
    + apply Hfresh. now right.
    + intros Heq. apply Hout. rewrite Heq. now apply in_map.
Qed.

Lemma count_where_Permutation (g : ValidationResult -> bool)
    (l1 l2 : list ValidationResult) :
  Permutation l1 l2 -> count_where g l1 = count_where g l2.
Proof.
  unfold count_where. intros H. f_equal.
  induction H as [|x l l' _ IH|x y l|l l' l'' _ IH1 _ IH2];
    cbn [List.filter]; try reflexivity.
  - destruct (g x); cbn [length]; now rewrite IH.
  - destruct (g x), (g y); reflexivity.
  - now rewrite IH1.
Qed.

Lemma count_where_map (g : ValidationResult -> bool)
    (f : Provider -> ValidationResult) (l : list Provider) :
  count_where g (List.map f l)
  = Z.of_nat (length (List.filter (fun p => g (f p)) l)).
Proof.
  unfold count_where. f_equal.
  induction l as [|p l IH]; [reflexivity|]. cbn [List.map List.filter].
  destruct (g (f p)); cbn [length]; now rewrite IH.
Qed.

Lemma snd_enumerate {A : Type} (l : list A) (start : nat) :
  List.map snd (combine (seq start (length l)) l) = l.
Proof.
  revert start. induction l as [|x l IH]; intros start; [reflexivity|].
  cbn. now rewrite IH.
Qed.

Lemma assess_loop_quiet (now : Z) cb (items : list (nat * Provider))
    (total : nat)
    (validation_results : gmap string (PyDict.t SourceValidation))
    (assessments : gmap string ValidationResult) :
  quiet_callback cb ->
  assess_loop (assess_ok now) cb items total validation_results assessments
  = inr (fold_left
           (fun m p =>
              <[p_id p := assess_provider now p
                            (default [] (validation_results !! p_id p))]> m)
           (List.map snd items) assessments).
Proof.
  intros Hq. revert assessments.
  induction items as [|[i p] items IH]; intros assessments; [reflexivity|].
  cbn [assess_loop List.map snd fold_left]. unfold assess_ok at 1.
  destruct cb as [callback|]; [|apply IH].
  rewrite (Hq callback eq_refl). apply IH.
Qed.

Lemma assess_batch_quiet (now : Z) cb (providers : list Provider)
    (validation_results : gmap string (PyDict.t SourceValidation)) :
  quiet_callback cb ->
  assess_batch (assess_ok now) cb providers validation_results
  = inr (fold_left
           (fun m p =>
              <[p_id p := assess_provider now p
                            (default [] (validation_results !! p_id p))]> m)
           providers ∅).
Proof.
  intros Hq. unfold assess_batch. rewrite assess_loop_quiet by exact Hq.
  now rewrite snd_enumerate.
Qed.

(** The assessment of a record whose task raised. *)
Lemma assess_failed_record (now : Z) (p : Provider) (e : exn) :
  let r := assess_provider now p
             [("error", failed_validation now NPI_REGISTRY e)] in
  vr_status r = URGENT
  /\ vr_overall_confidence r = 0%Q
  /\ vr_discrepancies r = []
  /\ vr_auto_updated r = false
  /\ vr_needs_review r = false
  /\ vr_urgent_review r = true.
Proof. cbv zeta. repeat split. Qed.

Lemma quiet_callback_None : quiet_callback None.
Proof. intros callback H. discriminate. Qed.

(** The dict [validate_provider] fills for the default sources. *)
Lemma default_results
    (query : DataSource -> Provider -> exn + SourceValidation) (now : Z)
    (provider : Provider) :
  fold_left (store_source_result query now provider)
    (task_sources default_sources) []
  = [("npi_registry", source_slot query now NPI_REGISTRY provider);
     ("google_places", source_slot query now GOOGLE_PLACES provider);
     ("practice_website", source_slot query now PRACTICE_WEBSITE provider)].
Proof.
  unfold source_slot. cbn. unfold store_source_result.
  destruct (query NPI_REGISTRY provider) as [e1|v1];
    [destruct (isinstance_Exception e1)|];
    (destruct (query GOOGLE_PLACES provider) as [e2|v2];
     [destruct (isinstance_Exception e2)|]);
    (destruct (query PRACTICE_WEBSITE provider) as [e3|v3];
     [destruct (isinstance_Exception e3)|]);
    reflexivity.
Qed.

Lemma source_slot_found
    (query : DataSource -> Provider -> exn + SourceValidation) (now : Z)
    (source : DataSource) (provider : Provider) :
  cancelled (query source provider) = false ->
  source_slot query now source provider
  = Found (source_outcome query now source provider).
Proof.
  unfold source_slot, source_outcome, cancelled.
  destruct (query source provider) as [e|v]; [|reflexivity].
  destruct (isinstance_Exception e); [reflexivity|discriminate].
Qed.

Lemma all_success_found (l : list SourceValidation) :
  exists b, all_success (List.map Found l) = inr b.
Proof.
  induction l as [|v l [b IH]]; [now exists true|]. cbn [List.map all_success].
  destruct (sv_success v); [now exists b|now exists false].
Qed.

Lemma validate_provider_default
    (query : DataSource -> Provider -> exn + SourceValidation) (now : Z)
    (provider : Provider) :
  (forall source, In source default_sources ->
                  cancelled (query source provider) = false) ->
  validate_provider query now provider None
  = inr [("npi_registry", Found (source_outcome query now NPI_REGISTRY provider));
         ("google_places",
          Found (source_outcome query now GOOGLE_PLACES provider));
         ("practice_website",
          Found (source_outcome query now PRACTICE_WEBSITE provider))].
Proof.
  intros Hok. unfold validate_provider. cbn [default from_option id].
  rewrite default_results.
  rewrite !source_slot_found by (apply Hok; cbn; tauto).
  cbn [PyDict.values List.map snd].
  destruct (all_success_found
              [source_outcome query now NPI_REGISTRY provider;
               source_outcome query now GOOGLE_PLACES provider;
               source_outcome query now PRACTICE_WEBSITE provider])
    as [b Hb].
  cbn [List.map] in Hb. now rewrite Hb.
Qed.

(** Counterexample to C3 as stated, in a batch of two providers. When the
    task of the first one raises an [Exception], that provider receives the
    synthetic failed validation and its assessment has status URGENT, not
    ERROR. When that task raises a [CancelledError], the raised object is
    stored in place of the provider's validations and no failed validation
    is made; and a cancelled source call is not turned into a failed
    validation either: the raised object is kept in its place, and
    [validate_provider] raises on reading [success] from it. When scoring
    raises for the second provider, [assess_batch] raises and returns no
    assessment. *)
Lemma batch_isolation_counterexample :
  (exists source_validations assessments r,
      validate_batch (proper_task task_failing_for_p1) None 0
        [provider_1; provider_2]
      = inr ((fun d => Found (proper_dict d)) <$> source_validations)
      /\ source_validations !! "p1"
         = Some [("error",
                  failed_validation 0 NPI_REGISTRY
                    (Exception "connection reset"))]
      /\ assess_batch (assess_ok 0) None [provider_1; provider_2]
           source_validations
         = inr assessments
      /\ assessments !! "p1" = Some r
      /\ vr_status r = URGENT
      /\ vr_status r <> ERROR)
  /\ (exists all_results,
        validate_batch (proper_task task_cancelled_for_p1) None 0
          [provider_1; provider_2]
        = inr all_results
        /\ all_results !! "p1" = Some (Cancelled "cancelled"))
  /\ (store_source_result npi_cancelled 0 provider_1 [] NPI_REGISTRY
      = [("npi_registry", Cancelled "cancelled")]
      /\ validate_provider npi_cancelled 0 provider_1 None
         = inl (no_attribute "success"))
  /\ (forall source_validations,
        assess_batch (scoring_failing_for_p2 0) None [provider_1; provider_2]
          source_validations
        = inl (Exception "bad record")).
Proof.
  split; [|split; [|split; [split; reflexivity|]]].
  - exists (<[ "p2" := [("npi_registry", npi_90_with [])] ]>
              (<[ "p1" := [("error",
                            failed_validation 0 NPI_REGISTRY
                              (Exception "connection reset"))] ]>
                 ∅)).
    eexists _, _.
    split.
    { rewrite validate_batch_quiet by apply quiet_callback_None.
      cbn [fold_left]. rewrite !store_result_insert.
      rewrite !stored_outcome_proper by reflexivity.
      rewrite !fmap_insert, fmap_empty.
      reflexivity. }
    split; [reflexivity|].
    split; [apply assess_batch_quiet, quiet_callback_None|].
    split.
    { cbn [fold_left]. rewrite lookup_insert_ne by discriminate.
      apply lookup_insert_eq. }
    split; [reflexivity|discriminate].
  - eexists. split; [apply validate_batch_quiet, quiet_callback_None|].
    cbn [fold_left]. rewrite !store_result_insert.
    rewrite lookup_insert_ne by discriminate.
    now rewrite lookup_insert_eq.
  - intros source_validations. reflexivity.
Qed.

Lemma flag_filter_counts {A : Type} (auto review urgent : A -> bool)
    (l : list A) :
  (forall x, review x = negb (auto x) && negb (urgent x)) ->
  (Z.of_nat (length (List.filter auto l))
   + Z.of_nat (length (List.filter review l))
   + Z.of_nat (length (List.filter urgent l))
   = Z.of_nat (length l)
     + Z.of_nat (length (List.filter (fun x => auto x && urgent x) l)))%Z.
Proof.
  intros Hreview. induction l as [|x l IH]; [reflexivity|].
  cbn [List.filter length]. rewrite Hreview.
  destruct (auto x), (urgent x); cbn [negb andb length]; lia.
Qed.

(** C3 (amended): when source calls or validation tasks of single records
    raise an exception of a class derived from [Exception], the batch does
    not abort. A raising source call becomes a failed [SourceValidation] of
    that source; a raising task becomes the failed validation stored under
    ["error"]; every record of the batch is stored and assessed from its
    own outcome alone. The assessment of a record whose task raised has
    confidence 0, status URGENT and [urgent_review] set (no result has
    status ERROR). The report counts every record under each flag its
    result carries, so [validated] is the number of records plus the number
    of results that carry both [auto_updated] and [urgent_review], and
    [errors] is the negative of that number. (Progress callbacks and scoring
    are assumed not to raise, and provider ids to be distinct.) *)
Theorem batch_isolation
    (query : DataSource -> Provider -> exn + SourceValidation)
    (run_task : Provider -> exn + PyDict.t SourceValidation)
    (now : Z) (providers : list Provider)
    (validation_progress qa_progress : option (nat -> nat -> option exn))
    (Hids : List.NoDup (List.map p_id providers))
    (Hquiet_validation : quiet_callback validation_progress)
    (Hquiet_qa : quiet_callback qa_progress)
    (Hsources : forall source p, cancelled (query source p) = false)
    (Htasks : forall p, cancelled (run_task p) = false) :
  (forall p,
      validate_provider query now p None
      = inr [("npi_registry", Found (source_outcome query now NPI_REGISTRY p));
             ("google_places",
              Found (source_outcome query now GOOGLE_PLACES p));
             ("practice_website",
              Found (source_outcome query now PRACTICE_WEBSITE p))])
  /\ exists source_validations assessments,
       validate_batch (proper_task run_task) validation_progress now providers
       = inr ((fun d => Found (proper_dict d)) <$> source_validations)
       /\ assess_batch (assess_ok now) qa_progress providers source_validations
          = inr assessments
       /\ size assessments = length providers
       /\ (forall p, In p providers ->
             source_validations !! p_id p
             = Some (recorded_outcome run_task now p)
             /\ assessments !! p_id p
                = Some (assess_provider now p
                          (recorded_outcome run_task now p)))
       /\ (forall p e, In p providers -> run_task p = inl e ->
             exists r,
               source_validations !! p_id p
               = Some [("error", failed_validation now NPI_REGISTRY e)]
               /\ assessments !! p_id p = Some r
               /\ vr_status r = URGENT
               /\ vr_overall_confidence r = 0%Q
               /\ vr_auto_updated r = false
               /\ vr_needs_review r = false
               /\ vr_urgent_review r = true)
       /\ (forall r, (exists k, assessments !! k = Some r) ->
             vr_status r <> ERROR)
       /\ (let report := generate_validation_report providers assessments in
           let assessed p :=
             assess_provider now p (recorded_outcome run_task now p) in
           let counted flag :=
             Z.of_nat
               (length (List.filter (fun p => flag (assessed p)) providers)) in
           rep_total_providers report = Z.of_nat (length providers)
           /\ rep_auto_updated report = counted vr_auto_updated
           /\ rep_needs_review report = counted vr_needs_review
           /\ rep_urgent report = counted vr_urgent_review
           /\ rep_validated report
              = (Z.of_nat (length providers) + counted both_auto_and_urgent)%Z
           /\ rep_errors report = (- counted both_auto_and_urgent)%Z).
Proof.
  split.
  { intros p. apply validate_provider_default. intros source _.
    apply Hsources. }
  set (source_validations :=
         fold_left
           (fun (m : gmap string (PyDict.t SourceValidation)) p =>
              <[p_id p := recorded_outcome run_task now p]> m)
           providers ∅).
  set (assessed := fun p =>
         assess_provider now p (recorded_outcome run_task now p)).
  set (assessments :=
         fold_left
           (fun (m : gmap string ValidationResult) p =>
              <[p_id p := assess_provider now p
                            (default [] (source_validations !! p_id p))]> m)
           providers ∅).
  assert (Hstore : forall p, In p providers ->
            source_validations !! p_id p
            = Some (recorded_outcome run_task now p)).
  { intros p Hp. subst source_validations. now apply fold_insert_lookup. }
  assert (Hsame : assessments
                  = fold_left
                      (fun (m : gmap string ValidationResult) p =>
                         <[p_id p := assessed p]> m)
                      providers ∅).
  { subst assessments. generalize (∅ : gmap string ValidationResult).
    assert (Hall : forall l, (forall p, In p l -> In p providers) ->
              forall acc : gmap string ValidationResult,
                fold_left
                  (fun m p =>
                     <[p_id p := assess_provider now p
                                   (default [] (source_validations !! p_id p))]>
                       m) l acc
                = fold_left (fun m p => <[p_id p := assessed p]> m) l acc).
    { induction l as [|q l IH]; intros Hsub acc; [reflexivity|].
      cbn [fold_left]. rewrite IH by (intros p Hp; apply Hsub; now right).
      do 2 f_equal. unfold assessed.
      exact (f_equal (fun o => assess_provider now q (default [] o))
               (Hstore q (Hsub q (or_introl eq_refl)))). }
    apply Hall. tauto. }
  assert (Hassess : forall p, In p providers ->
            assessments !! p_id p = Some (assessed p)).
  { intros p Hp. rewrite Hsame. now apply fold_insert_lookup. }
  exists source_validations, assessments.
  split.
  { rewrite validate_batch_quiet by exact Hquiet_validation.
    rewrite (fold_left_pointwise (store_result (proper_task run_task) now)
               (fun m q =>
                  <[p_id q := Found (proper_dict
                                       (recorded_outcome run_task now q))]> m)).
    - f_equal. subst source_validations.
      rewrite <- (fold_insert_fmap (fun d => Found (proper_dict d))).
      now rewrite fmap_empty.
    - intros m q. rewrite store_result_insert.
      now rewrite stored_outcome_proper by apply Htasks. }
  split; [now apply assess_batch_quiet|].
  split.
  { rewrite Hsame. rewrite fold_insert_size; [|exact Hids|].
    - now rewrite map_size_empty.
    - intros p _. apply lookup_empty. }
  split; [intros p Hp; split; [now apply Hstore|now apply Hassess]|].
  split.
  { intros p e Hp He.
    exists (assess_provider now p
              [("error", failed_validation now NPI_REGISTRY e)]).
    pose proof (Hstore p Hp) as H1. pose proof (Hassess p Hp) as H2.
    unfold assessed, recorded_outcome in H1, H2. rewrite He in H1, H2.
    split; [exact H1|]. split; [exact H2|].
    destruct (assess_failed_record now p e) as (? & ? & ? & ? & ? & ?).
    repeat split; assumption. }
  split.
  { intros r [k Hk]. rewrite Hsame in Hk.
    assert (Hall : forall l (acc : gmap string ValidationResult),
              (forall k r, acc !! k = Some r -> vr_status r <> ERROR) ->
              forall k r,
                fold_left (fun m p => <[p_id p := assessed p]> m) l acc !! k
                = Some r ->
                vr_status r <> ERROR).
    { induction l as [|q l IH]; intros acc Hacc k' r'; [apply Hacc|].
      cbn [fold_left]. apply IH. intros k0 r0.
      destruct (decide (p_id q = k0)) as [<-|Hne].
      - rewrite lookup_insert_eq. intros [= <-]. unfold assessed.
        cbn [assess_provider vr_status]. unfold determine_validation_status.
        repeat match goal with
               | |- context [Qle_bool ?a ?b] => destruct (Qle_bool a b)
               end; discriminate.
      - rewrite lookup_insert_ne by exact Hne. apply Hacc. }
    apply (Hall providers ∅) with (k := k); [|exact Hk].
    intros k0 r0. rewrite lookup_empty. discriminate. }
  cbv zeta.
  assert (Hvalues : Permutation (map_to_list assessments).*2
                      (List.map assessed providers)).
  { rewrite Hsame.
    rewrite (fold_insert_values assessed providers ∅ Hids)
      by (intros; apply lookup_empty).
    rewrite map_to_list_empty. cbn. now rewrite app_nil_r. }
  assert (Hcount : forall flag,
             count_where flag (map_to_list assessments).*2
             = Z.of_nat
                 (length (List.filter (fun p => flag (assessed p)) providers))).
  { intros flag. rewrite (count_where_Permutation _ _ _ Hvalues).
    apply count_where_map. }
  assert (Hflags : (Z.of_nat (length (List.filter
                                (fun p => vr_auto_updated (assessed p))
                                providers))
                    + Z.of_nat (length (List.filter
                                  (fun p => vr_needs_review (assessed p))
                                  providers))
                    + Z.of_nat (length (List.filter
                                  (fun p => vr_urgent_review (assessed p))
                                  providers))
                    = Z.of_nat (length providers)
                      + Z.of_nat (length (List.filter
                                    (fun p => both_auto_and_urgent (assessed p))
                                    providers)))%Z).
  { apply flag_filter_counts. intros p. reflexivity. }
  unfold generate_validation_report.
  cbn [rep_total_providers rep_auto_updated rep_needs_review rep_urgent
       rep_validated rep_errors].
  rewrite !Hcount.
  repeat split; lia.
Qed.

Lemma batch_isolation_witness :
  List.NoDup (List.map p_id [provider_1; provider_2])
  /\ quiet_callback None
  /\ (forall p, cancelled (task_failing_for_p1 p) = false)
  /\ exists source_validations assessments,
       validate_batch (proper_task task_failing_for_p1) None 0
         [provider_1; provider_2]
       = inr ((fun d => Found (proper_dict d)) <$> source_validations)
       /\ assess_batch (assess_ok 0) None [provider_1; provider_2]
            source_validations
          = inr assessments
       /\ size assessments = 2%nat
       /\ rep_urgent
            (generate_validation_report [provider_1; provider_2] assessments)
          = 1%Z.
Proof.
  assert (Hnd : List.NoDup (List.map p_id [provider_1; provider_2])).
  { repeat constructor; cbn; intuition discriminate. }
  assert (Htasks : forall p, cancelled (task_failing_for_p1 p) = false).
  { intros p. unfold task_failing_for_p1.
    destruct (String.eqb (p_id p) "p1"); reflexivity. }
  split; [exact Hnd|]. split; [exact quiet_callback_None|].
  split; [exact Htasks|].
  destruct (batch_isolation (fun _ _ => inl (Exception "unused"))
              task_failing_for_p1 0
              [provider_1; provider_2] None None Hnd
              quiet_callback_None quiet_callback_None
              (fun _ _ => eq_refl) Htasks)
    as (_ & source_validations & assessments & H1 & H2 & H3 & _ & _ & _ & H7).
  exists source_validations, assessments.
  split; [exact H1|]. split; [exact H2|]. split; [exact H3|].
  cbv zeta in H7. destruct H7 as (_ & _ & _ & H & _). exact H.
Defined.

(** ** Orchestrator *)

Section PipelineFacts.
Import ValidationOrchestrator.
Context {SourceValidations Enrichments Assessments Actions Report : Type}.
Variable env :
  @Collaborators SourceValidations Enrichments Assessments Actions Report.

(** Case analysis on the next collaborator outcome a run depends on. *)
Ltac next_outcome H :=
  match type of H with
  | context [progress_callback env] =>
      let cb := fresh "callback" in
      destruct (progress_callback env) as [cb|] eqn:?
  | context [match ?cb ?label with Some _ => _ | None => _ end] =>
      is_var cb; destruct (cb label) eqn:?
  | context [validate_batch env ?p] => destruct (validate_batch env p) eqn:?
  | context [enrich_batch env ?p] => destruct (enrich_batch env p) eqn:?
  | context [assess_batch env ?p ?x] => destruct (assess_batch env p x) eqn:?
  | context [process_batch env ?p ?x] => destruct (process_batch env p x) eqn:?
  | context [generate_validation_report env ?p ?x] =>
      destruct (generate_validation_report env p x) eqn:?
  | context [export_results env ?p ?x ?f] =>
      destruct (export_results env p x f) eqn:?
  | context [if enable_enrichment ?o then _ else _] =>
      destruct (enable_enrichment o) eqn:?
  | context [if auto_export_results ?o then _ else _] =>
      destruct (auto_export_results o) eqn:?
  end; cbn in H.

Ltac find_raise :=
  first
    [ eapply raises_validate; eassumption
    | eapply raises_enrich; eassumption
    | eapply raises_assess; eassumption
    | eapply raises_process; eassumption
    | eapply raises_generate; eassumption
    | eapply raises_export; eassumption
    | eapply raises_report;
      [ | unfold callback_outcome;
          match goal with
          | H : progress_callback env = Some _ |- _ => rewrite H
          end; eassumption ];
      [ cbn; tauto ] ].

(** Where the [try] block can fail, and in which state. *)
Lemma stages_failure
    (o : Orchestrator) (providers : list Provider) (s1 : St) (e : exn) :
  stages env providers (initial_state o) = (s1, inl e) ->
  exists stage,
    current_stage (self s1) = Some stage
    /\ In stage stage_names
    /\ raises_in env providers stage e
    /\ res_errors (results s1) = []
    /\ Forall (fun op => (operation_stage op <= stage_index stage)%nat)
         (invoked s1)
    /\ keeps_completed_outputs env providers (invoked s1) (results s1).
Proof.
  intros Hfail.
  unfold stages, bind, enter_stage, _report_progress, await, modify, get_self,
    ret, initial_state in Hfail.
  cbn in Hfail.
  repeat next_outcome Hfail.
  all: try discriminate.
  all: injection Hfail as <- <-; cbn.
  all: eexists; split; [reflexivity|].
  all: split; [cbn; tauto|].
  all: split; [find_raise|].
  all: split; [reflexivity|].
  all: split; [repeat constructor|].
  all: unfold keeps_completed_outputs; cbn;
    repeat split; intros; first [congruence | intuition congruence].
Qed.

(** [run_full_validation] in terms of its [try] block, handler and
    [finally] block. *)
Lemma run_full_validation_unfold (o : Orchestrator) (providers : list Provider) :
  run_full_validation env o providers
  = let '(s1, r1) := stages env providers (initial_state o) in
    let '(s2, r2) :=
      match r1 with
      | inl e =>
          if isinstance_Exception e then on_exception env e s1
          else (s1, inl e)
      | inr a => (s1, inr a)
      end in
    (self (cleanup s2), invoked (cleanup s2),
     match r2 with
     | inl e => inl e
     | inr _ => inr (results (cleanup s2))
     end).
Proof.
  unfold run_full_validation, run_full_validation_st, bind, modify,
    try_finally, try_except.
  change (with_results (fun _ => empty_results)
            (with_self (set_is_running true)
               {| self := o; results := empty_results; invoked := [] |}))
    with (initial_state o).
  destruct (stages env providers (initial_state o)) as [s1 [e|a]].
  - destruct (isinstance_Exception e); [|reflexivity].
    destruct (on_exception env e s1) as [s2 [e'|a']]; reflexivity.
  - reflexivity.
Qed.

Lemma on_exception_quiet (e : exn) (s : St) :
  callback_outcome env "Error" = None ->
  on_exception env e s
  = (with_results
       (append_error {| err_stage := current_stage (self s);
                        err_error := str e;
                        err_timestamp := now env |}) s,
     inr tt).
Proof.
  unfold callback_outcome, on_exception, bind, get_self, modify,
    _report_progress.
  intros H. destruct (progress_callback env) as [callback|]; [|reflexivity].
  now rewrite H.
Qed.

(** C8 (amended): when an exception of a class derived from [Exception]
    escapes a stage of [run_full_validation], and the progress callback does
    not itself raise when it is told of the error, the message of the
    exception is recorded as the only entry of the error list, with the name
    of the stage in which it was raised and the time; no operation of a later
    stage is invoked; the dict returned holds the enrichments, validation
    results, actions and report of the operations completed before (the
    output of the data validation stage is never stored in it), and the
    timings written before; the orchestrator is left not running, with no
    current stage; and no exception propagates. *)
Theorem stage_failure_is_recorded
    (o : Orchestrator) (providers : list Provider) (s1 : St) (e : exn)
    (Hfail : stages env providers (initial_state o) = (s1, inl e))
    (Hclass : isinstance_Exception e = true)
    (Hquiet : callback_outcome env "Error" = None) :
  exists stage o' res,
    run_full_validation env o providers = (o', invoked s1, inr res)
    /\ current_stage (self s1) = Some stage
    /\ In stage stage_names
    /\ raises_in env providers stage e
    /\ res_errors res
       = [{| err_stage := Some stage; err_error := str e;
             err_timestamp := now env |}]
    /\ Forall (fun op => (operation_stage op <= stage_index stage)%nat)
         (invoked s1)
    /\ keeps_completed_outputs env providers (invoked s1) res
    /\ res_timing res = res_timing (results s1)
    /\ is_running o' = false
    /\ current_stage o' = None.
Proof.
  destruct (stages_failure o providers s1 e Hfail)
    as (stage & Hstage & Hin & Hraise & Herr & Hlog & Hkeep).
  exists stage.
  rewrite run_full_validation_unfold, Hfail, Hclass.
  rewrite on_exception_quiet by exact Hquiet.
  cbn [cleanup with_self with_results self results invoked].
  eexists _, _. split; [reflexivity|].
  cbn [append_error res_errors res_timing is_running current_stage
       set_current_stage set_is_running].
  rewrite Herr, Hstage.
  repeat split; try assumption; apply Hkeep.
Qed.

End PipelineFacts.

(** Counterexample to C8 as stated. With a progress callback that raises
    whenever it is called, the first progress report raises inside the [try]
    block, the handler records the error and then reports it through the
    same callback, which raises again: the exception propagates out of
    [run_full_validation] and no results are returned. When the assessment
    stage is cancelled, the [CancelledError] is not an [Exception]: the
    handler does not run and the exception propagates. And the output of the
    data validation stage, gathered before a later stage fails, is not in
    the dict returned: two runs that differ in that output alone return the
    same dict. *)
Lemma stage_failure_counterexample :
  ((exists s1,
       ValidationOrchestrator.stages raising_callback_env [provider_1]
         (ValidationOrchestrator.initial_state idle_orchestrator)
       = (s1, inl (Exception "callback failed")))
   /\ snd (ValidationOrchestrator.run_full_validation raising_callback_env
             idle_orchestrator [provider_1])
      = inl (Exception "callback failed"))
  /\ ((exists s1,
        ValidationOrchestrator.stages cancelled_assessment_env [provider_1]
          (ValidationOrchestrator.initial_state idle_orchestrator)
        = (s1, inl (CancelledError "cancelled")))
      /\ snd (ValidationOrchestrator.run_full_validation
                cancelled_assessment_env idle_orchestrator [provider_1])
         = inl (CancelledError "cancelled"))
  /\ (ValidationOrchestrator.validate_batch (failing_after_validation 1)
        [provider_1]
      <> ValidationOrchestrator.validate_batch (failing_after_validation 2)
           [provider_1]
      /\ (exists res,
            snd (ValidationOrchestrator.run_full_validation
                   (failing_after_validation 1) idle_orchestrator
                   [provider_1])
            = inr res
            /\ snd (ValidationOrchestrator.run_full_validation
                      (failing_after_validation 2) idle_orchestrator
                      [provider_1])
               = inr res)).
Proof.
  split; [|split].
  - split; [eexists|]; reflexivity.
  - split; [eexists|]; reflexivity.
  - split; [discriminate|]. eexists. split; reflexivity.
Qed.

Lemma stage_failure_is_recorded_witness :
  isinstance_Exception (Exception "scoring failed") = true
  /\ ValidationOrchestrator.callback_outcome failing_assessment_env "Error"
     = None
  /\ exists s1 stage o' res,
       ValidationOrchestrator.stages failing_assessment_env [provider_1]
         (ValidationOrchestrator.initial_state idle_orchestrator)
       = (s1, inl (Exception "scoring failed"))
       /\ ValidationOrchestrator.run_full_validation failing_assessment_env
            idle_orchestrator [provider_1]
          = (o', ValidationOrchestrator.invoked s1, inr res)
       /\ ValidationOrchestrator.res_errors res
          = [{| ValidationOrchestrator.err_stage := Some stage;
                ValidationOrchestrator.err_error := "scoring failed";
                ValidationOrchestrator.err_timestamp := 0 |}].
Proof.
  split; [reflexivity|]. split; [reflexivity|].
  eexists.
  destruct (stage_failure_is_recorded failing_assessment_env idle_orchestrator
              [provider_1] _ (Exception "scoring failed") eq_refl eq_refl
              eq_refl)
    as (stage & o' & res & Hrun & _ & _ & _ & Herr & _).
  exists stage, o', res. split; [reflexivity|]. split; [exact Hrun|exact Herr].
Defined.

(** * Properties of the further functions *)

(** ** Aggregate: range and failures *)

(** X1: the overall confidence is always within 0 and 100, whatever the
    confidences and timestamps of the source validations. *)
Theorem overall_confidence_in_range
    (now : Z) (source_validations : list SourceValidation) :
  (0 <= calculate_overall_confidence now source_validations)%Q
  /\ (calculate_overall_confidence now source_validations <= 100)%Q.
Proof.
  rewrite calculate_overall_confidence_closed.
  destruct (Qeq_bool (total_weight_of_successes source_validations) 0).
  - split; lra.
  - apply clamp_0_100_bounds.
Qed.

Lemma Qdiv_le_compat_pos (a b c : Q) :
  (0 < c)%Q -> (a <= b)%Q -> (a / c <= b / c)%Q.
Proof.
  intros Hc Hab. apply Qle_shift_div_l; [exact Hc|].
  assert (H : (a / c * c == a)%Q) by (field; lra). rewrite H. exact Hab.
Qed.

(** X2: a failed source validation never raises the overall confidence:
    the list with the failed validation inserted anywhere scores at most
    what the list without it scores. *)
Theorem failed_outcome_never_raises
    (now : Z) (v : SourceValidation) (before after : list SourceValidation)
    (Hfailed : sv_success v = false) :
  (calculate_overall_confidence now (before ++ v :: after)
   <= calculate_overall_confidence now (before ++ after))%Q.
Proof.
  rewrite !calculate_overall_confidence_closed.
  assert (HTW : (total_weight_of_successes (before ++ v :: after)
                 == total_weight_of_successes (before ++ after))%Q).
  { rewrite !total_weight_app. simpl. rewrite Hfailed. ring. }
  assert (HWS : (weighted_sum now (before ++ v :: after)
                 == weighted_sum now (before ++ after) - weight_of v * 10)%Q).
  { rewrite !weighted_sum_app. simpl. rewrite Hfailed.
    unfold failure_penalty. ring. }
  rewrite (Qeq_bool_compat _ _ HTW).
  destruct (Qeq_bool (total_weight_of_successes (before ++ after)) 0) eqn:E;
    [lra|].
  apply Qeq_bool_neq in E.
  pose proof (total_weight_nonneg (before ++ after)) as Hnn.
  pose proof (weight_of_pos v) as Hw.
  rewrite HTW, HWS. apply clamp_0_100_mono, Qdiv_le_compat_pos; lra.
Qed.

Lemma failed_outcome_never_raises_witness :
  sv_success failed_npi = false
  /\ (calculate_overall_confidence 0 ([fresh_google_90] ++ failed_npi :: [])
      <= calculate_overall_confidence 0 ([fresh_google_90] ++ []))%Q.
Proof.
  split; [reflexivity|].
  exact (failed_outcome_never_raises 0 failed_npi [fresh_google_90] [] eq_refl).
Defined.

(** ** Status and flags of an assembled result *)

Lemma status_validated_iff (confidence : Q) :
  determine_validation_status confidence = VALIDATED <-> (80 <= confidence)%Q.
Proof.
  unfold determine_validation_status.
  rewrite thresholds_auto_update, thresholds_needs_review.
  destruct (Qle_bool_cases 80 confidence) as [[-> H]|[-> H]].
  - tauto.
  - destruct (Qle_bool 60 confidence); split; try discriminate; lra.
Qed.

Lemma status_urgent_iff (confidence : Q) :
  determine_validation_status confidence = URGENT <-> (confidence < 60)%Q.
Proof.
  unfold determine_validation_status.
  rewrite thresholds_auto_update, thresholds_needs_review.
  destruct (Qle_bool_cases 80 confidence) as [[-> H]|[-> H]].
  - split; [discriminate|lra].
  - destruct (Qle_bool_cases 60 confidence) as [[-> H']|[-> H']].
    + split; [discriminate|lra].
    + tauto.
Qed.

Lemma status_and_flags (confidence : Q) (ds : list Discrepancy) :
  let status := determine_validation_status confidence in
  let auto := should_auto_update confidence ds in
  let urgent := needs_urgent_review confidence ds in
  (auto = true -> status = VALIDATED)
  /\ (status = URGENT -> urgent = true)
  /\ auto || (negb auto && negb urgent) || urgent = true
  /\ status <> PENDING /\ status <> ERROR.
Proof.
  cbv zeta. split; [|split; [|split]].
  - intros H. apply should_auto_update_true in H as (Hc & _).
    now apply status_validated_iff.
  - intros H. apply needs_urgent_review_true. left.
    now apply status_urgent_iff.
  - destruct (should_auto_update confidence ds),
      (needs_urgent_review confidence ds); reflexivity.
  - unfold determine_validation_status.
    repeat match goal with
           | |- context [Qle_bool ?a ?b] => destruct (Qle_bool a b)
           end; split; discriminate.
Qed.

(** X3: in every result built by [calculate_validation_result] or
    [assess_provider], at least one of the three flags is set, [auto_updated]
    only comes with status VALIDATED, status URGENT always comes with
    [urgent_review], and the status is never PENDING or ERROR. *)
Theorem result_status_and_flags_agree
    (now : Z) (provider : Provider)
    (validations : list SourceValidation)
    (source_validations : PyDict.t SourceValidation) :
  status_flags_consistent
    (calculate_validation_result now provider validations)
  /\ status_flags_consistent
       (assess_provider now provider source_validations).
Proof.
  split; unfold status_flags_consistent;
    cbn [calculate_validation_result assess_provider vr_auto_updated
         vr_status vr_urgent_review vr_needs_review];
    apply status_and_flags.
Qed.
(** ** Discrepancy impact *)

Section PyDictLookup.
Context {V : Type}.

Lemma get_set (d : PyDict.t V) (k k' : string) (v : V) :
  PyDict.get (PyDict.set d k v) k'
  = if String.eqb k k' then Some v else PyDict.get d k'.
Proof.
  induction d as [|[k0 v0] r IH]; cbn [PyDict.set PyDict.get].
  - destruct (String.eqb k k'); reflexivity.
  - destruct (String.eqb_spec k0 k) as [->|Hne]; cbn [PyDict.get].
    + destruct (String.eqb k k'); reflexivity.
    + destruct (String.eqb_spec k0 k') as [->|Hne'].
      * destruct (String.eqb_spec k k') as [->|_]; [contradiction|reflexivity].
      * exact IH.
Qed.

End PyDictLookup.

Import ConfidenceReports.

Lemma impact_fold_counts (l : list Discrepancy) :
  forall st,
    let st' := fold_left impact_step l st in
    st_total st' = (st_total st + impact_sum l)%nat
    /\ st_high st' = (st_high st + count_priority HIGH l)%nat
    /\ st_medium st' = (st_medium st + count_priority MEDIUM l)%nat
    /\ st_low st' = (st_low st + count_priority LOW l)%nat.
Proof.
  induction l as [|d l IH]; intros st; cbv zeta.
  - cbn. repeat split; lia.
  - cbn [fold_left]. destruct (IH (impact_step st d)) as (H1 & H2 & H3 & H4).
    rewrite H1, H2, H3, H4. unfold impact_step, impact_sum, count_priority.
    cbn [st_total st_high st_medium st_low List.map List.filter].
    destruct (d_priority d); simpl; repeat split; lia.
Qed.

Lemma impact_sum_by_priority (l : list Discrepancy) :
  impact_sum l
  = (20 * count_priority HIGH l + 10 * count_priority MEDIUM l
     + 5 * count_priority LOW l)%nat
  /\ (count_priority HIGH l + count_priority MEDIUM l + count_priority LOW l
      = length l)%nat.
Proof.
  unfold impact_sum, count_priority.
  induction l as [|d l [IH1 IH2]]; [split; reflexivity|].
  cbn [List.map List.filter].
  destruct (d_priority d); simpl in *; lia.
Qed.

(** X4: [calculate_discrepancy_impact] reports a total impact of 20 per
    HIGH, 10 per MEDIUM and 5 per LOW discrepancy; its three priority counts
    are the numbers of discrepancies of each priority and add up to the
    length of the list. *)
Theorem discrepancy_impact_totals (discrepancies : list Discrepancy) :
  let impact := calculate_discrepancy_impact discrepancies in
  high_priority_count impact = count_priority HIGH discrepancies
  /\ medium_priority_count impact = count_priority MEDIUM discrepancies
  /\ low_priority_count impact = count_priority LOW discrepancies
  /\ (high_priority_count impact + medium_priority_count impact
      + low_priority_count impact = length discrepancies)%nat
  /\ total_impact impact
     = (20 * high_priority_count impact + 10 * medium_priority_count impact
        + 5 * low_priority_count impact)%nat.
Proof.
  cbv zeta. destruct (impact_sum_by_priority discrepancies) as [Hs Hn].
  destruct discrepancies as [|d l]; [repeat split|].
  unfold calculate_discrepancy_impact.
  destruct (impact_fold_counts (d :: l)
              {| st_breakdown := []; st_total := 0; st_high := 0;
                 st_medium := 0; st_low := 0 |}) as (H1 & H2 & H3 & H4).
  cbn [total_impact high_priority_count medium_priority_count
       low_priority_count].
  cbn [st_total st_high st_medium st_low] in H1, H2, H3, H4.
  rewrite H1, H2, H3, H4. cbn [Nat.add]. repeat split; try lia.
Qed.

Lemma impact_step_lookup (st : ImpactState) (d : Discrepancy) (k : string) :
  PyDict.get (st_breakdown (impact_step st d)) k
  = if String.eqb (DiscrepancyType_value (d_type d)) k
    then
      let entry :=
        default {| ie_count := 0; ie_total_impact := 0 |}
          (PyDict.get (st_breakdown st) k) in
      Some {| ie_count := ie_count entry + 1;
              ie_total_impact :=
                ie_total_impact entry + impact_values (d_priority d) |}
    else PyDict.get (st_breakdown st) k.
Proof.
  unfold impact_step. cbn [st_breakdown]. rewrite get_set.
  destruct (String.eqb_spec (DiscrepancyType_value (d_type d)) k) as [<-|Hne].
  - cbv zeta. unfold PyDict.get_default, PyDict.contains.
    destruct (PyDict.get (st_breakdown st) (DiscrepancyType_value (d_type d)))
      as [e|] eqn:E.
    + now rewrite E.
    + rewrite get_set, String.eqb_refl. reflexivity.
  - unfold PyDict.contains.
    destruct (PyDict.get (st_breakdown st) (DiscrepancyType_value (d_type d)));
      [reflexivity|].
    rewrite get_set.
    destruct (String.eqb_spec (DiscrepancyType_value (d_type d)) k);
      [contradiction|reflexivity].
Qed.

Lemma impact_fold_lookup (t : DiscrepancyType) (l : list Discrepancy) :
  forall st,
    PyDict.get (st_breakdown (fold_left impact_step l st))
      (DiscrepancyType_value t)
    = match PyDict.get (st_breakdown st) (DiscrepancyType_value t),
            of_type t l with
      | None, [] => None
      | o, m =>
          let entry := default {| ie_count := 0; ie_total_impact := 0 |} o in
          Some {| ie_count := ie_count entry + length m;
                  ie_total_impact := ie_total_impact entry + impact_sum m |}
      end.
Proof.
  induction l as [|d l IH]; intros st.
  - cbn. destruct (PyDict.get (st_breakdown st) (DiscrepancyType_value t))
      as [[c i]|]; [|reflexivity].
    cbn. now rewrite !Nat.add_0_r.
  - cbn [fold_left]. rewrite IH, impact_step_lookup.
    unfold of_type. cbn [List.filter]. unfold DiscrepancyType_eqb.
    destruct (String.eqb (DiscrepancyType_value (d_type d))
                (DiscrepancyType_value t)); [|reflexivity].
    set (m := List.filter _ l).
    destruct (PyDict.get (st_breakdown st) (DiscrepancyType_value t))
      as [[c i]|]; cbv zeta; cbn [default from_option id ie_count ie_total_impact].
    all: unfold impact_sum; cbn [List.map length].
    all: change (list_sum (?a :: ?r)) with (a + list_sum r)%nat.
    all: destruct m; cbn [length List.map]; f_equal; f_equal; simpl; lia.
Qed.

(** X5: the breakdown of [calculate_discrepancy_impact] has an entry for a
    discrepancy type exactly when a discrepancy of that type is in the list,
    and the entry holds the number of those discrepancies and the sum of
    their impacts. *)
Theorem discrepancy_impact_breakdown
    (discrepancies : list Discrepancy) (t : DiscrepancyType) :
  PyDict.get (impact_breakdown (calculate_discrepancy_impact discrepancies))
    (DiscrepancyType_value t)
  = match of_type t discrepancies with
    | [] => None
    | m => Some {| ie_count := length m; ie_total_impact := impact_sum m |}
    end.
Proof.
  destruct discrepancies as [|d l]; [reflexivity|].
  unfold calculate_discrepancy_impact. cbn [impact_breakdown].
  rewrite impact_fold_lookup. cbn [st_breakdown PyDict.get default].
  destruct (of_type t (d :: l)); reflexivity.
Qed.

(** ** Confidence breakdown *)

Section BreakdownFacts.
Import Doubles Binary64.
Local Open Scope float_scope.




End BreakdownFacts.

(** ** Running statistics of the quality assurance agent *)

Lemma qa_stats_counts (rs : list ValidationResult) :
  forall st,
    let st' := fold_left QualityAssuranceStats.record_result rs st in
    QualityAssuranceStats.providers_assessed st'
    = (QualityAssuranceStats.providers_assessed st + length rs)%nat
    /\ QualityAssuranceStats.auto_approved st'
       = (QualityAssuranceStats.auto_approved st
          + length (List.filter vr_auto_updated rs))%nat
    /\ QualityAssuranceStats.flagged_urgent st'
       = (QualityAssuranceStats.flagged_urgent st
          + length (List.filter
                      (fun r => negb (vr_auto_updated r) && vr_urgent_review r)
                      rs))%nat
    /\ QualityAssuranceStats.flagged_for_review st'
       = (QualityAssuranceStats.flagged_for_review st
          + length (List.filter
                      (fun r => negb (vr_auto_updated r)
                                && negb (vr_urgent_review r))
                      rs))%nat
    /\ QualityAssuranceStats.total_discrepancies st'
       = (QualityAssuranceStats.total_discrepancies st
          + list_sum (List.map (fun r => length (vr_discrepancies r)) rs))%nat.
Proof.
  induction rs as [|r rs IH]; intros st; cbv zeta.
  - cbn. repeat split; lia.
  - cbn [fold_left].
    destruct (IH (QualityAssuranceStats.record_result st r))
      as (H1 & H2 & H3 & H4 & H5).
    rewrite H1, H2, H3, H4, H5.
    unfold QualityAssuranceStats.record_result,
      QualityAssuranceStats._update_stats.
    cbn [QualityAssuranceStats.providers_assessed
         QualityAssuranceStats.auto_approved
         QualityAssuranceStats.flagged_urgent
         QualityAssuranceStats.flagged_for_review
         QualityAssuranceStats.total_discrepancies List.filter List.map].
    destruct (vr_auto_updated r), (vr_urgent_review r); simpl;
      repeat split; lia.
Qed.

(** X7: after any sequence of assessments recorded from fresh statistics,
    [providers_assessed] is the number of assessments, each assessment is
    counted in exactly one of [auto_approved], [flagged_urgent] and
    [flagged_for_review] (auto-approval first, then urgency), and
    [total_discrepancies] is the sum of the lengths of the discrepancy
    lists. *)
Theorem qa_stats_partition (rs : list ValidationResult) :
  let st := fold_left QualityAssuranceStats.record_result rs
              QualityAssuranceStats.reset_stats in
  QualityAssuranceStats.providers_assessed st = length rs
  /\ (QualityAssuranceStats.auto_approved st
      + QualityAssuranceStats.flagged_urgent st
      + QualityAssuranceStats.flagged_for_review st
      = QualityAssuranceStats.providers_assessed st)%nat
  /\ QualityAssuranceStats.auto_approved st
     = length (List.filter vr_auto_updated rs)
  /\ QualityAssuranceStats.flagged_urgent st
     = length (List.filter
                 (fun r => negb (vr_auto_updated r) && vr_urgent_review r) rs)
  /\ QualityAssuranceStats.total_discrepancies st
     = list_sum (List.map (fun r => length (vr_discrepancies r)) rs).
Proof.
  cbv zeta.
  destruct (qa_stats_counts rs QualityAssuranceStats.reset_stats)
    as (H1 & H2 & H3 & H4 & H5).
  rewrite H1, H2, H3, H4, H5. cbn [QualityAssuranceStats.reset_stats
    QualityAssuranceStats.providers_assessed QualityAssuranceStats.auto_approved
    QualityAssuranceStats.flagged_urgent QualityAssuranceStats.flagged_for_review
    QualityAssuranceStats.total_discrepancies Nat.add].
  split; [reflexivity|]. split; [|repeat split].
  clear H1 H2 H3 H4 H5.
  induction rs as [|r rs IH]; [reflexivity|].
  cbn [List.filter length].
  destruct (vr_auto_updated r), (vr_urgent_review r); simpl; lia.
Qed.


(** ** Assessing a batch *)

(** An assessment only reads the id of the provider. *)
Lemma assess_provider_by_id (now : Z) (p q : Provider)
    (d : PyDict.t SourceValidation) :
  p_id p = p_id q -> assess_provider now p d = assess_provider now q d.
Proof. intros H. unfold assess_provider. now rewrite H. Qed.

Lemma fold_insert_by_id {V : Type} (g : string -> V)
    (l : list Provider) (acc : gmap string V) (k : string) :
  fold_left (fun m p => <[p_id p := g (p_id p)]> m) l acc !! k
  = if existsb (fun p => String.eqb (p_id p) k) l then Some (g k)
    else acc !! k.
Proof.
  revert acc. induction l as [|q l IH]; intros acc; [reflexivity|].
  cbn [fold_left existsb]. rewrite IH.
  destruct (existsb (fun p => String.eqb (p_id p) k) l).
  - now rewrite orb_true_r.
  - rewrite orb_false_r. destruct (String.eqb_spec (p_id q) k) as [<-|Hne].
    + apply lookup_insert_eq.
    + now apply lookup_insert_ne.
Qed.

(** The assessment of a record that has no source validations. *)
Lemma assess_without_validations (now : Z) (p : Provider) :
  let r := assess_provider now p [] in
  vr_status r = URGENT /\ vr_overall_confidence r = 0%Q
  /\ vr_discrepancies r = [] /\ vr_source_validations r = []
  /\ vr_auto_updated r = false /\ vr_needs_review r = false
  /\ vr_urgent_review r = true.
Proof. cbv zeta. repeat split. Qed.

(** X11: when scoring and the progress callback do not raise,
    [assess_batch] returns an assessment for exactly the ids of the providers
    given, each computed from the validations stored under that id; a
    provider whose id is missing from the validation results is assessed from
    no validations at all: confidence 0, status URGENT, [urgent_review]
    set. *)
Theorem assess_batch_covers_every_provider
    (now : Z) (cb : option (nat -> nat -> option exn))
    (providers : list Provider)
    (validation_results : gmap string (PyDict.t SourceValidation))
    (Hquiet : quiet_callback cb) :
  exists assessments,
    assess_batch (assess_ok now) cb providers validation_results
    = inr assessments
    /\ (forall k, ~ In k (List.map p_id providers) -> assessments !! k = None)
    /\ (forall p, In p providers ->
          assessments !! p_id p
          = Some (assess_provider now p
                    (default [] (validation_results !! p_id p))))
    /\ (forall p, In p providers -> validation_results !! p_id p = None ->
          exists r, assessments !! p_id p = Some r
                    /\ vr_status r = URGENT
                    /\ vr_overall_confidence r = 0%Q
                    /\ vr_urgent_review r = true
                    /\ vr_discrepancies r = []).
Proof.
  eexists. split; [now apply assess_batch_quiet|].
  assert (Hlookup : forall k,
    fold_left
      (fun (m : gmap string ValidationResult) p =>
         <[p_id p := assess_provider now p
                       (default [] (validation_results !! p_id p))]> m)
      providers ∅ !! k
    = if existsb (fun p => String.eqb (p_id p) k) providers
      then Some (assess_provider now
                   {| p_id := k; p_npi := ""; p_first_name := "";
                      p_last_name := "" |}
                   (default [] (validation_results !! k)))
      else None).
  { intros k.
    set (g := fun k' : string =>
                assess_provider now
                  {| p_id := k'; p_npi := ""; p_first_name := "";
                     p_last_name := "" |}
                  (default [] (validation_results !! k'))).
    rewrite (fold_left_pointwise _
               (fun (m : gmap string ValidationResult) p =>
                  <[p_id p := g (p_id p)]> m)).
    - rewrite (fold_insert_by_id g). now rewrite lookup_empty.
    - intros m p. reflexivity. }
  assert (Hin : forall p, In p providers ->
            existsb (fun q => String.eqb (p_id q) (p_id p)) providers = true).
  { intros p Hp. apply existsb_exists. exists p. split; [exact Hp|].
    apply String.eqb_refl. }
  split; [|split].
  - intros k Hk. rewrite Hlookup.
    destruct (existsb _ providers) eqn:E; [|reflexivity].
    apply existsb_exists in E as (q & Hq & Heq).
    apply String.eqb_eq in Heq. exfalso. apply Hk. rewrite <- Heq.
    now apply in_map.
  - intros p Hp. now rewrite Hlookup, (Hin p Hp).
  - intros p Hp Hmissing. exists (assess_provider now p []).
    split; [|repeat split].
    rewrite Hlookup, (Hin p Hp).
    exact (f_equal (fun o => Some (assess_provider now p (default [] o)))
             Hmissing).
Qed.

Lemma assess_batch_covers_every_provider_witness :
  quiet_callback None
  /\ exists assessments,
       assess_batch (assess_ok 0) None [provider_1; provider_2] ∅
       = inr assessments
       /\ assessments !! "p2"
          = Some (assess_provider 0 provider_2 []).
Proof.
  split; [exact quiet_callback_None|].
  destruct (assess_batch_covers_every_provider 0 None [provider_1; provider_2]
              ∅ quiet_callback_None) as (a & H1 & _ & H3 & _).
  exists a. split; [exact H1|].
  exact (H3 provider_2 (or_intror (or_introl eq_refl))).
Defined.

Lemma assess_loop_raises
    (assess : Provider -> PyDict.t SourceValidation -> exn + ValidationResult)
    (cb : option (nat -> nat -> option exn))
    (validation_results : gmap string (PyDict.t SourceValidation))
    (total : nat) (p : Provider) (e : exn)
    (before : list (nat * Provider)) :
  forall (after : list (nat * Provider)) (i : nat)
         (acc : gmap string ValidationResult),
    quiet_callback cb ->
    (forall q, In q (List.map snd before) ->
       exists r, assess q (default [] (validation_results !! p_id q)) = inr r) ->
    assess p (default [] (validation_results !! p_id p)) = inl e ->
    assess_loop assess cb (before ++ (i, p) :: after)%list total
      validation_results acc
    = inl e.
Proof.
  induction before as [|[j q] before IH]; intros after i acc Hq Hok Hraise.
  - cbn [List.app assess_loop]. now rewrite Hraise.
  - cbn [List.app assess_loop].
    destruct (Hok q (or_introl eq_refl)) as [r ->].
    assert (Hok' : forall q', In q' (List.map snd before) ->
              exists r', assess q' (default [] (validation_results !! p_id q'))
                         = inr r').
    { intros q' Hq'. apply Hok. now right. }
    destruct cb as [callback|].
    + rewrite (Hq callback eq_refl). now apply IH.
    + now apply IH.
Qed.

Lemma enumerate_app {A : Type} (l1 l2 : list A) (x : A) (start : nat) :
  combine (seq start (length (l1 ++ x :: l2))) (l1 ++ x :: l2)
  = (combine (seq start (length l1)) l1
     ++ (start + length l1, x)%nat
        :: combine (seq (S (start + length l1)) (length l2)) l2)%list.
Proof.
  revert start. induction l1 as [|y l1 IH]; intros start.
  - cbn. now rewrite Nat.add_0_r.
  - cbn [List.app length seq combine]. rewrite IH.
    now rewrite Nat.add_succ_r.
Qed.

(** X10: [assess_batch] does not isolate a scoring failure: when the
    assessment of a provider raises, and those of the providers before it do
    not, the whole call raises that exception and returns no assessment at
    all, not even those already computed. *)
Theorem assess_batch_propagates_scoring_failure
    (assess : Provider -> PyDict.t SourceValidation -> exn + ValidationResult)
    (cb : option (nat -> nat -> option exn))
    (validation_results : gmap string (PyDict.t SourceValidation))
    (before after : list Provider) (p : Provider) (e : exn)
    (Hquiet : quiet_callback cb)
    (Hbefore : forall q, In q before ->
       exists r, assess q (default [] (validation_results !! p_id q)) = inr r)
    (Hraise : assess p (default [] (validation_results !! p_id p)) = inl e) :
  assess_batch assess cb (before ++ p :: after) validation_results = inl e.
Proof.
  unfold assess_batch. rewrite enumerate_app.
  apply assess_loop_raises; try assumption.
  now rewrite snd_enumerate.
Qed.

Lemma assess_batch_propagates_scoring_failure_witness :
  assess_batch
    (fun p d => if String.eqb (p_id p) "p2" then inl (Exception "bad record")
                else assess_ok 0 p d)
    None ([provider_1] ++ provider_2 :: [provider_1]) ∅
  = inl (Exception "bad record").
Proof.
  apply assess_batch_propagates_scoring_failure.
  - exact quiet_callback_None.
  - intros q [<-|[]]. eexists. reflexivity.
  - reflexivity.
Defined.
(** ** Validating one provider *)

Lemma DataSource_value_inj (a b : DataSource) :
  DataSource_value a = DataSource_value b -> a = b.
Proof. destruct a, b; cbn; intros H; first [reflexivity | discriminate]. Qed.

Lemma DataSource_eqb_eq (a b : DataSource) :
  DataSource_eqb a b = true <-> a = b.
Proof.
  unfold DataSource_eqb. rewrite String.eqb_eq. split.
  - apply DataSource_value_inj.
  - now intros ->.
Qed.

Lemma task_sources_supported (sources : list DataSource) :
  task_sources sources = List.filter supported_source sources.
Proof.
  unfold task_sources. apply filter_ext. intros s. now destruct s.
Qed.

Lemma store_source_result_set
    (query : DataSource -> Provider -> exn + SourceValidation) (now : Z)
    (p : Provider) (results : PyDict.t (stored SourceValidation))
    (s : DataSource) :
  store_source_result query now p results s
  = PyDict.set results (DataSource_value s) (source_slot query now s p).
Proof.
  unfold store_source_result, source_slot.
  destruct (query s p) as [e|v]; [|reflexivity].
  now destruct (isinstance_Exception e).
Qed.

Lemma fold_store_lookup
    (query : DataSource -> Provider -> exn + SourceValidation) (now : Z)
    (p : Provider) (s : DataSource) (l : list DataSource) :
  forall acc,
    PyDict.get (fold_left (store_source_result query now p) l acc)
      (DataSource_value s)
    = if existsb (DataSource_eqb s) l
      then Some (source_slot query now s p)
      else PyDict.get acc (DataSource_value s).
Proof.
  induction l as [|x l IH]; intros acc; [reflexivity|].
  cbn [fold_left existsb]. rewrite IH, store_source_result_set, get_set.
  destruct (existsb (DataSource_eqb s) l); [now rewrite orb_true_r|].
  rewrite orb_false_r. unfold DataSource_eqb at 1.
  rewrite (String.eqb_sym (DataSource_value s)).
  destruct (String.eqb_spec (DataSource_value x) (DataSource_value s))
    as [Heq|Hne]; [|reflexivity].
  apply DataSource_value_inj in Heq. now subst.
Qed.

Lemma fold_store_keys
    (query : DataSource -> Provider -> exn + SourceValidation) (now : Z)
    (p : Provider) (l : list DataSource) :
  forall acc,
    List.NoDup (PyDict.keys acc) ->
    List.NoDup (PyDict.keys (fold_left (store_source_result query now p) l acc)).
Proof.
  induction l as [|x l IH]; intros acc Hnd; [exact Hnd|].
  cbn [fold_left]. apply IH. rewrite store_source_result_set.
  now apply NoDup_keys_set.
Qed.

Lemma values_set_In {V : Type} (d : PyDict.t V) (k : string) (x v : V) :
  In v (PyDict.values (PyDict.set d k x)) -> v = x \/ In v (PyDict.values d).
Proof.
  induction d as [|[k' v'] r IH]; cbn [PyDict.set].
  - cbn. intuition congruence.
  - destruct (String.eqb k' k); cbn [PyDict.values List.map snd In] in *.
    + intuition congruence.
    + intros [H|H]; [tauto|]. apply IH in H. tauto.
Qed.

Lemma fold_store_values
    (query : DataSource -> Provider -> exn + SourceValidation) (now : Z)
    (p : Provider) (l : list DataSource) :
  forall acc v,
    In v (PyDict.values (fold_left (store_source_result query now p) l acc)) ->
    In v (PyDict.values acc)
    \/ exists s, In s l /\ v = source_slot query now s p.
Proof.
  induction l as [|x l IH]; intros acc v Hv; [now left|].
  cbn [fold_left] in Hv. apply IH in Hv as [Hv|(s & Hs & ->)].
  - rewrite store_source_result_set in Hv.
    apply values_set_In in Hv as [->|Hv]; [|now left].
    right. exists x. split; [now left|reflexivity].
  - right. exists s. split; [now right|reflexivity].
Qed.

Lemma set_proper_dict (d : PyDict.t SourceValidation) (k : string)
    (v : SourceValidation) :
  PyDict.set (proper_dict d) k (Found v) = proper_dict (PyDict.set d k v).
Proof.
  unfold proper_dict. induction d as [|[k' v'] r IH]; [reflexivity|].
  cbn [List.map PyDict.set fst snd].
  destruct (String.eqb k' k); cbn [List.map fst snd]; [reflexivity|].
  now rewrite IH.
Qed.

Lemma fold_store_proper
    (query : DataSource -> Provider -> exn + SourceValidation) (now : Z)
    (p : Provider) (l : list DataSource) :
  (forall s, In s l -> cancelled (query s p) = false) ->
  forall acc,
    fold_left (store_source_result query now p) l (proper_dict acc)
    = proper_dict
        (fold_left
           (fun d s =>
              PyDict.set d (DataSource_value s) (source_outcome query now s p))
           l acc).
Proof.
  induction l as [|x l IH]; intros Hok acc; [reflexivity|].
  cbn [fold_left]. rewrite store_source_result_set.
  rewrite source_slot_found by (apply Hok; now left).
  rewrite set_proper_dict. apply IH. intros s Hs. apply Hok. now right.
Qed.

Lemma all_success_raises (l : list (stored SourceValidation)) (e : exn) :
  all_success l = inl e ->
  e = no_attribute "success" /\ exists message, In (Cancelled message) l.
Proof.
  induction l as [|[v|message] l IH]; cbn [all_success].
  - discriminate.
  - destruct (sv_success v); [|discriminate].
    intros H. apply IH in H as (-> & m & Hm).
    split; [reflexivity|]. exists m. now right.
  - intros [= <-]. split; [reflexivity|]. exists message. now left.
Qed.

Lemma source_slot_cancelled
    (query : DataSource -> Provider -> exn + SourceValidation) (now : Z)
    (s : DataSource) (p : Provider) (message : string) :
  source_slot query now s p = Cancelled message ->
  cancelled (query s p) = true.
Proof.
  unfold source_slot, cancelled.
  destruct (query s p) as [e|v]; [|discriminate].
  destruct (isinstance_Exception e); [discriminate|reflexivity].
Qed.

(** X12: for any list of requested sources, the dict [validate_provider]
    returns has one entry per requested source among NPI registry, Google
    Places and practice website (however often it is requested), and no
    other entry: sources without an adapter (state license, PDF) are dropped
    without notice. The entry of a source holds its validation, the failed
    validation made from the [Exception] it raised, or the raised object
    itself when that is a [CancelledError]. When no requested source is
    cancelled the call returns, and every entry is a validation. The call
    raises only when a requested source is cancelled, and then the
    [AttributeError] of reading [success] from the stored object; it does so
    whenever the only requested source is cancelled. *)
Theorem validate_provider_entries
    (query : DataSource -> Provider -> exn + SourceValidation) (now : Z)
    (provider : Provider) (sources : list DataSource) :
  (forall results s,
      validate_provider query now provider (Some sources) = inr results ->
      PyDict.get results (DataSource_value s)
      = (if supported_source s && existsb (DataSource_eqb s) sources
         then Some (source_slot query now s provider) else None)
      /\ List.NoDup (PyDict.keys results)
      /\ (length results <= 3)%nat)
  /\ ((forall s, In s sources -> cancelled (query s provider) = false) ->
      exists results,
        validate_provider query now provider (Some sources) = inr results
        /\ forall s,
             PyDict.get results (DataSource_value s)
             = (if supported_source s && existsb (DataSource_eqb s) sources
                then Some (Found (source_outcome query now s provider))
                else None))
  /\ (forall e,
        validate_provider query now provider (Some sources) = inl e ->
        e = no_attribute "success"
        /\ exists s, In s sources /\ supported_source s = true
                     /\ cancelled (query s provider) = true)
  /\ (forall s,
        supported_source s = true ->
        cancelled (query s provider) = true ->
        validate_provider query now provider (Some [s])
        = inl (no_attribute "success")).
Proof.
  set (entries := fold_left (store_source_result query now provider)
                    (task_sources sources) []).
  assert (Hget : forall s',
    PyDict.get entries (DataSource_value s')
    = if supported_source s' && existsb (DataSource_eqb s') sources
      then Some (source_slot query now s' provider) else None).
  { intros s'. subst entries. rewrite fold_store_lookup, task_sources_supported.
    cbn [PyDict.get].
    assert (Hex : existsb (DataSource_eqb s')
                    (List.filter supported_source sources)
                  = supported_source s' && existsb (DataSource_eqb s') sources).
    { induction sources as [|x l IH]; [now rewrite andb_false_r|].
      cbn [List.filter existsb].
      destruct (supported_source x) eqn:Hx; cbn [existsb]; rewrite IH.
      - destruct (DataSource_eqb s' x) eqn:E; [|reflexivity].
        apply DataSource_eqb_eq in E. subst. now rewrite Hx.
      - destruct (DataSource_eqb s' x) eqn:E; [|reflexivity].
        apply DataSource_eqb_eq in E. subst. now rewrite Hx. }
    now rewrite Hex. }
  assert (Hnd : List.NoDup (PyDict.keys entries))
    by (apply fold_store_keys; constructor).
  assert (Hlen : (length entries <= 3)%nat).
  { assert (Hincl : incl (PyDict.keys entries)
                      ["npi_registry"; "google_places"; "practice_website"]).
    { intros k Hk.
      assert (Hsome : PyDict.get entries k <> None)
        by (intros Hn; now apply get_None_keys in Hn).
      clear Hk. subst entries. revert Hsome.
      assert (Hall : Forall (fun x => supported_source x = true)
                       (task_sources sources)).
      { rewrite task_sources_supported. apply List.Forall_forall.
        intros x Hx. now apply filter_In in Hx. }
      clear Hget Hnd.
      assert (Hgen : forall acc,
        incl (PyDict.keys acc)
          ["npi_registry"; "google_places"; "practice_website"] ->
        PyDict.get (fold_left (store_source_result query now provider)
                      (task_sources sources) acc) k <> None ->
        In k ["npi_registry"; "google_places"; "practice_website"]).
      { induction Hall as [|x l Hx _ IH]; intros acc Hacc Hsome.
        - cbn [fold_left] in Hsome. apply Hacc.
          destruct (in_dec string_dec k (PyDict.keys acc)) as [Hin|Hout];
            [exact Hin|]. now apply get_None_keys in Hout.
        - cbn [fold_left] in Hsome. apply (IH _ ) in Hsome; [exact Hsome|].
          rewrite store_source_result_set, keys_set.
          destruct (PyDict.contains acc (DataSource_value x)); [exact Hacc|].
          intros k' Hk'. apply in_app_or in Hk' as [Hk'|[<-|[]]];
            [now apply Hacc|].
          destruct x; cbn in *; try discriminate; tauto. }
      apply Hgen. intros k' []. }
    unfold PyDict.keys in Hnd, Hincl.
    rewrite <- (List.length_map fst).
    change 3%nat
      with (length ["npi_registry"; "google_places"; "practice_website"]).
    now apply NoDup_incl_length. }
  assert (Hrun : validate_provider query now provider (Some sources)
                 = match all_success (PyDict.values entries) with
                   | inl e => inl e
                   | inr _ => inr entries
                   end) by reflexivity.
  split; [|split; [|split]].
  - intros results s Hres. rewrite Hrun in Hres.
    destruct (all_success (PyDict.values entries)); [discriminate|].
    injection Hres as <-. split; [apply Hget|]. split; assumption.
  - intros Hok. exists entries.
    assert (Hproper : exists l, entries = proper_dict l).
    { eexists. subst entries.
      apply (fold_store_proper query now provider (task_sources sources))
        with (acc := []).
      intros s Hs. apply Hok. rewrite task_sources_supported in Hs.
      now apply filter_In in Hs. }
    destruct Hproper as [l Hl]. split.
    + rewrite Hrun, Hl. unfold proper_dict, PyDict.values.
      rewrite List.map_map. cbn [snd].
      destruct (all_success_found (List.map snd l)) as [b Hb].
      rewrite List.map_map in Hb. now rewrite Hb.
    + intros s. rewrite Hget.
      destruct (supported_source s && existsb (DataSource_eqb s) sources)
        eqn:E; [|reflexivity].
      rewrite source_slot_found; [reflexivity|]. apply Hok.
      apply andb_prop in E as [_ E]. apply existsb_exists in E as (x & Hx & E).
      apply DataSource_eqb_eq in E. now subst.
  - intros e He. rewrite Hrun in He.
    destruct (all_success (PyDict.values entries)) as [e'|b] eqn:E;
      [|discriminate].
    injection He as <-. apply all_success_raises in E as (-> & m & Hm).
    split; [reflexivity|]. subst entries.
    apply fold_store_values in Hm as [[]|(s & Hs & Hslot)].
    exists s. rewrite task_sources_supported in Hs.
    apply filter_In in Hs as [Hin Hsup].
    split; [exact Hin|]. split; [exact Hsup|].
    now apply (source_slot_cancelled query now s provider m).
  - intros s Hsup Hcancel. unfold validate_provider.
    cbn [default from_option id]. rewrite task_sources_supported.
    cbn [List.filter]. rewrite Hsup. cbn [fold_left].
    rewrite store_source_result_set. cbn [PyDict.set PyDict.values List.map snd].
    unfold source_slot, cancelled in *.
    destruct (query s provider) as [e|v]; [|discriminate].
    destruct (isinstance_Exception e); [discriminate|reflexivity].
Qed.

Lemma validate_provider_entries_witness :
  supported_source NPI_REGISTRY = true
  /\ cancelled (npi_cancelled NPI_REGISTRY provider_1) = true
  /\ validate_provider npi_cancelled 0 provider_1 (Some [NPI_REGISTRY])
     = inl (no_attribute "success")
  /\ exists results,
       validate_provider npi_failing_google_cancelled 0 provider_1
         (Some [NPI_REGISTRY; STATE_LICENSE; GOOGLE_PLACES; NPI_REGISTRY])
       = inr results
       /\ PyDict.get results "google_places" = Some (Cancelled "cancelled")
       /\ PyDict.get results "state_license" = None.
Proof.
  split; [reflexivity|]. split; [reflexivity|]. split.
  - exact (proj2 (proj2 (proj2
             (validate_provider_entries npi_cancelled 0 provider_1 [])))
             NPI_REGISTRY eq_refl eq_refl).
  - eexists. split; [reflexivity|].
    pose proof (proj1 (validate_provider_entries npi_failing_google_cancelled 0
                         provider_1
                         [NPI_REGISTRY; STATE_LICENSE; GOOGLE_PLACES;
                          NPI_REGISTRY]) _ GOOGLE_PLACES eq_refl) as (H1 & _).
    pose proof (proj1 (validate_provider_entries npi_failing_google_cancelled 0
                         provider_1
                         [NPI_REGISTRY; STATE_LICENSE; GOOGLE_PLACES;
                          NPI_REGISTRY]) _ STATE_LICENSE eq_refl) as (H2 & _).
    split; [exact H1|exact H2].
Defined.

(** ** Statistics and summaries of the validation agent *)

Import DataValidationReports.



Lemma get_all_discrepancies_fold (l : PyDict.t SourceValidation) :
  forall acc,
    fold_left
      (fun discrepancies '(source_name, result) =>
         if sv_success result
         then (discrepancies ++ sv_discrepancies result)%list
         else discrepancies)
      l acc
    = (acc ++ flat_map (fun sv => if sv_success sv then sv_discrepancies sv
                                  else [])
                (PyDict.values l))%list.
Proof.
  induction l as [|[k sv] l IH]; intros acc; cbn [fold_left].
  - cbn. now rewrite app_nil_r.
  - rewrite IH. cbn [PyDict.values List.map flat_map snd].
    destruct (sv_success sv); [now rewrite <- app_assoc|reflexivity].
Qed.

(** X14: [get_all_discrepancies] returns, in source order, the
    discrepancies of the successful validations only; it agrees with the
    discrepancies [assess_provider] gathers when no failed validation carries
    discrepancies, and otherwise returns fewer. *)
Theorem get_all_discrepancies_successful_only
    (validation_results : PyDict.t SourceValidation) :
  get_all_discrepancies validation_results
  = flat_map (fun sv => if sv_success sv then sv_discrepancies sv else [])
      (PyDict.values validation_results)
  /\ (forall d, In d (get_all_discrepancies validation_results) ->
        In d (flat_map sv_discrepancies (PyDict.values validation_results)))
  /\ ((forall sv, In sv (PyDict.values validation_results) ->
         sv_success sv = false -> sv_discrepancies sv = []) ->
      get_all_discrepancies validation_results
      = flat_map sv_discrepancies (PyDict.values validation_results)).
Proof.
  assert (Heq : get_all_discrepancies validation_results
                = flat_map (fun sv => if sv_success sv then sv_discrepancies sv
                                      else [])
                    (PyDict.values validation_results)).
  { unfold get_all_discrepancies. now rewrite get_all_discrepancies_fold. }
  split; [exact Heq|]. rewrite Heq. clear Heq. split.
  - intros d Hd. apply in_flat_map in Hd as (sv & Hsv & Hd).
    apply in_flat_map. exists sv. split; [exact Hsv|].
    destruct (sv_success sv); [exact Hd|destruct Hd].
  - intros Hinv. induction (PyDict.values validation_results) as [|sv l IH];
      [reflexivity|].
    cbn [flat_map]. rewrite IH by (intros; apply Hinv; [now right|assumption]).
    destruct (sv_success sv) eqn:E; [reflexivity|].
    now rewrite (Hinv sv (or_introl eq_refl) E).
Qed.

Lemma summary_fold (l : PyDict.t SourceValidation) :
  forall s,
    let s' := fold_left summary_step l s in
    sources_checked s' = sources_checked s
    /\ sources_successful s'
       = (sources_successful s
          + length (List.filter sv_success (PyDict.values l)))%nat
    /\ sources_failed s'
       = (sources_failed s
          + length (List.filter (fun sv => negb (sv_success sv))
                      (PyDict.values l)))%nat
    /\ total_discrepancies s'
       = (total_discrepancies s
          + length (flat_map sv_discrepancies (PyDict.values l)))%nat.
Proof.
  induction l as [|[k sv] l IH]; intros s; cbv zeta.
  - cbn. repeat split; lia.
  - cbn [fold_left]. destruct (IH (summary_step s (k, sv))) as (H1 & H2 & H3 & H4).
    rewrite H1, H2, H3, H4.
    cbn [summary_step sources_checked sources_successful sources_failed
         total_discrepancies PyDict.values List.map snd List.filter flat_map].
    rewrite length_app.
    unfold PyDict.values.
    destruct (sv_success sv); simpl; repeat split; lia.
Qed.

(** X15: in the summary of [get_source_summary], the successful and the
    failed sources add up to the sources checked, which is the number of
    entries, and [total_discrepancies] counts the discrepancies of all
    entries, failed ones included. *)
Theorem source_summary_counts
    (validation_results : PyDict.t SourceValidation) :
  let s := get_source_summary validation_results in
  sources_checked s = length validation_results
  /\ (sources_successful s + sources_failed s = sources_checked s)%nat
  /\ sources_successful s
     = length (List.filter sv_success (PyDict.values validation_results))
  /\ total_discrepancies s
     = length (flat_map sv_discrepancies (PyDict.values validation_results)).
Proof.
  cbv zeta. unfold get_source_summary.
  destruct (summary_fold validation_results
              {| sources_checked := length validation_results;
                 sources_successful := 0; sources_failed := 0;
                 total_discrepancies := 0; by_source := [] |})
    as (H1 & H2 & H3 & H4).
  rewrite H1, H2, H3, H4.
  cbn [sources_checked sources_successful sources_failed total_discrepancies
       Nat.add].
  repeat split.
  unfold PyDict.values. rewrite <- (List.length_map snd validation_results).
  induction (List.map snd validation_results) as [|sv l IH]; [reflexivity|].
  cbn [List.filter length]. destruct (sv_success sv); cbn [negb length]; lia.
Qed.

(** X16: [validate_with_pdf] returns the three default entries followed by
    the PDF validation under ["pdf_document"]; when none of the three
    sources is cancelled these entries are the validations of the sources,
    a failed validation standing for a source that raised an [Exception].
    What the PDF processor raises is not caught, whatever its class, and
    neither is the [AttributeError] that [validate_provider] raises over a
    cancelled source; the PDF processor is then not reached. *)
Theorem validate_with_pdf_entries
    (query : DataSource -> Provider -> exn + SourceValidation)
    (process_document : string -> Provider -> exn + SourceValidation)
    (now : Z) (provider : Provider) (pdf_path : string) :
  ((forall source, In source default_sources ->
                   cancelled (query source provider) = false) ->
   validate_with_pdf query process_document now provider pdf_path
   = match process_document pdf_path provider with
     | inl e => inl e
     | inr pdf_result =>
         inr [("npi_registry",
               Found (source_outcome query now NPI_REGISTRY provider));
              ("google_places",
               Found (source_outcome query now GOOGLE_PLACES provider));
              ("practice_website",
               Found (source_outcome query now PRACTICE_WEBSITE provider));
              ("pdf_document", Found pdf_result)]
     end)
  /\ (forall results pdf_result,
        validate_provider query now provider None = inr results ->
        process_document pdf_path provider = inr pdf_result ->
        results
        = [("npi_registry", source_slot query now NPI_REGISTRY provider);
           ("google_places", source_slot query now GOOGLE_PLACES provider);
           ("practice_website",
            source_slot query now PRACTICE_WEBSITE provider)]
        /\ validate_with_pdf query process_document now provider pdf_path
           = inr (results ++ [("pdf_document", Found pdf_result)])%list)
  /\ (forall results e,
        validate_provider query now provider None = inr results ->
        process_document pdf_path provider = inl e ->
        validate_with_pdf query process_document now provider pdf_path
        = inl e)
  /\ (forall e,
        validate_provider query now provider None = inl e ->
        e = no_attribute "success"
        /\ validate_with_pdf query process_document now provider pdf_path
           = inl e).
Proof.
  split; [|split; [|split]].
  - intros Hok. unfold validate_with_pdf.
    rewrite validate_provider_default by exact Hok.
    destruct (process_document pdf_path provider); reflexivity.
  - intros results pdf_result Hres Hpdf. unfold validate_with_pdf.
    rewrite Hres, Hpdf. unfold validate_provider in Hres.
    cbn [default from_option id] in Hres. rewrite default_results in Hres.
    destruct (all_success _); [discriminate|]. injection Hres as <-.
    split; reflexivity.
  - intros results e Hres Hpdf. unfold validate_with_pdf.
    now rewrite Hres, Hpdf.
  - intros e He. split.
    + unfold validate_provider in He.
      destruct (all_success _) as [e'|b] eqn:E; [|discriminate].
      injection He as <-. now apply all_success_raises in E.
    + unfold validate_with_pdf. now rewrite He.
Qed.

Lemma validate_with_pdf_entries_witness :
  validate_provider npi_cancelled 0 provider_1 None
  = inl (no_attribute "success")
  /\ validate_with_pdf npi_cancelled
       (fun _ _ => inr (answer_90 PDF_DOCUMENT)) 0 provider_1 "license.pdf"
     = inl (no_attribute "success")
  /\ (forall source, In source default_sources ->
         cancelled (inr (answer_90 source) : exn + SourceValidation) = false)
  /\ validate_with_pdf (fun source _ => inr (answer_90 source))
       (fun _ _ => inl (CancelledError "cancelled")) 0 provider_1
       "license.pdf"
     = inl (CancelledError "cancelled").
Proof.
  split; [reflexivity|]. split; [|split; [reflexivity|]].
  - exact (proj2 (proj2 (proj2 (proj2
             (validate_with_pdf_entries npi_cancelled
                (fun _ _ => inr (answer_90 PDF_DOCUMENT)) 0 provider_1
                "license.pdf"))) _ eq_refl)).
  - exact (proj1 (validate_with_pdf_entries
                    (fun source _ => inr (answer_90 source))
                    (fun _ _ => inl (CancelledError "cancelled")) 0 provider_1
                    "license.pdf") (fun _ _ => eq_refl)).
Defined.

(** ** Validating a batch: progress callback and repeated ids *)

Lemma batch_loop_callback
    (run_task : Provider -> exn + PyDict.t (stored SourceValidation))
    (cb : nat -> nat -> option exn) (now : Z)
    (providers : list Provider) (total : nat) (starts : list nat) :
  forall all_results,
    batch_loop run_task (Some cb) now starts providers total all_results
    = match first_raise cb
              (List.map (fun s => Nat.min (s + BATCH_SIZE) total) starts)
              total with
      | Some e => inl e
      | None =>
          inr (fold_left (store_result run_task now)
                 (flat_map (fun s =>
                              py_slice providers s
                                (Nat.min (s + BATCH_SIZE) total))
                           starts)
                 all_results)
      end.
Proof.
  induction starts as [|s starts IH]; intros all_results; [reflexivity|].
  cbn [batch_loop List.map first_raise flat_map].
  destruct (cb (Nat.min (s + BATCH_SIZE) total) total); [reflexivity|].
  rewrite IH, fold_left_app. reflexivity.
Qed.

Lemma batch_ends_last (total : nat) :
  (0 < total)%nat -> List.last (batch_ends total) 0%nat = total.
Proof.
  intros Hpos. unfold batch_ends, py_range, BATCH_SIZE.
  set (m := ((total - 0 + (50 - 1)) / 50)%nat).
  assert (Hm : (total <= m * 50 /\ 1 <= m)%nat).
  { subst m.
    pose proof (Nat.div_mod_eq (total - 0 + (50 - 1)) 50).
    pose proof (Nat.mod_upper_bound (total - 0 + (50 - 1)) 50).
    lia. }
  destruct m as [|m']; [lia|].
  rewrite seq_S, !List.map_app. cbn [List.map]. rewrite last_last. lia.
Qed.

(** X17: [validate_batch] calls the progress callback after every batch of
    50 providers with the number of providers handled so far and the total,
    the last call reporting the total itself. If one of these calls raises,
    [validate_batch] raises that exception and returns none of the results
    gathered; otherwise it returns the results of all providers. An empty
    list makes no call at all. *)
Theorem validate_batch_progress_calls
    (run_task : Provider -> exn + PyDict.t (stored SourceValidation))
    (cb : nat -> nat -> option exn) (now : Z) (providers : list Provider) :
  validate_batch run_task (Some cb) now providers
  = match first_raise cb (batch_ends (length providers)) (length providers) with
    | Some e => inl e
    | None => inr (fold_left (store_result run_task now) providers ∅)
    end
  /\ validate_batch run_task (Some cb) now [] = inr ∅
  /\ length (batch_ends (length providers)) = ((length providers + 49) / 50)%nat
  /\ (providers <> [] ->
      List.last (batch_ends (length providers)) 0%nat = length providers).
Proof.
  split; [|split; [|split]].
  - unfold validate_batch, batch_ends.
    rewrite batch_loop_callback, batches_cover. reflexivity.
  - reflexivity.
  - unfold batch_ends, py_range, BATCH_SIZE.
    rewrite !List.length_map, length_seq. f_equal. lia.
  - intros Hne. apply batch_ends_last.
    destruct providers; [contradiction|cbn; lia].
Qed.

Lemma fold_store_last
    (run_task : Provider -> exn + PyDict.t (stored SourceValidation)) (now : Z)
    (providers : list Provider) (k : string) :
  fold_left (store_result run_task now) providers ∅ !! k
  = stored_outcome run_task now <$> last_with_id k providers.
Proof.
  induction providers as [|x l IH] using rev_ind; [reflexivity|].
  rewrite fold_left_app. cbn [fold_left]. rewrite store_result_insert.
  unfold last_with_id in *. rewrite List.filter_app, List.map_app.
  cbn [List.filter].
  destruct (String.eqb_spec (p_id x) k) as [<-|Hne].
  - cbn [List.map]. rewrite last_last. cbn [fmap option_fmap option_map].
    apply lookup_insert_eq.
  - cbn [List.map]. rewrite app_nil_r, lookup_insert_ne by exact Hne.
    exact IH.
Qed.

(** X18: when two providers of a batch have the same id, [validate_batch]
    keeps only the outcome of the last of them; an id that no provider has
    is absent from the results. *)
Theorem validate_batch_last_id_wins
    (run_task : Provider -> exn + PyDict.t (stored SourceValidation))
    (cb : option (nat -> nat -> option exn)) (now : Z)
    (providers : list Provider)
    (Hquiet : quiet_callback cb) :
  exists all_results,
    validate_batch run_task cb now providers = inr all_results
    /\ (forall k, all_results !! k
                  = stored_outcome run_task now <$> last_with_id k providers)
    /\ (forall k, ~ In k (List.map p_id providers) -> all_results !! k = None)
    /\ (forall p q before after,
          providers = (before ++ p :: after ++ [q])%list ->
          p_id p = p_id q ->
          all_results !! p_id p = Some (stored_outcome run_task now q)).
Proof.
  eexists. split; [now apply validate_batch_quiet|].
  split; [intros k; apply fold_store_last|]. split.
  - intros k Hk. rewrite fold_store_last. unfold last_with_id.
    assert (Hnil : List.filter (fun p => String.eqb (p_id p) k) providers = []).
    { apply filter_nil_iff. intros p Hp.
      destruct (String.eqb_spec (p_id p) k) as [<-|]; [|reflexivity].
      exfalso. apply Hk. now apply in_map. }
    now rewrite Hnil.
  - intros p q before after -> Heq. rewrite fold_store_last.
    unfold last_with_id.
    replace (before ++ p :: after ++ [q])%list
      with ((before ++ p :: after) ++ [q])%list
      by (rewrite <- app_assoc; reflexivity).
    rewrite List.filter_app, List.map_app. cbn [List.filter].
    rewrite Heq, String.eqb_refl. cbn [List.map]. now rewrite last_last.
Qed.

Lemma validate_batch_last_id_wins_witness :
  quiet_callback None
  /\ p_id provider_1 = p_id provider_1_again
  /\ exists all_results,
       validate_batch task_failing_for_first_npi None 0
         [provider_1; provider_2; provider_1_again]
       = inr all_results
       /\ all_results !! "p1"
          = Some (Found [("npi_registry", Found (npi_90_with []))])
       /\ all_results !! "p3" = None.
Proof.
  split; [exact quiet_callback_None|]. split; [reflexivity|].
  destruct (validate_batch_last_id_wins task_failing_for_first_npi None 0
              [provider_1; provider_2; provider_1_again] quiet_callback_None)
    as (r & H1 & _ & H3 & H4).
  exists r. split; [exact H1|]. split.
  - exact (H4 provider_1 provider_1_again [] [provider_2] eq_refl eq_refl).
  - apply H3. cbn. intros [H|[H|[H|[]]]]; discriminate.
Defined.

(** ** Size of the resolver's output *)

Lemma length_nodup_le (l : list string) :
  (length (nodup string_dec l) <= length l)%nat.
Proof.
  induction l as [|x l IH]; [reflexivity|].
  cbn [nodup length]. destruct (in_dec string_dec x l); cbn [length]; lia.
Qed.

(** X9: [_prioritize_discrepancies] returns as many discrepancies as there
    are distinct deduplication keys in its input: never more than it was
    given, none exactly when it was given none, and all of them, reordered,
    when their (field, type) pairs are all different. *)
Theorem prioritize_discrepancies_size (discrepancies : list Discrepancy) :
  let out := _prioritize_discrepancies discrepancies in
  length out = length (first_seen (List.map dedup_key discrepancies))
  /\ (length out <= length discrepancies)%nat
  /\ (out = [] <-> discrepancies = [])
  /\ (List.NoDup (List.map pair_key discrepancies) ->
      Permutation discrepancies out).
Proof.
  cbv zeta.
  assert (Hlen : length (_prioritize_discrepancies discrepancies)
                 = length (first_seen (List.map dedup_key discrepancies))).
  { rewrite <- deduplicated_keys, List.length_map, prioritize_unfold.
    symmetry. apply Permutation_length, sorted_Permutation. }
  split; [exact Hlen|]. split; [|split].
  - rewrite Hlen. unfold first_seen. rewrite List.length_rev.
    etransitivity; [apply length_nodup_le|].
    now rewrite List.length_rev, List.length_map.
  - split.
    + intros Hout. destruct discrepancies as [|d l]; [reflexivity|].
      exfalso.
      pose proof (inv_cover _ _ (dedup_invariant_fold (d :: l)) d
                    (or_introl eq_refl)) as Hk.
      apply in_map_iff in Hk as ([k d'] & _ & Hin).
      assert (Hd : In d' (deduplicated (d :: l))).
      { unfold deduplicated, PyDict.values.
        change d' with (snd (k, d')). now apply in_map. }
      rewrite prioritize_unfold in Hout.
      pose proof (sorted_Permutation sort_key tuple_lt (deduplicated (d :: l)))
        as Hp.
      rewrite Hout in Hp. symmetry in Hp. apply Permutation_nil in Hp.
      now rewrite Hp in Hd.
    + now intros ->.
  - intros Hnd. rewrite prioritize_unfold.
    rewrite <- sorted_Permutation.
    rewrite deduplicated_distinct; [reflexivity|].
    assert (Hmap : List.map dedup_key discrepancies
                   = List.map (fun p => fst p ++ "_" ++ DiscrepancyType_value (snd p))
                       (List.map pair_key discrepancies)).
    { rewrite List.map_map. reflexivity. }
    rewrite Hmap. apply Finite.Injective_map_NoDup; [|exact Hnd].
    intros [f1 t1] [f2 t2] H. cbn [fst snd] in H.
    apply dedup_key_parts in H as [-> ->]. reflexivity.
Qed.
(** ** Acting on results *)

Import DirectoryManagement.

Section ActingFacts.
Variable now : Z.
Variable send_urgent_review_alert : Provider -> ValidationResult -> exn + bool.

(** X19: [process_validation_result] routes on [auto_updated] first: an
    auto-updated result is applied to the provider store and the update log
    and creates no ticket and no notification, even when [urgent_review] is
    also set, and only discrepancies of confidence 85 or more are applied.
    Otherwise a ticket is stored under the drawn id, open and with the
    result's discrepancies, of HIGH priority for an urgent result and MEDIUM
    priority else; for an urgent result the ticket is stored even when the
    notification raises, in which case the exception propagates. *)
Theorem process_validation_result_routing
    (uuid : string) (agent : Agent) (provider : Provider)
    (result : ValidationResult) :
  let out := process_validation_result now send_urgent_review_alert uuid agent
               provider result in
  (vr_auto_updated result = true ->
     exists update,
       snd out = inr (actions_for provider result [AutoUpdate update])
       /\ review_tickets (fst out) = review_tickets agent
       /\ notifications_sent (stats (fst out)) = notifications_sent (stats agent)
       /\ PyDict.get (provider_store (fst out)) (p_id provider)
          = Some {| sp_provider := provider; sp_status := VALIDATED;
                    sp_confidence_score := vr_overall_confidence result;
                    sp_last_validated := Some now |}
       /\ Forall (fun u => (85 <= fu_confidence u)%Q) (ur_updates update)
       /\ (ur_fields_updated update <= length (vr_discrepancies result))%nat)
  /\ (vr_auto_updated result = false ->
      PyDict.get (review_tickets (fst out)) uuid
      = Some {| rt_id := uuid; rt_provider_id := p_id provider;
                rt_priority := if vr_urgent_review result then HIGH else MEDIUM;
                rt_status := "open";
                rt_discrepancies := vr_discrepancies result;
                rt_notes :=
                  ["Auto-generated ticket for "
                   ++ ValidationStatus_value (vr_status result)
                   ++ " validation"];
                rt_created_at := now; rt_resolved_at := None |}
      /\ provider_store (fst out) = provider_store agent
      /\ update_log (fst out) = update_log agent
      /\ (vr_urgent_review result = true ->
          snd out
          = match send_urgent_review_alert provider result with
            | inl e => inl e
            | inr success =>
                inr (actions_for provider result
                       [UrgentTicketCreated uuid; NotificationSent success])
            end)
      /\ (vr_urgent_review result = false ->
          snd out
          = inr (actions_for provider result [ReviewTicketCreated uuid]))).
Proof.
  cbv zeta. unfold process_validation_result. split.
  - intros ->. cbn [_auto_update_provider fst snd]. eexists.
    split; [reflexivity|]. cbn [review_tickets stats notifications_sent
                                provider_store ur_updates ur_fields_updated].
    split; [reflexivity|]. split; [reflexivity|].
    split; [now rewrite get_set, String.eqb_refl|].
    split.
    + induction (vr_discrepancies result) as [|d l IH]; [constructor|].
      cbn [flat_map].
      destruct (Qle_bool_cases 85 (d_confidence d)) as [[-> H]|[-> H]];
        [|exact IH].
      cbn [List.app]. constructor; [exact H|exact IH].
    + induction (vr_discrepancies result) as [|d l IH]; [cbn; lia|].
      cbn [flat_map]. rewrite length_app.
      destruct (Qle_bool 85 (d_confidence d)); cbn [length] in *; lia.
  - intros ->. destruct (vr_urgent_review result).
    + cbn [_create_review_ticket]. unfold _send_urgent_notification.
      destruct (send_urgent_review_alert provider result) as [e|[|]];
        cbn [fst snd review_tickets provider_store update_log rt_id];
        (split; [now rewrite get_set, String.eqb_refl|]);
        repeat split; intros; try reflexivity; discriminate.
    + cbn [_create_review_ticket fst snd review_tickets provider_store
           update_log rt_id].
      split; [now rewrite get_set, String.eqb_refl|].
      repeat split; intros; try reflexivity; discriminate.
Qed.

End ActingFacts.
Lemma filter_split_length {A : Type} (f : A -> bool) (l : list A) :
  (length (List.filter f l) + length (List.filter (fun x => negb (f x)) l)
   = length l)%nat.
Proof.
  induction l as [|x l IH]; [reflexivity|]. cbn [List.filter].
  destruct (f x); cbn [negb length]; lia.
Qed.

Lemma filter_narrow_length {A : Type} (f g : A -> bool) (l : list A) :
  (length (List.filter (fun x => f x && g x) l) <= length (List.filter f l))%nat.
Proof.
  induction l as [|x l IH]; [reflexivity|]. cbn [List.filter].
  destruct (f x), (g x); cbn [andb length]; lia.
Qed.

Section ProcessBatchFacts.
Variable now : Z.
Variable send_urgent_review_alert : Provider -> ValidationResult -> exn + bool.
Hypothesis alert_returns :
  forall p r, exists success, send_urgent_review_alert p r = inr success.

Lemma process_one (uuid : string) (agent : Agent) (provider : Provider)
    (result : ValidationResult) (summary : BatchSummary) :
  exists agent1 actions,
    process_validation_result now send_urgent_review_alert uuid agent
      provider result = (agent1, inr actions)
    /\ act_provider_id actions = p_id provider
    /\ (let summary1 := add_actions summary actions in
        let auto := if vr_auto_updated result then 1 else 0 in
        let ticket := if vr_auto_updated result then 0 else 1 in
        let urgent :=
          if negb (vr_auto_updated result) && vr_urgent_review result
          then 1 else 0 in
        bs_total_processed summary1 = bs_total_processed summary + 1
        /\ bs_auto_updated summary1 = bs_auto_updated summary + auto
        /\ bs_tickets_created summary1 = bs_tickets_created summary + ticket
        /\ bs_urgent_notifications summary1
           = bs_urgent_notifications summary + urgent
        /\ bs_provider_actions summary1
           = (bs_provider_actions summary ++ [actions])%list
        /\ providers_updated (stats agent1)
           = providers_updated (stats agent) + auto
        /\ tickets_created (stats agent1)
           = tickets_created (stats agent) + ticket
        /\ notifications_sent (stats agent) <= notifications_sent (stats agent1)
        /\ notifications_sent (stats agent1)
           <= notifications_sent (stats agent) + urgent
        /\ length (update_log agent1) = length (update_log agent) + auto)%nat.
Proof.
  unfold process_validation_result.
  destruct (vr_auto_updated result) eqn:Ha.
  - cbn. eexists _, _. split; [reflexivity|].
    cbn. repeat split; try lia. rewrite List.length_app. cbn [length]. lia.
  - destruct (vr_urgent_review result) eqn:Hu.
    + cbn [_create_review_ticket]. unfold _send_urgent_notification.
      destruct (alert_returns provider result) as [success ->].
      eexists _, _. split; [reflexivity|].
      destruct success; cbn; repeat split; lia.
    + cbn. eexists _, _. split; [reflexivity|]. cbn. repeat split; lia.
Qed.

Lemma process_loop_quiet (uuids : nat -> string)
    (cb : option (nat -> nat -> option exn))
    (validation_results : gmap string ValidationResult) (total : nat)
    (items : list (nat * Provider)) :
  quiet_callback cb ->
  forall (agent : Agent) (summary : BatchSummary),
  exists agent' summary',
    process_loop now send_urgent_review_alert uuids cb items total
      validation_results agent summary = (agent', inr summary')
    /\ (let rs := results_in_order validation_results (List.map snd items) in
        let auto := length (List.filter vr_auto_updated rs) in
        let tickets :=
          length (List.filter (fun r => negb (vr_auto_updated r)) rs) in
        let urgent :=
          length
            (List.filter
               (fun r => negb (vr_auto_updated r) && vr_urgent_review r) rs) in
        bs_total_processed summary' = bs_total_processed summary + length rs
        /\ bs_auto_updated summary' = bs_auto_updated summary + auto
        /\ bs_tickets_created summary' = bs_tickets_created summary + tickets
        /\ bs_urgent_notifications summary'
           = bs_urgent_notifications summary + urgent
        /\ List.map act_provider_id (bs_provider_actions summary')
           = (List.map act_provider_id (bs_provider_actions summary)
              ++ List.map p_id
                   (with_result validation_results (List.map snd items)))%list
        /\ providers_updated (stats agent')
           = providers_updated (stats agent) + auto
        /\ tickets_created (stats agent')
           = tickets_created (stats agent) + tickets
        /\ notifications_sent (stats agent')
           <= notifications_sent (stats agent) + urgent
        /\ length (update_log agent') = length (update_log agent) + auto)%nat.
Proof.
  intros Hquiet. induction items as [|[i provider] rest IH]; intros agent summary.
  - eexists _, _. split; [reflexivity|]. cbn. rewrite app_nil_r.
    repeat split; lia.
  - cbn [process_loop List.map snd results_in_order flat_map with_result
         List.filter].
    fold (results_in_order validation_results (List.map snd rest)).
    fold (with_result validation_results (List.map snd rest)).
    assert (Hcont : forall agent1 summary1,
               match cb with
               | Some cb0 =>
                   match cb0 (i + 1)%nat total with
                   | Some e => (agent1, inl e)
                   | None =>
                       process_loop now send_urgent_review_alert uuids cb rest
                         total validation_results agent1 summary1
                   end
               | None =>
                   process_loop now send_urgent_review_alert uuids cb rest
                     total validation_results agent1 summary1
               end
               = process_loop now send_urgent_review_alert uuids cb rest
                   total validation_results agent1 summary1).
    { intros agent1 summary1. destruct cb as [cb0|] eqn:Ecb; [|reflexivity].
      now rewrite (Hquiet cb0 eq_refl). }
    destruct (validation_results !! p_id provider) as [result|] eqn:Hres.
    + destruct (process_one (uuids i) agent provider result summary)
        as (agent1 & actions & -> & Hid & Hone).
      cbv zeta in Hone.
      destruct Hone as (H1 & H2 & H3 & H4 & H5 & H6 & H7 & H8 & H9 & H10).
      rewrite Hcont.
      destruct (IH agent1 (add_actions summary actions))
        as (agent' & summary' & -> & Hrest).
      cbv zeta in Hrest.
      destruct Hrest as (R1 & R2 & R3 & R4 & R5 & R6 & R7 & R8 & R9).
      eexists _, _. split; [reflexivity|]. cbv zeta.
      rewrite !List.filter_app, !length_app. cbn [List.filter List.app List.map].
      rewrite R5, H5, List.map_app, <- app_assoc. cbn [List.map List.app].
      rewrite Hid.
      destruct (vr_auto_updated result), (vr_urgent_review result);
        cbn [negb andb length] in *; repeat split; try lia; reflexivity.
    + rewrite Hcont.
      destruct (IH agent summary) as (agent' & summary' & -> & Hrest).
      eexists _, _. split; [reflexivity|]. exact Hrest.
Qed.

(** X20: when the notification service answers (it does not raise) and the
    progress callback does not raise, [process_batch] returns a summary in
    which every provider that has a validation result is processed exactly
    once, in order, providers without a result being skipped; every
    processed result is either auto-updated or gets one ticket, so
    [auto_updated + tickets_created = total_processed]; [urgent_notifications]
    counts the results that are urgent and not auto-updated, whether or not
    the notification succeeded; and the agent's counters and update log grow
    by the same numbers. *)
Theorem process_batch_summary
    (uuids : nat -> string) (cb : option (nat -> nat -> option exn))
    (agent : Agent) (providers : list Provider)
    (validation_results : gmap string ValidationResult)
    (Hquiet : quiet_callback cb) :
  exists agent' summary,
    process_batch now send_urgent_review_alert uuids cb agent providers
      validation_results = (agent', inr summary)
    /\ (let rs := results_in_order validation_results providers in
        bs_total_processed summary = length rs
        /\ bs_auto_updated summary = length (List.filter vr_auto_updated rs)
        /\ bs_tickets_created summary
           = length (List.filter (fun r => negb (vr_auto_updated r)) rs)
        /\ bs_urgent_notifications summary
           = length
               (List.filter
                  (fun r => negb (vr_auto_updated r) && vr_urgent_review r) rs)
        /\ bs_auto_updated summary + bs_tickets_created summary
           = bs_total_processed summary
        /\ bs_urgent_notifications summary <= bs_tickets_created summary
        /\ List.map act_provider_id (bs_provider_actions summary)
           = List.map p_id (with_result validation_results providers)
        /\ providers_updated (stats agent')
           = providers_updated (stats agent) + bs_auto_updated summary
        /\ tickets_created (stats agent')
           = tickets_created (stats agent) + bs_tickets_created summary
        /\ notifications_sent (stats agent')
           <= notifications_sent (stats agent) + bs_urgent_notifications summary
        /\ length (update_log agent')
           = length (update_log agent) + bs_auto_updated summary)%nat.
Proof.
  unfold process_batch.
  destruct (process_loop_quiet uuids cb validation_results (length providers)
              (combine (seq 0 (length providers)) providers) Hquiet agent
              empty_summary)
    as (agent' & summary & Hrun & Hsum).
  exists agent', summary. split; [exact Hrun|].
  cbv zeta in Hsum |- *.
  rewrite snd_enumerate in Hsum. cbn [empty_summary bs_total_processed bs_auto_updated
    bs_tickets_created bs_urgent_notifications bs_provider_actions List.map
    List.app] in Hsum.
  destruct Hsum as (R1 & R2 & R3 & R4 & R5 & R6 & R7 & R8 & R9).
  set (rs := results_in_order validation_results providers) in *.
  pose proof (filter_split_length vr_auto_updated rs) as Hpart.
  pose proof (filter_narrow_length (fun r => negb (vr_auto_updated r))
                vr_urgent_review rs) as Hle.
  cbv beta in Hle.
  repeat split; try lia; try assumption.
Qed.

End ProcessBatchFacts.

(** A batch of two providers, one of them without a validation result,
    with a notification service that reports success and no progress
    callback. *)
Lemma process_batch_summary_witness :
  exists agent' summary,
    process_batch 0 alert_ok uuid_of_position None new_agent
      [provider_1; provider_2]
      {[ "p1" := assess_provider 0 provider_1 [] ]}
    = (agent', inr summary)
    /\ bs_total_processed summary = 1%nat
    /\ bs_tickets_created summary = 1%nat
    /\ bs_urgent_notifications summary = 1%nat.
Proof.
  destruct (process_batch_summary 0 alert_ok
              (fun p r => ex_intro _ true eq_refl)
              uuid_of_position None new_agent [provider_1; provider_2]
              {[ "p1" := assess_provider 0 provider_1 [] ]}
              quiet_callback_None)
    as (agent' & summary & Hrun & Hsum).
  exists agent', summary. split; [exact Hrun|].
  cbv zeta in Hsum.
  destruct Hsum as (H1 & _ & H3 & H4 & _).
  split; [exact H1|]. split; [exact H3|exact H4].
Defined.
(** ** Tickets and the update history *)

Lemma ticket_key_lt_asym (a b : nat * Z) :
  ticket_key_lt a b = true -> ticket_key_lt b a = false.
Proof.
  unfold ticket_key_lt. rewrite (Nat.eqb_sym (fst b) (fst a)).
  destruct (Nat.eqb_spec (fst a) (fst b)) as [E|E].
  - rewrite !Z.ltb_lt, Z.ltb_ge. lia.
  - rewrite Nat.ltb_lt, Nat.ltb_ge. lia.
Qed.

Lemma ticket_key_lt_false_iff (a b : nat * Z) :
  ticket_key_lt b a = false
  <-> (fst a < fst b)%nat \/ (fst a = fst b /\ (snd a <= snd b)%Z).
Proof.
  unfold ticket_key_lt.
  destruct (Nat.eqb_spec (fst b) (fst a)) as [E|E].
  - rewrite Z.ltb_ge. lia.
  - rewrite Nat.ltb_ge. lia.
Qed.

Lemma ticket_key_not_lt_trans (a b c : nat * Z) :
  ticket_key_lt b a = false -> ticket_key_lt c b = false ->
  ticket_key_lt c a = false.
Proof. rewrite !ticket_key_lt_false_iff. lia. Qed.

Lemma filter_filter_and {A : Type} (f g : A -> bool) (l : list A) :
  List.filter g (List.filter f l) = List.filter (fun x => f x && g x) l.
Proof.
  induction l as [|x l IH]; [reflexivity|]. cbn [List.filter].
  destruct (f x); cbn [List.filter andb]; [|exact IH].
  destruct (g x); now rewrite IH.
Qed.

Lemma filter_all {A : Type} (l : list A) : List.filter (fun _ => true) l = l.
Proof. induction l as [|x l IH]; [reflexivity|]. cbn. now rewrite IH. Qed.

Lemma open_tickets_status (agent : Agent) (t : ReviewTicket) :
  In t (get_review_tickets agent (Some "open") None) -> rt_status t = "open".
Proof.
  unfold get_review_tickets. intros Hin.
  eapply Permutation_in in Hin; [|symmetry; apply sorted_Permutation].
  apply List.filter_In in Hin as [_ H]. now apply String.eqb_eq in H.
Qed.

(** X21: [get_review_tickets] returns exactly the stored tickets that pass
    the status and priority filters (an empty status string filters
    nothing), each as often as it is stored, ordered by priority rank (HIGH,
    MEDIUM, LOW) and then by creation time; tickets of the same priority and
    creation time keep the order in which they were stored. *)
Theorem get_review_tickets_spec
    (agent : Agent) (status : option string) (priority : option Priority) :
  let selected t :=
    match status with
    | Some (String c s) => String.eqb (rt_status t) (String c s)
    | _ => true
    end
    && match priority with
       | Some p => Priority_eqb (rt_priority t) p
       | None => true
       end in
  let stored := PyDict.values (review_tickets agent) in
  let out := get_review_tickets agent status priority in
  Permutation (List.filter selected stored) out
  /\ (forall t, In t out <-> In t stored /\ selected t = true)
  /\ StronglySorted ticket_order out
  /\ (forall p created,
        let same t :=
          Priority_eqb (rt_priority t) p && (rt_created_at t =? created)%Z in
        List.filter same out = List.filter same (List.filter selected stored))
  /\ get_review_tickets agent (Some "") priority
     = get_review_tickets agent None priority.
Proof.
  cbv zeta.
  set (selected := fun t =>
    match status with
    | Some (String c s) => String.eqb (rt_status t) (String c s)
    | _ => true
    end
    && match priority with
       | Some p => Priority_eqb (rt_priority t) p
       | None => true
       end).
  assert (Hout : get_review_tickets agent status priority
                 = sorted ticket_key ticket_key_lt
                     (List.filter selected
                        (PyDict.values (review_tickets agent)))).
  { unfold get_review_tickets, selected. f_equal.
    destruct status as [[|c s]|], priority as [p|];
      rewrite ?filter_filter_and; try reflexivity.
    - symmetry. apply filter_all.
    - apply List.filter_ext. intros t. now rewrite andb_true_r.
    - symmetry. apply filter_all. }
  rewrite Hout.
  assert (Hperm := sorted_Permutation ticket_key ticket_key_lt
                     (List.filter selected
                        (PyDict.values (review_tickets agent)))).
  split; [exact Hperm|]. split; [|split; [|split]].
  - intros t. rewrite <- List.filter_In. split; intros H.
    + eapply Permutation_in; [symmetry; exact Hperm|exact H].
    + eapply Permutation_in; [exact Hperm|exact H].
  - eapply StronglySorted_weaken;
      [|apply sorted_StronglySorted;
        [exact ticket_key_lt_asym|exact ticket_key_not_lt_trans]].
    intros a b Hab. unfold not_after in Hab.
    apply ticket_key_lt_false_iff in Hab. exact Hab.
  - intros p created. apply filter_sorted.
    intros a b Ha Hb. apply ticket_key_lt_false_iff. unfold ticket_key.
    cbn [fst snd].
    apply andb_prop in Ha as [Ha1 Ha2]. apply andb_prop in Hb as [Hb1 Hb2].
    apply Z.eqb_eq in Ha2, Hb2.
    right. split; [|lia].
    destruct (rt_priority a), (rt_priority b), p; try discriminate; reflexivity.
  - reflexivity.
Qed.

(** X22: [resolve_ticket] on an unknown id returns [None] and leaves the
    agent as it is. On a stored id, whatever the ticket's status, it returns
    the ticket with status "resolved", the resolution time, one more note
    and every discrepancy marked resolved; the ticket is stored under the
    same id, the ids stay as they are and in order, the other tickets keep
    their status, notes and resolution time, and the ticket is no longer
    among the open ones. *)
Theorem resolve_ticket_spec
    (now : Z) (agent : Agent) (ticket_id resolution_notes resolved_by : string) :
  let out := resolve_ticket now agent ticket_id resolution_notes resolved_by in
  match PyDict.get (review_tickets agent) ticket_id with
  | None => out = (agent, None)
  | Some ticket =>
      exists resolved,
        snd out = Some resolved
        /\ PyDict.get (review_tickets (fst out)) ticket_id = Some resolved
        /\ rt_status resolved = "resolved"
        /\ rt_resolved_at resolved = Some now
        /\ rt_notes resolved
           = (rt_notes ticket ++ [("Resolved: " ++ resolution_notes)%string])%list
        /\ Forall (fun d => d_resolved d = true) (rt_discrepancies resolved)
        /\ List.map d_field_name (rt_discrepancies resolved)
           = List.map d_field_name (rt_discrepancies ticket)
        /\ rt_id resolved = rt_id ticket
        /\ rt_provider_id resolved = rt_provider_id ticket
        /\ rt_priority resolved = rt_priority ticket
        /\ rt_created_at resolved = rt_created_at ticket
        /\ PyDict.keys (review_tickets (fst out))
           = PyDict.keys (review_tickets agent)
        /\ (forall k t,
              k <> ticket_id ->
              PyDict.get (review_tickets agent) k = Some t ->
              exists t',
                PyDict.get (review_tickets (fst out)) k = Some t'
                /\ rt_status t' = rt_status t
                /\ rt_notes t' = rt_notes t
                /\ rt_priority t' = rt_priority t
                /\ rt_resolved_at t' = rt_resolved_at t)
        /\ ~ In resolved (get_review_tickets (fst out) (Some "open") None)
        /\ update_log (fst out) = update_log agent
        /\ provider_store (fst out) = provider_store agent
        /\ stats (fst out) = stats agent
  end.
Proof.
  cbv zeta. unfold resolve_ticket.
  destruct (PyDict.get (review_tickets agent) ticket_id) as [ticket|] eqn:Hget;
    [|reflexivity].
  eexists. cbn [fst snd review_tickets update_log provider_store stats].
  split; [reflexivity|].
  split; [now rewrite get_set, String.eqb_refl|].
  cbn [rt_status rt_resolved_at rt_notes rt_discrepancies rt_id rt_provider_id
       rt_priority rt_created_at].
  repeat split.
  - apply List.Forall_forall. intros d Hd. apply in_map_iff in Hd.
    destruct Hd as (d0 & <- & _). reflexivity.
  - rewrite List.map_map. reflexivity.
  - apply keys_set_present. congruence.
  - intros k t Hk Ht. exists t. rewrite get_set.
    destruct (String.eqb_spec ticket_id k) as [->|_]; [contradiction|].
    repeat split; try reflexivity. exact Ht.
  - intros Hin.
    apply open_tickets_status in Hin. discriminate Hin.
Qed.
(** X23: [get_update_history] returns the most recent entries of the update
    log (of the given provider, when a non-empty id is given): the last
    [limit] ones for a positive [limit], or all of them when there are
    fewer. A [limit] of 0 returns the whole history, not an empty list, and
    a negative [limit] drops the oldest [-limit] entries instead. *)
Theorem update_history_limit
    (agent : Agent) (provider_id : option string) (limit : Z) :
  let history :=
    match provider_id with
    | Some (String c s) =>
        List.filter (fun h => String.eqb (ule_provider_id h) (String c s))
          (update_log agent)
    | _ => update_log agent
    end in
  let out := get_update_history agent provider_id limit in
  (exists older, history = (older ++ out)%list)
  /\ length out
     = (if (limit =? 0)%Z then length history
        else if (0 <? limit)%Z then Nat.min (Z.to_nat limit) (length history)
        else (length history - Z.to_nat (- limit))%nat)
  /\ (forall c s, provider_id = Some (String c s) ->
        Forall (fun h => ule_provider_id h = String c s) out).
Proof.
  cbv zeta. unfold get_update_history.
  set (history := match provider_id with
                  | Some (String c s) =>
                      List.filter
                        (fun h => String.eqb (ule_provider_id h) (String c s))
                        (update_log agent)
                  | _ => update_log agent
                  end).
  assert (Hsuffix : exists older,
             history = (older ++ py_slice_from history (- limit))%list).
  { unfold py_slice_from. destruct (- limit <? 0)%Z; eexists;
      symmetry; apply firstn_skipn. }
  split; [exact Hsuffix|]. split.
  - unfold py_slice_from.
    destruct (Z.eqb_spec limit 0) as [->|Hne].
    + cbn. reflexivity.
    + destruct (Z.ltb_spec 0 limit) as [Hpos|Hneg].
      * destruct (Z.ltb_spec (- limit) 0) as [_|H]; [|lia].
        rewrite length_skipn. lia.
      * destruct (Z.ltb_spec (- limit) 0) as [H|_]; [lia|].
        now rewrite length_skipn.
  - intros c s ->. destruct Hsuffix as [older Hsplit].
    assert (Hall : Forall (fun h => ule_provider_id h = String c s) history).
    { apply List.Forall_forall. intros h Hh. subst history.
      apply List.filter_In in Hh as [_ Hh]. now apply String.eqb_eq in Hh. }
    rewrite Hsplit in Hall. apply Forall_app in Hall. apply Hall.
Qed.

(** ** The validation report *)

Lemma assess_provider_flags (now : Z) (p : Provider)
    (svs : PyDict.t SourceValidation) :
  flags_as_assessed (assess_provider now p svs).
Proof. reflexivity. Qed.

Lemma flag_counts (l : list ValidationResult) :
  Forall flags_as_assessed l ->
  (count_where vr_auto_updated l + count_where vr_needs_review l
   + count_where vr_urgent_review l
   = Z.of_nat (length l) + count_where both_auto_and_urgent l)%Z.
Proof.
  unfold count_where. induction 1 as [|r l Hr _ IH]; [reflexivity|].
  unfold flags_as_assessed in Hr. cbn [List.filter]. unfold both_auto_and_urgent in *.
  rewrite Hr.
  destruct (vr_auto_updated r), (vr_urgent_review r);
    cbn [negb andb length]; lia.
Qed.

Lemma fold_Qplus_bounds (l : list Q) (a : Q) :
  Forall (fun c => 0 <= c <= 100)%Q l ->
  (a <= fold_left Qplus l a)%Q
  /\ (fold_left Qplus l a <= a + 100 * inject_Z (Z.of_nat (length l)))%Q.
Proof.
  intros H. revert a. induction H as [|c l Hc _ IH]; intros a.
  - cbn [fold_left length]. change (inject_Z (Z.of_nat 0)) with 0%Q.
    split; lra.
  - cbn [fold_left length]. destruct (IH (a + c)%Q) as [Hlo Hhi].
    rewrite Nat2Z.inj_succ, <- Z.add_1_r, inject_Z_plus in *.
    change (inject_Z 1) with 1%Q. split; lra.
Qed.

(** X24: for results flagged as [assess_provider] flags them,
    [generate_validation_report] counts as validated the number of results
    plus the number of results flagged both auto-updated and urgent, and as
    errors the number of providers minus that count, which is negative when
    every provider has a result and some result carries both flags. The
    average confidence is 0 for no results and lies within 0 and 100 when
    the confidences do. *)
Theorem report_counts_from_flags
    (providers : list Provider) (results : gmap string ValidationResult)
    (Hflags : forall k r, results !! k = Some r -> flags_as_assessed r) :
  let report := generate_validation_report providers results in
  let both := count_where both_auto_and_urgent (map_to_list results).*2 in
  (forall now p svs, flags_as_assessed (assess_provider now p svs))
  /\ rep_validated report = (Z.of_nat (size results) + both)%Z
  /\ rep_errors report
     = (Z.of_nat (length providers) - Z.of_nat (size results) - both)%Z
  /\ (size results = length providers -> rep_errors report = (- both)%Z)
  /\ (size results = 0%nat -> rep_average_confidence report = 0%Q)
  /\ ((forall k r, results !! k = Some r ->
         (0 <= vr_overall_confidence r <= 100)%Q) ->
      (0 <= rep_average_confidence report <= 100)%Q).
Proof.
  cbv zeta.
  assert (Hvalues : forall (P : ValidationResult -> Prop),
             (forall k r, results !! k = Some r -> P r) ->
             Forall P (map_to_list results).*2).
  { intros P HP. apply List.Forall_forall. intros r Hr.
    apply in_map_iff in Hr as ([k r'] & <- & Hin).
    apply (HP k). apply elem_of_map_to_list. now apply list_elem_of_In. }
  pose proof (flag_counts _ (Hvalues _ Hflags)) as Hcount.
  rewrite length_fmap, length_map_to_list in Hcount.
  split; [exact assess_provider_flags|].
  unfold generate_validation_report.
  cbn [rep_validated rep_errors rep_average_confidence].
  split; [lia|]. split; [lia|]. split; [lia|]. split.
  - intros Hsize. apply map_size_empty_inv in Hsize. subst results.
    now rewrite map_to_list_empty.
  - intros Hrange. pose proof (Hvalues _ Hrange) as Hall.
    set (values := (map_to_list results).*2) in *.
    assert (Hconf : Forall (fun c => 0 <= c <= 100)%Q
                      (List.map vr_overall_confidence values)).
    { apply List.Forall_forall. intros c Hc.
      apply in_map_iff in Hc as (r & <- & Hr).
      rewrite List.Forall_forall in Hall. now apply Hall. }
    destruct (List.map vr_overall_confidence values) as [|c l] eqn:E;
      [split; lra|].
    rewrite <- E in *.
    destruct (fold_Qplus_bounds _ 0 Hconf) as [Hlo Hhi].
    fold (Qsum (List.map vr_overall_confidence values)) in Hlo, Hhi.
    set (n := inject_Z (Z.of_nat (length (List.map vr_overall_confidence values)))) in *.
    assert (Hn : (0 < n)%Q).
    { subst n. rewrite E. cbn [length]. rewrite Nat2Z.inj_succ.
      change 0%Q with (inject_Z 0). rewrite <- Zlt_Qlt. lia. }
    split.
    + apply Qle_shift_div_l; [exact Hn|]. lra.
    + apply Qle_shift_div_r; [exact Hn|]. lra.
Qed.

Lemma report_counts_from_flags_witness :
  let results : gmap string ValidationResult :=
    {[ "p1" := assess_provider 0 provider_1 [] ]} in
  rep_validated (generate_validation_report [provider_1] results) = 1%Z
  /\ rep_errors (generate_validation_report [provider_1] results) = 0%Z.
Proof.
  cbv zeta.
  assert (Hflags : forall k r,
             ({[ "p1" := assess_provider 0 provider_1 [] ]}
                : gmap string ValidationResult) !! k = Some r ->
             flags_as_assessed r).
  { intros k r H. apply lookup_singleton_Some in H as [_ <-]. reflexivity. }
  destruct (report_counts_from_flags [provider_1]
              {[ "p1" := assess_provider 0 provider_1 [] ]} Hflags)
    as (_ & Hv & He & _).
  split; [exact Hv|exact He].
Defined.

(** ** Quick validation *)

Import QuickValidation.

Lemma source_slot_of_cancelled
    (query : DataSource -> Provider -> exn + SourceValidation) (now : Z)
    (s : DataSource) (p : Provider) :
  cancelled (query s p) = true ->
  exists message, source_slot query now s p = Cancelled message.
Proof.
  unfold source_slot, cancelled.
  destruct (query s p) as [e|v]; [|discriminate].
  destruct (isinstance_Exception e); [discriminate|]. now eexists.
Qed.

(** X25: when none of the three default sources is cancelled,
    [run_quick_validation] returns the assessment of the provider on their
    outcomes, a source that raised an [Exception] counting as a failed
    outcome; its confidence is within 0 and 100, and when all three sources
    raised it has confidence 0 and status URGENT, is flagged for urgent
    review only, and lists no discrepancy. When one of the sources is
    cancelled, the [CancelledError] is kept in place of a validation and
    [run_quick_validation] raises an [AttributeError]: on reading [success]
    in [validate_provider], or else on reading [source] in the
    assessment. *)
Theorem run_quick_validation_spec
    (query : DataSource -> Provider -> exn + SourceValidation) (now : Z)
    (provider : Provider) :
  ((forall source, In source default_sources ->
                   cancelled (query source provider) = false) ->
   exists r,
     run_quick_validation query now provider = inr r
     /\ vr_provider_id r = p_id provider
     /\ vr_source_validations r
        = [source_outcome query now NPI_REGISTRY provider;
           source_outcome query now GOOGLE_PLACES provider;
           source_outcome query now PRACTICE_WEBSITE provider]
     /\ (0 <= vr_overall_confidence r <= 100)%Q
     /\ ((forall source, In source default_sources ->
            exists e, query source provider = inl e) ->
         vr_overall_confidence r = 0%Q
         /\ vr_status r = URGENT
         /\ vr_discrepancies r = []
         /\ vr_auto_updated r = false
         /\ vr_needs_review r = false
         /\ vr_urgent_review r = true))
  /\ (forall source,
        In source default_sources ->
        cancelled (query source provider) = true ->
        run_quick_validation query now provider
        = inl (no_attribute "success")
        \/ run_quick_validation query now provider
           = inl (no_attribute "source")).
Proof.
  split.
  - intros Hok. eexists. unfold run_quick_validation.
    rewrite validate_provider_default by exact Hok.
    split; [reflexivity|].
    split; [reflexivity|]. split; [reflexivity|].
    split; [apply calculate_overall_confidence_bounds|].
    intros Hfail. unfold source_outcome.
    destruct (Hfail NPI_REGISTRY) as [e1 ->]; [cbn; tauto|].
    destruct (Hfail GOOGLE_PLACES) as [e2 ->]; [cbn; tauto|].
    destruct (Hfail PRACTICE_WEBSITE) as [e3 ->]; [cbn; tauto|].
    repeat split.
  - intros source Hin Hcancel.
    unfold run_quick_validation, validate_provider.
    cbn [default from_option id]. rewrite default_results.
    destruct (all_success _) as [e|b] eqn:E.
    + left. apply all_success_raises in E as [-> _]. reflexivity.
    + right. clear E. unfold assess_stored.
      destruct (source_slot_of_cancelled query now source provider Hcancel)
        as [m Hm].
      destruct Hin as [<-|[<-|[<-|[]]]]; rewrite Hm; cbn [proper_entries];
        repeat match goal with
               | |- context [source_slot ?q ?n ?s ?p] =>
                   destruct (source_slot q n s p); cbn [proper_entries]
               end; reflexivity.
Qed.

Lemma run_quick_validation_spec_witness :
  (forall source, In source default_sources ->
     cancelled (inl (Exception "timeout") : exn + SourceValidation) = false)
  /\ (exists r,
        run_quick_validation (fun _ _ => inl (Exception "timeout")) 0
          provider_1
        = inr r
        /\ vr_status r = URGENT)
  /\ cancelled (npi_failing_google_cancelled GOOGLE_PLACES provider_1) = true
  /\ run_quick_validation npi_failing_google_cancelled 0 provider_1
     = inl (no_attribute "source")
  /\ run_quick_validation npi_cancelled 0 provider_1
     = inl (no_attribute "success").
Proof.
  split; [reflexivity|]. split.
  - destruct (proj1 (run_quick_validation_spec
                       (fun _ _ => inl (Exception "timeout")) 0 provider_1)
                (fun _ _ => eq_refl))
      as (r & Hr & _ & _ & _ & Hall).
    exists r. split; [exact Hr|].
    apply Hall. intros source _. now eexists.
  - split; [reflexivity|]. split; reflexivity.
Defined.

(** ** Whole pipeline runs *)

Section PipelineRuns.
Import ValidationOrchestrator.
Context {SourceValidations Enrichments Assessments Actions Report : Type}.
Variable env :
  @Collaborators SourceValidations Enrichments Assessments Actions Report.

(** Case analysis on the next outcome the run of the [try] block depends
    on. *)
Ltac split_outcome H :=
  match type of H with
  | context [progress_callback env] =>
      let cb := fresh "callback" in
      destruct (progress_callback env) as [cb|] eqn:?
  | context [match ?cb ?label with Some _ => _ | None => _ end] =>
      is_var cb; destruct (cb label) eqn:?
  | context [validate_batch env ?p] => destruct (validate_batch env p) eqn:?
  | context [enrich_batch env ?p] => destruct (enrich_batch env p) eqn:?
  | context [assess_batch env ?p ?x] => destruct (assess_batch env p x) eqn:?
  | context [process_batch env ?p ?x] => destruct (process_batch env p x) eqn:?
  | context [generate_validation_report env ?p ?x] =>
      destruct (generate_validation_report env p x) eqn:?
  | context [export_results env ?p ?x ?f] =>
      destruct (export_results env p x f) eqn:?
  | context [if enable_enrichment ?o then _ else _] =>
      destruct (enable_enrichment o) eqn:?
  | context [if auto_export_results ?o then _ else _] =>
      destruct (auto_export_results o) eqn:?
  end; cbn in H.

(** The state in which the [try] block ends, however it ends. *)
Lemma stages_state
    (o : Orchestrator) (providers : list Provider) (s1 : St)
    (r : exn + unit) :
  stages env providers (initial_state o) = (s1, r) ->
  is_running (self s1) = true
  /\ enable_enrichment (self s1) = enable_enrichment o
  /\ auto_export_results (self s1) = auto_export_results o
  /\ export_format (self s1) = export_format o
  /\ res_errors (results s1) = []
  /\ (exists rest, planned_operations o = (invoked s1 ++ rest)%list)
  /\ match r with
     | inl _ => last_run_results (self s1) = last_run_results o
     | inr _ =>
         last_run_results (self s1) = Some (results s1)
         /\ invoked s1 = planned_operations o
         /\ res_timing (results s1) = planned_timing o
         /\ res_providers (results s1) = providers_by_id providers
     end.
Proof.
  intros Hrun.
  unfold stages, bind, enter_stage, _report_progress, await, modify, get_self,
    ret, initial_state in Hrun.
  cbn in Hrun.
  repeat split_outcome Hrun.
  all: injection Hrun as <- <-; cbn.
  all: unfold planned_operations, planned_timing.
  all: repeat match goal with
         | H : enable_enrichment _ = _ |- _ => rewrite H
         | H : auto_export_results _ = _ |- _ => rewrite H
         end.
  all: repeat split; try reflexivity.
  all: eexists; cbn; reflexivity.
Qed.

(** The handler adds one entry to the error list and changes nothing
    else, whether or not its progress report raises. *)
Lemma on_exception_state (e : exn) (s : St) :
  fst (on_exception env e s)
  = with_results
      (append_error {| err_stage := current_stage (self s);
                       err_error := str e;
                       err_timestamp := now env |}) s.
Proof.
  unfold on_exception, bind, get_self, modify, _report_progress. cbn.
  destruct (progress_callback env) as [callback|]; [|reflexivity].
  destruct (callback "Error"); reflexivity.
Qed.

(** X26: whatever the agents and the progress callback do,
    [run_full_validation] leaves the orchestrator not running and without
    a current stage, and its configuration as it was. The agent operations
    are invoked in pipeline order, each at most once, up to the first
    failure; [enrich_batch] and [export_results] are invoked only when
    enabled. The dict returned either has no error entry, and is then
    stored as [last_run_results], or has exactly one, and then
    [last_run_results] is left as it was, as it is when the exception
    propagates. *)
Theorem run_full_validation_always
    (o : Orchestrator) (providers : list Provider) :
  let o' := fst (fst (run_full_validation env o providers)) in
  let log := snd (fst (run_full_validation env o providers)) in
  is_running o' = false
  /\ current_stage o' = None
  /\ enable_enrichment o' = enable_enrichment o
  /\ auto_export_results o' = auto_export_results o
  /\ export_format o' = export_format o
  /\ (exists rest, planned_operations o = (log ++ rest)%list)
  /\ (enable_enrichment o = false -> ~ In "enrich_batch" log)
  /\ (auto_export_results o = false -> ~ In "export_results" log)
  /\ match snd (run_full_validation env o providers) with
     | inr res =>
         (res_errors res = [] /\ last_run_results o' = Some res
          /\ log = planned_operations o)
         \/ (exists entry,
               res_errors res = [entry]
               /\ last_run_results o' = last_run_results o)
     | inl _ => last_run_results o' = last_run_results o
     end.
Proof.
  cbv zeta. rewrite run_full_validation_unfold.
  destruct (stages env providers (initial_state o)) as [s1 r1] eqn:Hrun.
  destruct (stages_state o providers s1 r1 Hrun)
    as (Hrunning & Hen & Hex & Hfmt & Herr & Hprefix & Hlast).
  assert (Hnot : forall op,
             ~ In op (planned_operations o) -> ~ In op (invoked s1)).
  { intros op Hop Hin. apply Hop. destruct Hprefix as [rest ->].
    apply in_or_app. now left. }
  destruct r1 as [e|[]]; [destruct (isinstance_Exception e)|].
  - pose proof (on_exception_state e s1) as Hs2.
    destruct (on_exception env e s1) as [s2 r2]. cbn [fst] in Hs2. subst s2.
    cbn [fst snd cleanup with_self with_results self results invoked
         set_current_stage set_is_running is_running current_stage
         enable_enrichment auto_export_results export_format
         last_run_results append_error res_errors].
    split; [reflexivity|]. split; [reflexivity|].
    split; [exact Hen|]. split; [exact Hex|]. split; [exact Hfmt|].
    split; [exact Hprefix|].
    split; [|split].
    + intros Hoff. apply Hnot. unfold planned_operations. rewrite Hoff.
      destruct (auto_export_results o); cbn; intuition discriminate.
    + intros Hoff. apply Hnot. unfold planned_operations. rewrite Hoff.
      destruct (enable_enrichment o); cbn; intuition discriminate.
    + destruct r2 as [e'|[]]; [exact Hlast|].
      right. cbn [append_error res_errors]. rewrite Herr.
      eexists. split; [reflexivity|exact Hlast].
  - cbn [fst snd cleanup with_self with_results self results invoked
         set_current_stage set_is_running is_running current_stage
         enable_enrichment auto_export_results export_format
         last_run_results].
    split; [reflexivity|]. split; [reflexivity|].
    split; [exact Hen|]. split; [exact Hex|]. split; [exact Hfmt|].
    split; [exact Hprefix|].
    split; [|split].
    + intros Hoff. apply Hnot. unfold planned_operations. rewrite Hoff.
      destruct (auto_export_results o); cbn; intuition discriminate.
    + intros Hoff. apply Hnot. unfold planned_operations. rewrite Hoff.
      destruct (enable_enrichment o); cbn; intuition discriminate.
    + exact Hlast.
  - destruct Hlast as (Hlast & Hlog & _).
    cbn [fst snd cleanup with_self with_results self results invoked
         set_current_stage set_is_running is_running current_stage
         enable_enrichment auto_export_results export_format
         last_run_results].
    split; [reflexivity|]. split; [reflexivity|].
    split; [exact Hen|]. split; [exact Hex|]. split; [exact Hfmt|].
    split; [exact Hprefix|].
    split; [|split].
    + intros Hoff. apply Hnot. unfold planned_operations. rewrite Hoff.
      destruct (auto_export_results o); cbn; intuition discriminate.
    + intros Hoff. apply Hnot. unfold planned_operations. rewrite Hoff.
      destruct (enable_enrichment o); cbn; intuition discriminate.
    + left. split; [exact Herr|]. split; [exact Hlast|exact Hlog].
Qed.

(** X27: when every agent operation of the run returns and the progress
    callback never raises, [run_full_validation] returns a dict without
    errors that holds the assessments, the actions and the report, and the
    providers keyed by id; every planned operation has been invoked once, in
    order; there is one timing entry per stage run and one for the total;
    and the dict is stored as [last_run_results]. *)
Theorem run_full_validation_success
    (o : Orchestrator) (providers : list Provider)
    (source_validations : SourceValidations) (validation_results : Assessments)
    (actions : Actions) (report : Report)
    (Hcallback : forall label, callback_outcome env label = None)
    (Hvalidate : validate_batch env providers = inr source_validations)
    (Henrich : enable_enrichment o = true ->
               exists enrichments, enrich_batch env providers = inr enrichments)
    (Hassess : assess_batch env providers source_validations
               = inr validation_results)
    (Hprocess : process_batch env providers validation_results = inr actions)
    (Hreport : generate_validation_report env providers validation_results
               = inr report)
    (Hexport : auto_export_results o = true ->
               exists path,
                 export_results env providers validation_results
                   (export_format o) = inr path) :
  exists o' res,
    run_full_validation env o providers
    = (o', planned_operations o, inr res)
    /\ res_errors res = []
    /\ res_validation_results res = Some validation_results
    /\ res_actions res = Some actions
    /\ res_report res = Some report
    /\ res_providers res = providers_by_id providers
    /\ res_timing res = planned_timing o
    /\ (enable_enrichment o = true ->
        exists enrichments,
          enrich_batch env providers = inr enrichments
          /\ res_enrichments res = Some enrichments)
    /\ (enable_enrichment o = false -> res_enrichments res = None)
    /\ (auto_export_results o = true ->
        exists path,
          export_results env providers validation_results (export_format o)
          = inr path
          /\ res_export_path res = Some path)
    /\ (auto_export_results o = false -> res_export_path res = None)
    /\ last_run_results o' = Some res
    /\ is_running o' = false
    /\ current_stage o' = None.
Proof.
  rewrite run_full_validation_unfold.
  destruct (stages env providers (initial_state o)) as [s1 r1] eqn:Hrun.
  unfold stages, bind, enter_stage, _report_progress, await, modify, get_self,
    ret, initial_state in Hrun.
  assert (Hquiet : forall callback,
             progress_callback env = Some callback ->
             forall label, callback label = None).
  { intros callback E label. specialize (Hcallback label).
    unfold callback_outcome in Hcallback. now rewrite E in Hcallback. }
  destruct (progress_callback env) as [callback|];
    [specialize (Hquiet callback eq_refl)|clear Hquiet];
    cbn in Hrun; rewrite ?Hquiet in Hrun;
    rewrite Hvalidate in Hrun; cbn in Hrun; rewrite ?Hquiet in Hrun;
    (destruct (enable_enrichment o) eqn:Een;
     [destruct (Henrich eq_refl) as [enrichments Hen];
      cbn in Hrun; rewrite ?Hquiet in Hrun; rewrite Hen in Hrun|]);
    cbn in Hrun; rewrite ?Hquiet in Hrun;
    rewrite Hassess in Hrun; cbn in Hrun; rewrite ?Hquiet in Hrun;
    rewrite Hprocess in Hrun; cbn in Hrun; rewrite ?Hquiet in Hrun;
    rewrite Hreport in Hrun; cbn in Hrun; rewrite ?Hquiet in Hrun;
    (destruct (auto_export_results o) eqn:Eex;
     [destruct (Hexport eq_refl) as [path Hpath]; rewrite Hpath in Hrun|]);
    cbn in Hrun; rewrite ?Hquiet in Hrun; cbn in Hrun;
    injection Hrun as <- <-;
    cbn; unfold planned_operations, planned_timing; rewrite Een, Eex; cbn;
    eexists _, _; (split; [reflexivity|]); cbn;
    repeat split; try reflexivity; try discriminate;
    intros _; eexists; split; try eassumption; reflexivity.
Qed.

End PipelineRuns.

(** A run with agents that all succeed and no progress callback. *)
Lemma run_full_validation_success_witness :
  exists o' res,
    ValidationOrchestrator.run_full_validation succeeding_env idle_orchestrator
      [provider_1]
    = (o', planned_operations idle_orchestrator, inr res)
    /\ ValidationOrchestrator.res_errors res = []
    /\ ValidationOrchestrator.last_run_results o' = Some res.
Proof.
  destruct (run_full_validation_success succeeding_env idle_orchestrator
              [provider_1] tt tt tt tt
              (fun label => eq_refl) eq_refl
              (fun _ => ex_intro _ tt eq_refl) eq_refl eq_refl eq_refl
              (fun _ => ex_intro _ "out.csv" eq_refl))
    as (o' & res & Hrun & Herr & _ & _ & _ & _ & _ & _ & _ & _ & _ & Hlast & _).
  exists o', res. split; [exact Hrun|]. split; [exact Herr|exact Hlast].
Defined.
(** ** The source adapters' confidence *)

Lemma count_priority_cons (p : Priority) (d : Discrepancy)
    (l : list Discrepancy) :
  count_priority p (d :: l)
  = ((if Priority_eqb (d_priority d) p then 1 else 0) + count_priority p l)%nat.
Proof.
  unfold count_priority. cbn [List.filter].
  destruct (Priority_eqb (d_priority d) p); reflexivity.
Qed.

Lemma deduction_nil (high medium low : Q) : (deduction high medium low [] == 0)%Q.
Proof. unfold deduction, count_priority. cbn. ring. Qed.

Lemma deduction_cons (high medium low : Q) (d : Discrepancy)
    (l : list Discrepancy) :
  (deduction high medium low (d :: l)
   == match d_priority d with
      | HIGH => high
      | MEDIUM => medium
      | LOW => low
      end + deduction high medium low l)%Q.
Proof.
  unfold deduction. rewrite !count_priority_cons.
  rewrite !Nat2Z.inj_add, !inject_Z_plus.
  destruct (d_priority d); cbn [Priority_eqb Z.of_nat];
    change (inject_Z (Zpos 1)) with 1%Q; change (inject_Z 0) with 0%Q; ring.
Qed.

Lemma deduction_app (high medium low : Q) (l1 l2 : list Discrepancy) :
  (deduction high medium low (l1 ++ l2)
   == deduction high medium low l1 + deduction high medium low l2)%Q.
Proof.
  induction l1 as [|d l IH]; cbn [List.app].
  - rewrite deduction_nil. ring.
  - rewrite !deduction_cons, IH. ring.
Qed.

Lemma deduction_nonneg (high medium low : Q) (l : list Discrepancy) :
  (0 <= high)%Q -> (0 <= medium)%Q -> (0 <= low)%Q ->
  (0 <= deduction high medium low l)%Q.
Proof.
  intros Hh Hm Hl. induction l as [|d l IH].
  - rewrite deduction_nil. lra.
  - rewrite deduction_cons. destruct (d_priority d); lra.
Qed.

Lemma deduction_Permutation (high medium low : Q) (l1 l2 : list Discrepancy) :
  Permutation l1 l2 ->
  (deduction high medium low l1 == deduction high medium low l2)%Q.
Proof.
  induction 1 as [|d l l' _ IH|d d' l|l l' l'' _ IH1 _ IH2].
  - reflexivity.
  - now rewrite !deduction_cons, IH.
  - rewrite !deduction_cons. ring.
  - now rewrite IH1.
Qed.

(** The deduction loop of an adapter takes [deduction] off the base. *)
Lemma deduct_loop (high medium low base : Q) (l : list Discrepancy) :
  (fold_left
     (fun base_confidence disc =>
        match d_priority disc with
        | HIGH => base_confidence - high
        | MEDIUM => base_confidence - medium
        | LOW => base_confidence - low
        end)
     l base
   == base - deduction high medium low l)%Q.
Proof.
  revert base. induction l as [|d l IH]; intros base; cbn [fold_left].
  - rewrite deduction_nil. ring.
  - rewrite IH, deduction_cons. destruct (d_priority d); ring.
Qed.

Lemma npi_confidence_closed (ds : list Discrepancy) :
  (NPIRegistryService._calculate_confidence ds
   == clamp_0_100 (100 - deduction 20 10 5 ds))%Q.
Proof.
  unfold NPIRegistryService._calculate_confidence. cbv zeta.
  fold (clamp_0_100
          (fold_left
             (fun base_confidence disc =>
                match d_priority disc with
                | HIGH => base_confidence - 20
                | MEDIUM => base_confidence - 10
                | LOW => base_confidence - 5
                end)%Q ds 100%Q)).
  now rewrite deduct_loop.
Qed.

(** The bonuses of the Google Places and of the website adapter. *)
Lemma google_confidence_closed
    (place_data : GooglePlacesService.PlaceData) (ds : list Discrepancy) :
  (GooglePlacesService._calculate_confidence place_data ds
   == clamp_0_100
        (90 - deduction 25 12 5 ds
         + (if bool_decide
                 (GooglePlacesService.business_status place_data
                  = Some "OPERATIONAL") then 5 else 0)
         + (if (50 <? default 0%Z
                        (GooglePlacesService.user_ratings_total place_data))%Z
            then 3 else 0)))%Q.
Proof.
  unfold GooglePlacesService._calculate_confidence. cbv zeta.
  match goal with
  | |- (py_max 0 (py_min 100 ?x) == _)%Q => fold (clamp_0_100 x)
  end.
  apply clamp_0_100_Proper.
  assert (Hloop := deduct_loop 25 12 5 90 ds).
  destruct (GooglePlacesService.business_status place_data) as [status|].
  - destruct (String.eqb_spec status "OPERATIONAL") as [->|Hne].
    + rewrite bool_decide_eq_true_2 by reflexivity.
      destruct (50 <? _)%Z; rewrite Hloop; ring.
    + rewrite bool_decide_eq_false_2 by congruence.
      destruct (50 <? _)%Z; rewrite Hloop; ring.
  - rewrite bool_decide_eq_false_2 by discriminate.
    destruct (50 <? _)%Z; rewrite Hloop; ring.
Qed.

Lemma website_confidence_closed
    (scraped_data : WebScraperService.ScrapedData) (ds : list Discrepancy) :
  (WebScraperService._calculate_confidence scraped_data ds
   == clamp_0_100
        (80 - deduction 20 10 5 ds
         + (if WebScraperService.truthy_list
                 (WebScraperService.providers_mentioned scraped_data)
            then 5 else 0)
         + (if WebScraperService.truthy_string
                 (WebScraperService.last_updated scraped_data)
            then 3 else 0)))%Q.
Proof.
  unfold WebScraperService._calculate_confidence. cbv zeta.
  match goal with
  | |- (py_max 0 (py_min 100 ?x) == _)%Q => fold (clamp_0_100 x)
  end.
  apply clamp_0_100_Proper.
  assert (Hloop := deduct_loop 20 10 5 80 ds).
  destruct (WebScraperService.truthy_list _),
    (WebScraperService.truthy_string _); rewrite Hloop; ring.
Qed.

Lemma pdf_confidence_closed (quality : option Q) (ds : list Discrepancy) :
  (PDFProcessorService._calculate_confidence quality ds
   == clamp_0_100 (default (1 # 2) quality * 80 - deduction 15 8 3 ds))%Q.
Proof.
  unfold PDFProcessorService._calculate_confidence. cbv zeta.
  match goal with
  | |- (py_max 0 (py_min 100 ?x) == _)%Q => fold (clamp_0_100 x)
  end.
  now rewrite deduct_loop.
Qed.

(** X28: the confidence an adapter reports depends on the discrepancies
    only through the number of HIGH, MEDIUM and LOW ones: it is the base
    score (100 for the NPI registry, 90 for Google Places, 80 for a website,
    80 times the extraction quality, 0.5 by default, for a PDF) minus the
    points per discrepancy, plus the adapter's bonuses, cut to 0..100. So
    the order of the discrepancies does not matter. *)
Theorem adapter_confidence_by_counts
    (place_data : GooglePlacesService.PlaceData)
    (scraped_data : WebScraperService.ScrapedData) (quality : option Q)
    (ds : list Discrepancy) :
  (NPIRegistryService._calculate_confidence ds
   == clamp_0_100 (100 - deduction 20 10 5 ds))%Q
  /\ (GooglePlacesService._calculate_confidence place_data ds
      == clamp_0_100
           (90 - deduction 25 12 5 ds
            + (if bool_decide
                    (GooglePlacesService.business_status place_data
                     = Some "OPERATIONAL") then 5 else 0)
            + (if (50 <? default 0%Z
                           (GooglePlacesService.user_ratings_total place_data))%Z
               then 3 else 0)))%Q
  /\ (WebScraperService._calculate_confidence scraped_data ds
      == clamp_0_100
           (80 - deduction 20 10 5 ds
            + (if WebScraperService.truthy_list
                    (WebScraperService.providers_mentioned scraped_data)
               then 5 else 0)
            + (if WebScraperService.truthy_string
                    (WebScraperService.last_updated scraped_data)
               then 3 else 0)))%Q
  /\ (PDFProcessorService._calculate_confidence quality ds
      == clamp_0_100 (default (1 # 2) quality * 80 - deduction 15 8 3 ds))%Q
  /\ (forall ds',
        Permutation ds ds' ->
        (NPIRegistryService._calculate_confidence ds
         == NPIRegistryService._calculate_confidence ds')%Q
        /\ (GooglePlacesService._calculate_confidence place_data ds
            == GooglePlacesService._calculate_confidence place_data ds')%Q
        /\ (WebScraperService._calculate_confidence scraped_data ds
            == WebScraperService._calculate_confidence scraped_data ds')%Q
        /\ (PDFProcessorService._calculate_confidence quality ds
            == PDFProcessorService._calculate_confidence quality ds')%Q).
Proof.
  split; [apply npi_confidence_closed|].
  split; [apply google_confidence_closed|].
  split; [apply website_confidence_closed|].
  split; [apply pdf_confidence_closed|].
  intros ds' Hperm.
  rewrite !npi_confidence_closed, !google_confidence_closed,
    !website_confidence_closed, !pdf_confidence_closed.
  rewrite (deduction_Permutation 20 10 5 ds ds' Hperm),
    (deduction_Permutation 25 12 5 ds ds' Hperm),
    (deduction_Permutation 15 8 3 ds ds' Hperm).
  repeat split; reflexivity.
Qed.

Lemma clamp_0_100_below (x b : Q) :
  (x <= b)%Q -> (0 <= b)%Q -> (clamp_0_100 x <= b)%Q.
Proof.
  intros Hx Hb. unfold clamp_0_100, py_max, py_min.
  destruct (Qlt_bool_cases x 100) as [[-> H1]|[-> H1]];
  repeat match goal with
         | |- context [Qlt_bool ?a ?c] =>
             destruct (Qlt_bool_cases a c) as [[-> ?]|[-> ?]]
         end; lra.
Qed.

(** X29: every adapter reports a confidence within 0 and 100; Google Places
    never reports more than 98, a website never more than 88, and a PDF
    never more than 80 when the extraction quality is at most 1. Without
    discrepancies the NPI registry reports 100. Finding further
    discrepancies never raises the confidence an adapter reports. *)
Theorem adapter_confidence_bounds
    (place_data : GooglePlacesService.PlaceData)
    (scraped_data : WebScraperService.ScrapedData) (quality : option Q)
    (ds more : list Discrepancy) :
  (0 <= NPIRegistryService._calculate_confidence ds <= 100)%Q
  /\ (0 <= GooglePlacesService._calculate_confidence place_data ds <= 98)%Q
  /\ (0 <= WebScraperService._calculate_confidence scraped_data ds <= 88)%Q
  /\ (0 <= PDFProcessorService._calculate_confidence quality ds <= 100)%Q
  /\ ((default (1 # 2) quality <= 1)%Q ->
      (PDFProcessorService._calculate_confidence quality ds <= 80)%Q)
  /\ (NPIRegistryService._calculate_confidence [] == 100)%Q
  /\ (NPIRegistryService._calculate_confidence (ds ++ more)
      <= NPIRegistryService._calculate_confidence ds)%Q
  /\ (GooglePlacesService._calculate_confidence place_data (ds ++ more)
      <= GooglePlacesService._calculate_confidence place_data ds)%Q
  /\ (WebScraperService._calculate_confidence scraped_data (ds ++ more)
      <= WebScraperService._calculate_confidence scraped_data ds)%Q
  /\ (PDFProcessorService._calculate_confidence quality (ds ++ more)
      <= PDFProcessorService._calculate_confidence quality ds)%Q.
Proof.
  pose proof (deduction_nonneg 20 10 5 ds) as H1.
  pose proof (deduction_nonneg 25 12 5 ds) as H2.
  pose proof (deduction_nonneg 15 8 3 ds) as H3.
  pose proof (deduction_nonneg 20 10 5 more) as M1.
  pose proof (deduction_nonneg 25 12 5 more) as M2.
  pose proof (deduction_nonneg 15 8 3 more) as M3.
  rewrite !npi_confidence_closed, !google_confidence_closed,
    !website_confidence_closed, !pdf_confidence_closed, !deduction_app.
  split; [apply clamp_0_100_bounds|].
  split.
  { split; [apply clamp_0_100_bounds|]. apply clamp_0_100_below; [|lra].
    destruct (bool_decide _), (50 <? _)%Z; lra. }
  split.
  { split; [apply clamp_0_100_bounds|]. apply clamp_0_100_below; [|lra].
    destruct (WebScraperService.truthy_list _),
      (WebScraperService.truthy_string _); lra. }
  split; [apply clamp_0_100_bounds|].
  split.
  { intros Hq. apply clamp_0_100_below; lra. }
  split.
  { rewrite deduction_nil. reflexivity. }
  repeat split; apply clamp_0_100_mono; lra.
Qed.
